(** * Reddit image collection: the local and the Airflow/GCS pipelines

    A shallow embedding of [data_collection/get_new_data_apache.py] and
    [data_collection/get_new_data_local.py]: the flair / image / NSFW /
    novelty filter loop with its funnel counters, the file-extension and
    file-name derivation, the lookup of already collected submission ids and
    the update of the per-subreddit [metadata.csv].

    Python [str] is [string] (a byte sequence), Python [int] is [Z], a Python
    [set] of strings is [gset string], a [dict] with string keys is
    [gmap string _], and a [dict] that is iterated in insertion order is an
    association list.  A call that may raise returns a [Result]. *)

From Stdlib Require Import ZArith Ascii String.
From stdpp Require Import gmap strings list fin_maps.

Local Open Scope string_scope.
Local Open Scope Z_scope.

(** ** Python string operations used by the scripts *)

Module PyStr.

(** [s[n:]] and [s[:n]] for a non-negative [n]. *)
Fixpoint drop (n : nat) (s : string) : string :=
  match n, s with
  | O, _ => s
  | S _, EmptyString => EmptyString
  | S n', String _ s' => drop n' s'
  end.

Fixpoint take (n : nat) (s : string) : string :=
  match n, s with
  | O, _ => EmptyString
  | S _, EmptyString => EmptyString
  | S n', String a s' => String a (take n' s')
  end.

(** [s.endswith(suffix)]: byte-wise, hence case-sensitive. *)
Definition endswith (s suffix : string) : bool :=
  (String.length suffix <=? String.length s)%nat
  && String.eqb (drop (String.length s - String.length suffix) s) suffix.

(** [s.endswith((x, y, ...))] with a tuple of suffixes. *)
Definition endswith_any (s : string) (suffixes : list string) : bool :=
  existsb (endswith s) suffixes.

(** [s.find(c)] and [s.rfind(c)] for a one-character [c]: the lowest and the
    highest index of [c] in [s], or [-1]. *)
Fixpoint find (c : ascii) (s : string) : Z :=
  match s with
  | EmptyString => -1
  | String a s' =>
      if Ascii.eqb a c then 0
      else let i := find c s' in if i <? 0 then -1 else i + 1
  end.

Fixpoint rfind (c : ascii) (s : string) : Z :=
  match s with
  | EmptyString => -1
  | String a s' =>
      let i := rfind c s' in
      if 0 <=? i then i + 1
      else if Ascii.eqb a c then 0 else -1
  end.

(** [s.find(c, start)] for [0 <= start]. *)
Definition find_from (c : ascii) (s : string) (start : Z) : Z :=
  let i := find c (drop (Z.to_nat start) s) in
  if i <? 0 then -1 else start + i.

(** [c in s]. *)
Definition contains (c : ascii) (s : string) : bool := 0 <=? find c s.

Definition is_upper (a : ascii) : bool :=
  let n := nat_of_ascii a in ((65 <=? n) && (n <=? 90))%nat.

Definition is_lower (a : ascii) : bool :=
  let n := nat_of_ascii a in ((97 <=? n) && (n <=? 122))%nat.

Definition is_digit (a : ascii) : bool :=
  let n := nat_of_ascii a in ((48 <=? n) && (n <=? 57))%nat.

(** [str.lower] on the ASCII range; bytes outside [A-Z] are left alone
    (URLs and file extensions are ASCII). *)
Definition lower_char (a : ascii) : ascii :=
  if is_upper a then ascii_of_nat (nat_of_ascii a + 32) else a.

Fixpoint lower (s : string) : string :=
  match s with
  | EmptyString => EmptyString
  | String a s' => String (lower_char a) (lower s')
  end.

Fixpoint forallb_str (p : ascii -> bool) (s : string) : bool :=
  match s with
  | EmptyString => true
  | String a s' => p a && forallb_str p s'
  end.

(** [s.lstrip(chars)] and [s.replace(c, "")], given as predicates on the
    characters dropped. *)
Fixpoint lstrip (p : ascii -> bool) (s : string) : string :=
  match s with
  | EmptyString => EmptyString
  | String a s' => if p a then lstrip p s' else s
  end.

Fixpoint remove (p : ascii -> bool) (s : string) : string :=
  match s with
  | EmptyString => EmptyString
  | String a s' => if p a then remove p s' else String a (remove p s')
  end.

(** [s.split(c, 1)] when [c in s]: the text before and after the first
    [c]. *)
Definition split_once (c : ascii) (s : string) : string * string :=
  let i := Z.to_nat (find c s) in (take i s, drop (S i) s).

End PyStr.

(** ** The library calls behind [get_file_extension]

    [urllib.parse.urlparse] and [os.path.splitext] (POSIX flavour) as CPython
    3.11 computes them.  [urlparse] raises [ValueError] on a malformed
    bracketed host; that case is left out: [get_file_extension] is only
    reached after [requests.get] was given the same URL. *)

Module Urllib.
Import PyStr.

Record ParseResult := {
  scheme : string;
  netloc : string;
  path : string;
  params : string;
  query : string;
  fragment : string
}.

Definition c0_control_or_space (a : ascii) : bool :=
  (nat_of_ascii a <=? 32)%nat.

(** ["\t"], ["\r"] and ["\n"]. *)
Definition unsafe_url_byte (a : ascii) : bool :=
  let n := nat_of_ascii a in ((n =? 9) || (n =? 13) || (n =? 10))%nat.

Definition scheme_char (a : ascii) : bool :=
  is_lower a || is_upper a || is_digit a
  || Ascii.eqb a "+" || Ascii.eqb a "-" || Ascii.eqb a ".".

Definition uses_params : list string :=
  [""; "ftp"; "hdl"; "prospero"; "http"; "imap"; "https"; "shttp"; "rtsp";
   "rtspu"; "sip"; "sips"; "mms"; "sftp"; "tel"].

(** [url[start:delim], url[delim:]] with [delim] the first of [/ ? #] at or
    after [start]. *)
Definition splitnetloc (url : string) (start : Z) : string * string :=
  let step (delim : Z) (c : ascii) :=
    let wdelim := find_from c url start in
    if 0 <=? wdelim then Z.min delim wdelim else delim in
  let delim :=
    fold_left step ["/"; "?"; "#"]%char (Z.of_nat (String.length url)) in
  (take (Z.to_nat (delim - start)) (drop (Z.to_nat start) url),
   drop (Z.to_nat delim) url).

Definition has_scheme (url : string) (i : Z) : bool :=
  (0 <? i)
  && match url with
     | EmptyString => false
     | String a _ => is_lower a || is_upper a
     end
  && forallb_str scheme_char (take (Z.to_nat i) url).

(** [urlsplit(url)], as (scheme, netloc, path, query, fragment). *)
Definition urlsplit (url : string)
  : string * string * string * string * string :=
  let url := lstrip c0_control_or_space url in
  let url := remove unsafe_url_byte url in
  let i := find ":" url in
  let '(scheme, url) :=
    if has_scheme url i
    then (lower (take (Z.to_nat i) url), drop (Z.to_nat (i + 1)) url)
    else ("", url) in
  let '(netloc, url) :=
    if String.eqb (take 2 url) "//" then splitnetloc url 2 else ("", url) in
  let '(url, fragment) :=
    if contains "#" url then split_once "#" url else (url, "") in
  let '(url, query) :=
    if contains "?" url then split_once "?" url else (url, "") in
  (scheme, netloc, url, query, fragment).

Definition splitparams (url : string) : string * string :=
  if contains "/" url then
    let i := find_from ";" url (rfind "/" url) in
    if i <? 0 then (url, "")
    else (take (Z.to_nat i) url, drop (Z.to_nat (i + 1)) url)
  else
    let i := find ";" url in
    (take (Z.to_nat i) url, drop (Z.to_nat (i + 1)) url).

Definition urlparse (url : string) : ParseResult :=
  let '(scheme, netloc, url, query, fragment) := urlsplit url in
  let '(url, params) :=
    if existsb (String.eqb scheme) uses_params && contains ";" url
    then splitparams url else (url, "") in
  {| scheme := scheme; netloc := netloc; path := url; params := params;
     query := query; fragment := fragment |}.

End Urllib.

Module PosixPath.
Import PyStr.

(** The [while filenameIndex < dotIndex] loop of [_splitext], with [n] the
    number of iterations left: [true] when it meets a character other than
    the dot, which is where the Python loop returns the split. *)
Fixpoint skip_leading_dots (n : nat) (p : string) (filenameIndex : Z) : bool :=
  match n with
  | O => false
  | S n' =>
      if negb (String.eqb (take 1 (drop (Z.to_nat filenameIndex) p)) ".")
      then true
      else skip_leading_dots n' p (filenameIndex + 1)
  end.

(** [os.path.splitext(p)]: (root, ext). *)
Definition splitext (p : string) : string * string :=
  let sepIndex := rfind "/" p in
  let dotIndex := rfind "." p in
  if (sepIndex <? dotIndex)
     && skip_leading_dots (Z.to_nat (dotIndex - (sepIndex + 1))) p (sepIndex + 1)
  then (take (Z.to_nat dotIndex) p, drop (Z.to_nat dotIndex) p)
  else (p, "").

End PosixPath.

(** ** Configuration *)

Definition DALLE_SUBR : string := "dalle2".
Definition MIDJ_SUBR : string := "midjourney".
Definition AIART_SUBR : string := "aiArt".
Definition SUBREDDITS : list string := [DALLE_SUBR; MIDJ_SUBR; AIART_SUBR].

Definition GCS_BUCKET : string := "art-bkt".
Definition DATA_DIR : string := "data_collection/data".

Definition CONTENT_TYPE_MAP : gmap string string :=
  <[".jpg" := "image/jpeg"]>
    (<[".jpeg" := "image/jpeg"]> (<[".png" := "image/png"]> ∅)).

Definition FLAIR_DICT : gmap string (gset string) :=
  <[DALLE_SUBR := {["DALL·E 2"; "DALL·E 3"]}]>
    (<[MIDJ_SUBR := {["AI Showcase - Midjourney"]}]>
       (<[AIART_SUBR := {["Image - DALL E 3 :a2:"; "Image - Midjourney :a2:"]}]> ∅)).

Definition AIART_MAP : gmap string string :=
  <["Image - DALL E 3 :a2:" := DALLE_SUBR]>
    (<["Image - Midjourney :a2:" := MIDJ_SUBR]> ∅).

Definition image_extensions : list string := [".jpg"; ".jpeg"; ".png"].

(** ** [get_file_extension] (the same in both scripts) *)

Definition get_file_extension (url : string) : string :=
  let parsed_url := Urllib.urlparse url in
  let '(_, ext) := PosixPath.splitext (Urllib.path parsed_url) in
  if String.eqb ext "" then ".jpg" else PyStr.lower ext.

(** ** Exceptions *)

Inductive exn :=
| KeyError            (* a missing [dict] key or data-frame column *)
| FileNotFoundError   (* opening a path that does not exist *)
| EmptyDataError      (* [pd.read_csv] on an empty text *)
| ParserError         (* [pd.read_csv] / [decode] on anything but a table *)
| RequestException    (* [requests.get]: connection error or timeout *)
| StorageError.       (* a refused upload or file write *)

Inductive Result (A : Type) :=
| Ok (a : A)
| Raise (e : exn).
Arguments Ok {A} a.
Arguments Raise {A} e.

Global Instance Result_ret : MRet Result := λ A a, Ok a.
Global Instance Result_bind : MBind Result := λ A B f m,
  match m with
  | Ok a => f a
  | Raise e => Raise e
  end.

Definition is_ok {A} (r : Result A) : bool :=
  match r with Ok _ => true | Raise _ => false end.

(** ** Data *)

(** A PRAW submission, as far as the scripts read it. [link_flair_text] is
    [None] for a post without flair. *)
Module Submission.
Record t := mk {
  id : string;
  link_flair_text : option string;
  url : string;
  over_18 : bool;
  created_utc : Z
}.
End Submission.

(** What [requests.get] returns when it does not raise. The scripts read
    [content] only; [status_code] is never looked at. *)
Module Response.
Record t := mk { status_code : Z; content : string }.
End Response.

(** One entry of [new_images]. The key ['flair'] exists in the local script
    only ([None] in the Airflow one). *)
Module Image.
Record t := mk {
  submission_id : string;
  filename : string;
  url : string;
  subreddit : string;
  date : string;
  target_subr : string;
  flair : option string
}.
End Image.

(** One data row of a [metadata.csv]. *)
Module Row.
Record t := mk {
  submission_id : string;
  filename : string;
  url : string;
  subreddit : string;
  date : string
}.

Definition of_image (img : Image.t) : t :=
  {| submission_id := Image.submission_id img;
     filename := Image.filename img;
     url := Image.url img;
     subreddit := Image.subreddit img;
     date := Image.date img |}.
End Row.

Module Stats.
Record t := mk {
  subreddit : string;
  checked : Z;
  passed_flair : Z;
  passed_image : Z;
  passed_nsfw : Z;
  new_images : Z;
  download_errors : Z;
  images : list Image.t
}.

Definition init (subr : string) : t := mk subr 0 0 0 0 0 0 [].

Definition incr_checked (s : t) : t :=
  mk (subreddit s) (checked s + 1) (passed_flair s) (passed_image s)
     (passed_nsfw s) (new_images s) (download_errors s) (images s).
Definition incr_passed_flair (s : t) : t :=
  mk (subreddit s) (checked s) (passed_flair s + 1) (passed_image s)
     (passed_nsfw s) (new_images s) (download_errors s) (images s).
Definition incr_passed_image (s : t) : t :=
  mk (subreddit s) (checked s) (passed_flair s) (passed_image s + 1)
     (passed_nsfw s) (new_images s) (download_errors s) (images s).
Definition incr_passed_nsfw (s : t) : t :=
  mk (subreddit s) (checked s) (passed_flair s) (passed_image s)
     (passed_nsfw s + 1) (new_images s) (download_errors s) (images s).
Definition incr_new_images (s : t) : t :=
  mk (subreddit s) (checked s) (passed_flair s) (passed_image s)
     (passed_nsfw s) (new_images s + 1) (download_errors s) (images s).
Definition incr_download_errors (s : t) : t :=
  mk (subreddit s) (checked s) (passed_flair s) (passed_image s)
     (passed_nsfw s) (new_images s) (download_errors s + 1) (images s).
Definition set_images (l : list Image.t) (s : t) : t :=
  mk (subreddit s) (checked s) (passed_flair s) (passed_image s)
     (passed_nsfw s) (new_images s) (download_errors s) l.
End Stats.

(** ** Stored data

    What a blob or a file holds is kept as a sequence of chunks: the header
    line of a [metadata.csv], one line per row, or raw bytes.  [read_csv]
    below reads a header followed by row lines as the rows of text they were
    written from, and raises on anything else.  It does not follow pandas in
    how a column is typed (an id column of digits is read as numbers) nor in
    which texts it still accepts; where a statement depends on that, pandas
    is taken as given instead ([Pandas], after the two scripts). *)

Inductive Chunk :=
| Header
| Line (r : Row.t)
| Bytes (data : string).

Fixpoint lines_rows (data : list Chunk) : option (list Row.t) :=
  match data with
  | [] => Some []
  | Line r :: rest => cons r <$> lines_rows rest
  | _ :: _ => None
  end.

Definition read_csv (data : list Chunk) : Result (list Row.t) :=
  match data with
  | [] => Raise EmptyDataError
  | Header :: rest =>
      match lines_rows rest with
      | Some rows => Ok rows
      | None => Raise ParserError
      end
  | _ :: _ => Raise ParserError
  end.

Definition to_csv (rows : list Row.t) : list Chunk := Header :: map Line rows.

(** [set(df['submission_id'])], for an id column that is read as text. *)
Definition submission_ids (rows : list Row.t) : gset string :=
  list_to_set (map Row.submission_id rows).

(** ** Logging *)

Inductive Level := INFO | WARNING | ERROR.

(** A log record: its level and the subreddit its message names (the texts
    themselves are not kept). *)
Record LogRecord := { levelname : Level; about : string }.

(** ** The outside world

    The Reddit listing, [requests.get], the local-time ISO date of an epoch
    and the storage paths on which a write is refused, fixed for one run.
    The listing is what [subreddit.new] yields before the [limit] is applied.
    A response is returned whatever its status: [requests.get] raises on
    connection errors and timeouts only.  The date conversion is taken as
    defined on every [created_utc] of the listing: these are epochs of real
    posts. *)

Record World := {
  (** [reddit.subreddit(subr).new(...)], newest first *)
  subreddit_new : string → list Submission.t;
  (** [requests.get(url, timeout=10)] *)
  requests_get : string → Result Response.t;
  (** [datetime.fromtimestamp(t).isoformat()] *)
  isoformat : Z → string;
  (** object keys / file paths whose write raises *)
  write_fails : string → bool
}.

(** ** The collection loop

    [upload_new_images_to_gcs] and [collect_new_images_from_subreddit_local]
    run the same loop; they differ in the flair test, in where the image is
    written, and in the ['flair'] key of the collected entry.  The loop is
    written once over these three. *)

(** The target subreddit of a submission ([if subr == AIART_SUBR: ... else:
    ...] inside the [try]). *)
Definition resolve_target_subr (subr : string) (link_flair_text : option string)
  : Result string :=
  if bool_decide (subr = AIART_SUBR) then
    match link_flair_text with
    | Some f =>
        match AIART_MAP !! f with
        | Some target_subr => Ok target_subr
        | None => Raise KeyError
        end
    | None => Raise KeyError
    end
  else Ok subr.

(** [f"img_{target_subr}_{submission.id}{original_ext}"] *)
Definition image_filename (target_subr id original_ext : string) : string :=
  "img_" ++ target_subr ++ "_" ++ id ++ original_ext.

(** The variables of the loop: the counters, [new_images] and the storage. *)
Record Loop (Store : Type) := {
  stats : Stats.t;
  new_images : list Image.t;
  store : Store
}.
Arguments stats {Store} _.
Arguments new_images {Store} _.
Arguments store {Store} _.

Section Collect.
Context {Store : Type}.

(** [true] when the flair test sends the loop to [continue]. *)
Variable flair_rejected : option string → gset string → bool.
(** Writing the image: arguments are the target subreddit, the file name,
    the extension and the downloaded bytes. *)
Variable save_image :
  World → Store → string → string → string → string → Store * Result unit.
(** The value kept under ['flair'], if the script keeps one. *)
Variable flair_key : option string → option string.

Variable w : World.
Variable subr : string.
Variable flair : gset string.
Variable existing_ids : gset string.

(** The body of the [try]. *)
Definition download (st : Store) (submission : Submission.t)
  : Store * Result Image.t :=
  match requests_get w (Submission.url submission) with
  | Raise e => (st, Raise e)
  | Ok response =>
      let original_ext := get_file_extension (Submission.url submission) in
      match resolve_target_subr subr (Submission.link_flair_text submission) with
      | Raise e => (st, Raise e)
      | Ok target_subr =>
          let filename :=
            image_filename target_subr (Submission.id submission) original_ext in
          match save_image w st target_subr filename original_ext
                  (Response.content response) with
          | (st', Raise e) => (st', Raise e)
          | (st', Ok _) =>
              (st', Ok {| Image.submission_id := Submission.id submission;
                          Image.filename := filename;
                          Image.url := Submission.url submission;
                          Image.subreddit := subr;
                          Image.date :=
                            isoformat w (Submission.created_utc submission);
                          Image.target_subr := target_subr;
                          Image.flair :=
                            flair_key (Submission.link_flair_text submission) |})
          end
      end
  end.

Definition bump (f : Stats.t → Stats.t) (L : Loop Store) : Loop Store :=
  {| stats := f (stats L); new_images := new_images L; store := store L |}.

(** One iteration of [for submission in subreddit.new(limit=1000)]. *)
Definition process (L : Loop Store) (submission : Submission.t) : Loop Store :=
  let L := bump Stats.incr_checked L in
  if flair_rejected (Submission.link_flair_text submission) flair then L else
  let L := bump Stats.incr_passed_flair L in
  if negb (PyStr.endswith_any (Submission.url submission) image_extensions)
  then L else
  let L := bump Stats.incr_passed_image L in
  if Submission.over_18 submission then L else
  let L := bump Stats.incr_passed_nsfw L in
  if bool_decide (Submission.id submission ∈ existing_ids) then L else
  match download (store L) submission with
  | (st', Ok img) =>
      {| stats := Stats.incr_new_images (stats L);
         new_images := (new_images L ++ [img])%list;
         store := st' |}
  | (st', Raise _) =>
      {| stats := Stats.incr_download_errors (stats L);
         new_images := new_images L;
         store := st' |}
  end.

(** How far a submission gets: past the flair test, past the image test,
    past the NSFW test, and into the [try]. *)
Definition passes_flair (submission : Submission.t) : bool :=
  negb (flair_rejected (Submission.link_flair_text submission) flair).
Definition passes_image (submission : Submission.t) : bool :=
  passes_flair submission
  && PyStr.endswith_any (Submission.url submission) image_extensions.
Definition passes_nsfw (submission : Submission.t) : bool :=
  passes_image submission && negb (Submission.over_18 submission).
Definition is_new (submission : Submission.t) : bool :=
  passes_nsfw submission
  && negb (bool_decide (Submission.id submission ∈ existing_ids)).

Definition collect_loop (L : Loop Store) (feed : list Submission.t)
  : Loop Store :=
  foldl process L feed.

(** From [stats = {...}] to [stats['images'] = new_images]: the returned
    [stats] and the storage afterwards. *)
Definition collect (st : Store) : Stats.t * Store :=
  let L :=
    collect_loop
      {| stats := Stats.init subr; new_images := []; store := st |}
      (take 1000 (subreddit_new w subr)) in
  (Stats.set_images (new_images L) (stats L), store L).

End Collect.

(** Grouping [new_images] by ['target_subr']: the [dict] [images_by_target],
    kept in insertion order because the merge loop iterates over it. *)
Fixpoint group_append (target_subr : string) (img : Image.t)
    (d : list (string * list Image.t)) : list (string * list Image.t) :=
  match d with
  | [] => [(target_subr, [img])]
  | (k, imgs) :: d' =>
      if bool_decide (k = target_subr) then (k, (imgs ++ [img])%list) :: d'
      else (k, imgs) :: group_append target_subr img d'
  end.

Definition images_by_target (new_images : list Image.t)
  : list (string * list Image.t) :=
  foldl (λ d img, group_append (Image.target_subr img) img d) [] new_images.

(** ** The metadata update

    [update_metadata_csv] and [update_metadata_csv_local] share everything
    but the body of the [for] loop over [images_by_target], which is taken
    as [merge_target] here. *)

Section Merge.
Context {Store : Type}.

(** One iteration of [for target_subr, images in images_by_target.items()]:
    the storage afterwards, and the [logger.info] record or the exception. *)
Variable merge_target :
  World → Store → string → list Image.t → Store * Result LogRecord.

(** The [for] loop inside the [try]: it stops at the first exception. *)
Fixpoint merge_loop (w : World) (st : Store)
    (groups : list (string * list Image.t))
  : Store * list LogRecord * Result unit :=
  match groups with
  | [] => (st, [], Ok ())
  | (target_subr, images) :: rest =>
      match merge_target w st target_subr images with
      | (st', Raise e) => (st', [], Raise e)
      | (st', Ok r) =>
          let '(st'', log, res) := merge_loop w st' rest in
          (st'', r :: log, res)
      end
  end.

(** The whole function: the storage afterwards and what was logged. *)
Definition update_metadata (w : World) (st : Store) (subr : string)
    (new_images : list Image.t) : Store * list LogRecord :=
  match new_images with
  | [] => (st, [{| levelname := INFO; about := subr |}])
  | _ :: _ =>
      match merge_loop w st (images_by_target new_images) with
      | (st', log, Ok _) => (st', log)
      | (st', log, Raise _) =>
          (st', (log ++ [{| levelname := ERROR; about := subr |}])%list)
      end
  end.

End Merge.

(** ** The Airflow / GCS script *)

Module Apache.

Record Blob := { data : list Chunk; content_type : string }.

(** The bucket: its objects by name, and the names uploaded so far, oldest
    first. *)
Record GCS := {
  objects : gmap string Blob;
  uploads : list string
}.

(** [bucket.blob(name).upload_from_string(data, content_type=...)] *)
Definition upload_from_string (w : World) (gcs : GCS) (name : string)
    (b : Blob) : GCS * Result unit :=
  if write_fails w name then (gcs, Raise StorageError)
  else ({| objects := <[name := b]> (objects gcs);
           uploads := (uploads gcs ++ [name])%list |}, Ok ()).

Definition metadata_blob (subr : string) : string := subr ++ "/metadata.csv".

(** The [try] of [get_gcs_submission_ids]; the second component is the
    warning of the [else] branch.  Creating the storage client, which comes
    before the [try], is not part of the model. *)
Definition read_submission_ids (gcs : GCS) (subr : string)
  : Result (gset string * list LogRecord) :=
  match objects gcs !! metadata_blob subr with
  | Some blob =>
      df ← read_csv (data blob);
      Ok (submission_ids df, [])
  | None =>
      Ok (∅, [{| levelname := WARNING; about := subr |}])
  end.

Definition get_gcs_submission_ids (gcs : GCS) (subr : string)
  : gset string * list LogRecord :=
  match read_submission_ids gcs subr with
  | Ok r => r
  | Raise _ =>
      (∅, [{| levelname := WARNING; about := subr |}])
  end.

(** [not submission.link_flair_text or submission.link_flair_text not in
    flair] *)
Definition flair_rejected (link_flair_text : option string)
    (flair : gset string) : bool :=
  match link_flair_text with
  | None => true
  | Some f => String.eqb f "" || negb (bool_decide (f ∈ flair))
  end.

Definition save_image (w : World) (gcs : GCS)
    (target_subr filename original_ext content : string)
  : GCS * Result unit :=
  upload_from_string w gcs (target_subr ++ "/" ++ filename)
    {| data := [Bytes content];
       content_type := default "image/jpeg" (CONTENT_TYPE_MAP !! original_ext) |}.

(** The loop body and the loop of this script. *)
Definition loop_body :=
  process flair_rejected save_image (λ _, None).
Definition loop := collect_loop flair_rejected save_image (λ _, None).

(** The returned [stats]; [stats['images']] is also what is pushed to XCom
    under [f'{subr}_images']. *)
Definition upload_new_images_to_gcs (w : World) (gcs : GCS) (subr : string)
  : Result (Stats.t * GCS) :=
  match FLAIR_DICT !! subr with
  | None => Raise KeyError
  | Some flair =>
      let existing_ids := (get_gcs_submission_ids gcs subr).1 in
      Ok (collect flair_rejected save_image (λ _, None) w subr flair
            existing_ids gcs)
  end.

(** One iteration of [for target_subr, images in images_by_target.items()],
    with the stored table read as rows of text and written back as such
    ([ApacheFrames.merge_target] leaves the frames to pandas). *)
Definition merge_target (w : World) (gcs : GCS) (target_subr : string)
    (images : list Image.t) : GCS * Result LogRecord :=
  let name := metadata_blob target_subr in
  let existing : Result (option (list Row.t)) :=
    match objects gcs !! name with
    | Some blob => df ← read_csv (data blob); Ok (Some df)
    | None => Ok None
    end in
  match existing with
  | Raise e => (gcs, Raise e)
  | Ok df_existing =>
      let df_new := map Row.of_image images in
      let df_combined :=
        match df_existing with
        | Some df => (df ++ df_new)%list
        | None => df_new
        end in
      match upload_from_string w gcs name
              {| data := to_csv df_combined; content_type := "text/csv" |} with
      | (gcs', Raise e) => (gcs', Raise e)
      | (gcs', Ok _) =>
          (gcs', Ok {| levelname := INFO; about := target_subr |})
      end
  end.

(** The rows of a subreddit's [metadata.csv]: none when the blob is
    missing or cannot be read. *)
Definition stored_rows (gcs : GCS) (subr : string) : list Row.t :=
  match objects gcs !! metadata_blob subr with
  | Some blob =>
      match read_csv (data blob) with
      | Ok rows => rows
      | Raise _ => []
      end
  | None => []
  end.

(** How often [name] was uploaded. *)
Definition upload_count (gcs : GCS) (name : string) : nat :=
  length (filter (λ k, k = name) (uploads gcs)).

(** What the bucket holds as a subreddit's [metadata.csv], and how often
    that blob was uploaded. *)
Definition metadata_view (gcs : GCS) (subr : string) : option Blob * nat :=
  (objects gcs !! metadata_blob subr, upload_count gcs (metadata_blob subr)).

(** [new_images] is what [xcom_pull(key=f'{subr}_images')] returns. *)
Definition update_metadata_csv
  : World → GCS → string → list Image.t → GCS * list LogRecord :=
  update_metadata merge_target.

(** The two tasks of one subreddit, [collect_tasks[subr] >>
    metadata_tasks[subr]]. *)
Definition run_subreddit (w : World) (gcs : GCS) (subr : string)
  : Result (Stats.t * GCS) :=
  '(stats, gcs') ← upload_new_images_to_gcs w gcs subr;
  Ok (stats, (update_metadata_csv w gcs' subr (Stats.images stats)).1).

End Apache.

(** ** The local script *)

Module Local.

(** The file system under the working directory: the directories that
    exist, the files by path, and the paths written so far, oldest first. *)
Record FS := {
  dirs : gset string;
  files : gmap string (list Chunk);
  writes : list string
}.

Definition subr_dir (subr : string) : string := DATA_DIR ++ "/" ++ subr.
Definition metadata_path (subr : string) : string :=
  subr_dir subr ++ "/metadata.csv".

(** No [try] here: what [pd.read_csv] raises leaves the function. *)
Definition get_existing_image_ids_local (fs : FS) (subr : string)
  : Result (gset string * list LogRecord) :=
  if negb (bool_decide (subr_dir subr ∈ dirs fs)) then
    Ok (∅, [{| levelname := WARNING; about := subr |}])
  else
    match files fs !! metadata_path subr with
    | None => Raise FileNotFoundError
    | Some data =>
        df ← read_csv data;
        Ok (submission_ids df, [{| levelname := INFO; about := subr |}])
    end.

(** [submission.link_flair_text not in flair] *)
Definition flair_rejected (link_flair_text : option string)
    (flair : gset string) : bool :=
  match link_flair_text with
  | None => true
  | Some f => negb (bool_decide (f ∈ flair))
  end.

(** [target_dir.mkdir(parents=True, exist_ok=True)], then the [with
    open(filepath, 'wb')] block; a refused write raises at [open]. *)
Definition save_image (w : World) (fs : FS)
    (target_subr filename original_ext content : string)
  : FS * Result unit :=
  let target_dir := subr_dir target_subr in
  let dirs' := {[ "data_collection"; DATA_DIR; target_dir ]} ∪ dirs fs in
  let filepath := target_dir ++ "/" ++ filename in
  if write_fails w filepath then
    ({| dirs := dirs'; files := files fs; writes := writes fs |},
     Raise StorageError)
  else
    ({| dirs := dirs';
        files := <[filepath := [Bytes content]]> (files fs);
        writes := (writes fs ++ [filepath])%list |}, Ok ()).

(** The loop body and the loop of this script. *)
Definition loop_body :=
  process flair_rejected save_image (λ t, t).
Definition loop := collect_loop flair_rejected save_image (λ t, t).

Definition collect_new_images_from_subreddit_local (w : World) (fs : FS)
    (subr : string) (flair : gset string) : Result (Stats.t * FS) :=
  '(existing_ids, _) ← get_existing_image_ids_local fs subr;
  Ok (collect flair_rejected save_image (λ t, t) w subr flair existing_ids fs).

(** One iteration of [for target_subr, images in images_by_target.items()]:
    [open(csv_path, 'a')] needs the directory, writes the header only into
    a new file, and adds the rows at the end of what is there. *)
Definition merge_target (w : World) (fs : FS) (target_subr : string)
    (images : list Image.t) : FS * Result LogRecord :=
  let target_dir := subr_dir target_subr in
  let csv_path := metadata_path target_subr in
  let file_exists := bool_decide (is_Some (files fs !! csv_path)) in
  if negb (bool_decide (target_dir ∈ dirs fs)) then (fs, Raise FileNotFoundError)
  else if write_fails w csv_path then (fs, Raise StorageError)
  else
    let old := default [] (files fs !! csv_path) in
    let header := if file_exists then [] else [Header] in
    ({| dirs := dirs fs;
        files :=
          <[csv_path := (old ++ header ++ map (λ img, Line (Row.of_image img)) images)%list]>
            (files fs);
        writes := (writes fs ++ [csv_path])%list |},
     Ok {| levelname := INFO; about := target_subr |}).

(** How often [path] was written. *)
Definition write_count (fs : FS) (path : string) : nat :=
  length (filter (λ k, k = path) (writes fs)).

(** The [metadata.csv] of a subreddit as it is on disk, and how often it
    was written. *)
Definition metadata_view (fs : FS) (subr : string)
  : option (list Chunk) * nat :=
  (files fs !! metadata_path subr, write_count fs (metadata_path subr)).

(** The rows of a subreddit's [metadata.csv]: none when the file is missing
    or cannot be read. *)
Definition stored_rows (fs : FS) (subr : string) : list Row.t :=
  match files fs !! metadata_path subr with
  | Some data =>
      match read_csv data with
      | Ok rows => rows
      | Raise _ => []
      end
  | None => []
  end.

Definition update_metadata_csv_local
  : World → FS → string → list Image.t → FS * list LogRecord :=
  update_metadata merge_target.

(** One round of [for subr in SUBREDDITS] in
    [collect_all_subreddit_images_local]. *)
Definition run_subreddit (w : World) (fs : FS) (subr : string)
  : Result (Stats.t * FS) :=
  match FLAIR_DICT !! subr with
  | None => Raise KeyError
  | Some flair =>
      '(stats, fs') ← collect_new_images_from_subreddit_local w fs subr flair;
      Ok (stats, (update_metadata_csv_local w fs' subr (Stats.images stats)).1)
  end.

(** The [for subr in SUBREDDITS] loop: [all_stats] and the files
    afterwards, or the exception that ends the script.  The daily log that
    is written from [all_stats] afterwards is left out. *)
Fixpoint collect_subreddits (w : World) (fs : FS) (subrs : list string)
  : Result (list Stats.t * FS) :=
  match subrs with
  | [] => Ok ([], fs)
  | subr :: rest =>
      '(stats, fs') ← run_subreddit w fs subr;
      '(all_stats, fs'') ← collect_subreddits w fs' rest;
      Ok (stats :: all_stats, fs'')
  end.

Definition collect_all_subreddit_images_local (w : World) (fs : FS)
  : Result (list Stats.t * FS) :=
  collect_subreddits w fs SUBREDDITS.

End Local.

(** ** The data frames of the Airflow script

    [update_metadata_csv] does not add lines to the stored text: it parses
    the text into a data frame, puts the frame of the new rows after it and
    writes the combined frame out as the new text.  How [pd.read_csv] types
    the parsed columns, and with that how [to_csv] writes a stored cell back,
    is decided by pandas and not by the script, so it is taken as given.
    (The local script opens its file in append mode and never parses it.) *)

Module Pandas.
Record t := {
  (** [pd.concat([pd.read_csv(StringIO(csv_data)), pd.DataFrame(rows)],
      ignore_index=True).to_csv(index=False)] for the stored [csv_data] and
      the new [rows], or what [decode] or [pd.read_csv] raises on
      [csv_data] *)
  combined_csv : list Chunk → list Row.t → Result (list Chunk)
}.
End Pandas.

Module ApacheFrames.
Import Apache.

(** [csv_string], the text that one iteration of [for target_subr, images in
    images_by_target.items()] uploads, with the frames left to [pd].
    Without a stored blob it is the table of the new rows alone. *)
Definition csv_string (pd : Pandas.t) (gcs : GCS) (target_subr : string)
    (images : list Image.t) : Result (list Chunk) :=
  let df_new := map Row.of_image images in
  match objects gcs !! metadata_blob target_subr with
  | Some blob => Pandas.combined_csv pd (data blob) df_new
  | None => Ok (to_csv df_new)
  end.

(** One iteration of the loop: the bucket afterwards, and the [logger.info]
    record or the exception. *)
Definition merge_target (pd : Pandas.t) (w : World) (gcs : GCS)
    (target_subr : string) (images : list Image.t) : GCS * Result LogRecord :=
  match csv_string pd gcs target_subr images with
  | Raise e => (gcs, Raise e)
  | Ok text =>
      match upload_from_string w gcs (metadata_blob target_subr)
              {| data := text; content_type := "text/csv" |} with
      | (gcs', Raise e) => (gcs', Raise e)
      | (gcs', Ok _) =>
          (gcs', Ok {| levelname := INFO; about := target_subr |})
      end
  end.

Definition update_metadata_csv (pd : Pandas.t)
  : World → GCS → string → list Image.t → GCS * list LogRecord :=
  update_metadata (merge_target pd).

(** pandas on a table all of whose columns it reads as text: the stored rows
    come back as they were written.  With it the loop body above is
    [Apache.merge_target]. *)
Definition keeps_text : Pandas.t :=
  {| Pandas.combined_csv := λ csv_data rows,
       df ← read_csv csv_data; Ok (to_csv (df ++ rows)%list) |}.

End ApacheFrames.

(** The content-type test as a suffix test on the lower-cased path of the
    URL: the reading that is compared with the loop's own test below. *)
Definition path_has_image_extension (url : string) : bool :=
  PyStr.endswith_any (PyStr.lower (Urllib.path (Urllib.urlparse url)))
    image_extensions.

(** The funnel: no counter is negative, and no stage lets through more than
    it received. *)
Definition funnel_ok (s : Stats.t) : Prop :=
  0 ≤ Stats.new_images s
  ∧ 0 ≤ Stats.download_errors s
  ∧ Stats.new_images s + Stats.download_errors s ≤ Stats.passed_nsfw s
  ∧ Stats.passed_nsfw s ≤ Stats.passed_image s
  ∧ Stats.passed_image s ≤ Stats.passed_flair s
  ∧ Stats.passed_flair s ≤ Stats.checked s.

(** How many submissions of a listing satisfy [p]. *)
Definition count (p : Submission.t → bool) (l : list Submission.t) : Z :=
  Z.of_nat (length (filter (λ s, Is_true (p s)) l)).

(** ** Whether a download goes through

    The outcome of the [try] for one submission, started from an empty
    bucket or an empty disk: what is already stored plays no role in it. *)



(** The name under which the image of a collected entry is stored. *)
Definition image_blob (img : Image.t) : string :=
  Image.target_subr img ++ "/" ++ Image.filename img.
Definition image_path (img : Image.t) : string :=
  Local.subr_dir (Image.target_subr img) ++ "/" ++ Image.filename img.

(** ** The daily log *)

(** The [log_data] dictionary. *)
Module LogData.
Record t := mk {
  date : string;
  subreddit_stats : list Stats.t;
  total_new_images : Z;
  total_errors : Z
}.
End LogData.

(** [sum(s[...] for s in all_stats)] *)
Definition sum_of (f : Stats.t → Z) (all_stats : list Stats.t) : Z :=
  foldl (λ acc s, acc + f s) 0 all_stats.

(** [now] is [datetime.now().isoformat()]. *)
Definition log_data (now : string) (all_stats : list Stats.t) : LogData.t :=
  {| LogData.date := now;
     LogData.subreddit_stats := all_stats;
     LogData.total_new_images := sum_of Stats.new_images all_stats;
     LogData.total_errors := sum_of Stats.download_errors all_stats |}.

(** [create_daily_log] of the Airflow script.  [pulled subr] is what
    [xcom_pull(task_ids=f'collect_images_{subr}', key=f'{subr}_stats')]
    returns, [None] when that task pushed nothing; [dumps] is
    [json.dumps(_, indent=4)]; [stamp] is
    [datetime.now().strftime('%Y%m%d_%H%M%S')].  There is no [try]: a refused
    upload raises. *)
Definition create_daily_log (dumps : LogData.t → string) (w : World)
    (gcs : Apache.GCS) (pulled : string → option Stats.t) (now stamp : string)
  : Apache.GCS * Result LogData.t :=
  let all_stats := omap pulled SUBREDDITS in
  let data := log_data now all_stats in
  let log_filename := "logs/daily_collection_" ++ stamp ++ ".json" in
  match Apache.upload_from_string w gcs log_filename
          {| Apache.data := [Bytes (dumps data)];
             Apache.content_type := "application/json" |} with
  | (gcs', Raise e) => (gcs', Raise e)
  | (gcs', Ok _) => (gcs', Ok data)
  end.

(** [collect_all_subreddit_images_local] to its end: the loop over the
    subreddits, then the log written under [DATA_DIR / "logs"]. *)
Definition collect_all_and_log_local (dumps : LogData.t → string) (w : World)
    (fs : Local.FS) (now stamp : string) : Result (LogData.t * Local.FS) :=
  '(all_stats, fs') ← Local.collect_all_subreddit_images_local w fs;
  let data := log_data now all_stats in
  let logs_dir := DATA_DIR ++ "/logs" in
  let log_path := logs_dir ++ "/daily_collection_" ++ stamp ++ ".json" in
  if write_fails w log_path then Raise StorageError
  else
    Ok (data,
        {| Local.dirs := {[ "data_collection"; DATA_DIR; logs_dir ]} ∪ Local.dirs fs';
           Local.files := <[log_path := [Bytes (dumps data)]]> (Local.files fs');
           Local.writes := (Local.writes fs' ++ [log_path])%list |}).

(** ** The task graph of the Airflow script *)

Module Dag.

Definition collect_task (subr : string) : string := "collect_images_" ++ subr.
Definition metadata_task (subr : string) : string := "update_metadata_" ++ subr.
Definition create_log : string := "create_daily_log".

(** The pairs [(a, b)] of every [a >> b], in the order the two loops over
    the subreddits set them. *)
Definition dependencies (subrs : list string) : list (string * string) :=
  (map (λ subr, (collect_task subr, metadata_task subr)) subrs
   ++ map (λ subr, (metadata_task subr, create_log)) subrs)%list.

End Dag.

(** ** Sample runs

    Listings, worlds and stores used to run the scripts on concrete input. *)

Module Sample.

Definition world (listing : string → list Submission.t)
    (get : string → Result Response.t) (fails : string → bool) : World :=
  {| subreddit_new := listing;
     requests_get := get;
     isoformat := λ _, "2025-01-01T11:00:00";
     write_fails := fails |}.

Definition only (subr : string) (l : list Submission.t)
  : string → list Submission.t :=
  λ s, if String.eqb s subr then l else [].

Definition ok_200 : string → Result Response.t :=
  λ _, Ok (Response.mk 200 "image bytes").
Definition not_found_404 : string → Result Response.t :=
  λ _, Ok (Response.mk 404 "Not Found").
Definition times_out : string → Result Response.t :=
  λ _, Raise RequestException.
Definition never : string → bool := λ _, false.

Definition empty_gcs : Apache.GCS :=
  {| Apache.objects := ∅; Apache.uploads := [] |}.
Definition empty_fs : Local.FS :=
  {| Local.dirs := ∅; Local.files := ∅; Local.writes := [] |}.

(** A DALL-E post and a Midjourney post of r/aiArt. *)
Definition aiart_dalle : Submission.t :=
  Submission.mk "abc" (Some "Image - DALL E 3 :a2:")
    "https://i.redd.it/a.png" false 1735729200.
Definition aiart_midj : Submission.t :=
  Submission.mk "xyz" (Some "Image - Midjourney :a2:")
    "https://i.redd.it/m.jpg" false 1735729300.

(** Five posts of r/dalle2: two with an irrelevant or missing flair, one
    NSFW, one already collected, one new. *)
Definition no_flair : Submission.t :=
  Submission.mk "a1" None "https://i.redd.it/a.jpg" false 1735729201.
Definition meme : Submission.t :=
  Submission.mk "b2" (Some "Meme") "https://i.redd.it/b.png" false 1735729202.
Definition nsfw : Submission.t :=
  Submission.mk "c3" (Some "DALL·E 3") "https://i.redd.it/c.png" true 1735729203.
Definition seen : Submission.t :=
  Submission.mk "d4" (Some "DALL·E 2") "https://i.redd.it/d.jpg" false 1735729204.
Definition fresh : Submission.t :=
  Submission.mk "e5" (Some "DALL·E 3") "https://i.redd.it/e.jpeg" false 1735729205.
Definition five : list Submission.t := [no_flair; meme; nsfw; seen; fresh].

Definition seen_row : Row.t :=
  Row.mk "d4" "img_dalle2_d4.jpg" "https://i.redd.it/d.jpg" "dalle2"
    "2024-12-31T11:00:00".

(** A bucket and a data directory that already hold [seen]. *)
Definition gcs_with_seen : Apache.GCS :=
  {| Apache.objects :=
       {[ "dalle2/metadata.csv" :=
            {| Apache.data := to_csv [seen_row];
               Apache.content_type := "text/csv" |} ]};
     Apache.uploads := [] |}.
Definition fs_with_seen : Local.FS :=
  {| Local.dirs := {[ "data_collection/data/dalle2" ]};
     Local.files := {[ "data_collection/data/dalle2/metadata.csv" := to_csv [seen_row] ]};
     Local.writes := [] |}.

(** The worlds of the runs below: the five posts of r/dalle2, and the two
    posts of r/aiArt, with every download and every write going through. *)
Definition world_five : World := world (only "dalle2" five) ok_200 never.
Definition world_aiart : World :=
  world (only "aiArt" [aiart_dalle; aiart_midj]) ok_200 never.

(** A post of r/dalle2 whose URL path ends in [img.PNG] while the URL
    itself, with its query, ends in [.jpg]. *)
Definition upper_case_path : Submission.t :=
  Submission.mk "u7" (Some "DALL·E 2") "https://x.test/path/img.PNG?x=.jpg"
    false 1735729207.
Definition world_upper_case_path : World :=
  world (only "dalle2" [upper_case_path]) ok_200 never.

(** Posts of r/dalle2 with a relevant flair and an unusual URL: an
    upper-case extension, a query string after the extension, and an
    extension that only occurs in the query string. *)
Definition upper_case_ext : Submission.t :=
  Submission.mk "p1" (Some "DALL·E 2") "https://x.test/path/img.PNG"
    false 1735729211.
Definition with_query : Submission.t :=
  Submission.mk "p2" (Some "DALL·E 2") "https://i.redd.it/a.jpg?width=640"
    false 1735729212.
Definition ext_in_query : Submission.t :=
  Submission.mk "p3" (Some "DALL·E 2") "https://x.test/view?f=a.png"
    false 1735729213.

Definition dalle_flair : gset string := {["DALL·E 2"; "DALL·E 3"]}.

(** The loop variables before the first iteration. *)
Definition start_gcs (subr : string) (gcs : Apache.GCS) : Loop Apache.GCS :=
  {| stats := Stats.init subr; new_images := []; store := gcs |}.
Definition start_fs (subr : string) (fs : Local.FS) : Loop Local.FS :=
  {| stats := Stats.init subr; new_images := []; store := fs |}.

(** The five posts again, with every request timing out, and with every
    request answered by a 404 page. *)
Definition world_timeout : World := world (only "dalle2" five) times_out never.
Definition world_404 : World := world (only "dalle2" five) not_found_404 never.

(** A data directory of r/dalle2 without its [metadata.csv], and one whose
    [metadata.csv] is not a table; a bucket whose [dalle2/metadata.csv] is
    not a table. *)
Definition fs_dir_without_metadata : Local.FS :=
  {| Local.dirs := {[ "data_collection/data/dalle2" ]};
     Local.files := ∅;
     Local.writes := [] |}.
Definition fs_garbled_metadata : Local.FS :=
  {| Local.dirs := {[ "data_collection/data/dalle2" ]};
     Local.files :=
       {[ "data_collection/data/dalle2/metadata.csv" := [Bytes "not a table"] ]};
     Local.writes := [] |}.
Definition gcs_garbled_metadata : Apache.GCS :=
  {| Apache.objects :=
       {[ "dalle2/metadata.csv" :=
            {| Apache.data := [Bytes "not a table"];
               Apache.content_type := "text/csv" |} ]};
     Apache.uploads := [] |}.

(** The five posts, with the write of r/dalle2's [metadata.csv] refused. *)
Definition world_metadata_refused : World :=
  world (only "dalle2" five) ok_200
    (λ name, String.eqb name "data_collection/data/dalle2/metadata.csv").

(** The two entries collected from r/aiArt. *)
Definition img_dalle : Image.t :=
  Image.mk "abc" "img_dalle2_abc.png" "https://i.redd.it/a.png" "aiArt"
    "2025-01-01T11:00:00" "dalle2" None.
Definition img_midj : Image.t :=
  Image.mk "xyz" "img_midjourney_xyz.jpg" "https://i.redd.it/m.jpg" "aiArt"
    "2025-01-01T11:00:00" "midjourney" None.


End Sample.

(** ** A stored id that is a number to pandas

    A [metadata.csv] of r/dalle2 with one row, whose id is ["007"], and one
    new entry for r/dalle2. *)

Module SampleFrames.

Definition old_row : Row.t :=
  Row.mk "007" "img_dalle2_007.jpg" "https://i.redd.it/o.jpg" "dalle2"
    "2024-12-30T11:00:00".

Definition gcs_with_old : Apache.GCS :=
  {| Apache.objects :=
       {[ "dalle2/metadata.csv" :=
            {| Apache.data := to_csv [old_row];
               Apache.content_type := "text/csv" |} ]};
     Apache.uploads := [] |}.
Definition fs_with_old : Local.FS :=
  {| Local.dirs := {[ "data_collection/data/dalle2" ]};
     Local.files := {[ "data_collection/data/dalle2/metadata.csv" := to_csv [old_row] ]};
     Local.writes := [] |}.


(** [str(int(s))] for a string of digits: the number without leading
    zeros. *)
Definition int_text (s : string) : string :=
  let t := PyStr.lstrip (λ a, Ascii.eqb a "0") s in
  if String.eqb t "" then "0" else t.

Definition is_int_text (s : string) : bool :=
  negb (String.eqb s "") && PyStr.forallb_str PyStr.is_digit s.

(** A parsed frame written out again.  [pd.read_csv] types a column whose
    cells are all strings of digits as integers, and [to_csv] writes an
    integer in decimal; a column with a cell that is no number keeps its
    cells as the strings they were.  In the tables used here the file name,
    the URL, the subreddit and the date are no numbers, so that only the id
    column can be typed as integers. *)
Definition written_back (df : list Row.t) : list Row.t :=
  if forallb (λ r, is_int_text (Row.submission_id r)) df
  then map (λ r, Row.mk (int_text (Row.submission_id r)) (Row.filename r)
                   (Row.url r) (Row.subreddit r) (Row.date r)) df
  else df.

(** pandas on these tables. *)
Definition pandas : Pandas.t :=
  {| Pandas.combined_csv := λ csv_data rows,
       df ← read_csv csv_data;
       Ok (to_csv (written_back df ++ rows)%list) |}.

End SampleFrames.

(** * Properties *)

Global Arguments PyStr.endswith_any : simpl never.
Global Arguments download : simpl never.
Global Arguments get_file_extension : simpl never.

(** ** Facts about the string operations *)

Module PyStrFacts.
Import PyStr.

Lemma app_nil_l (s : string) : "" ++ s = s.
Proof. reflexivity. Qed.

Lemma app_cons (a : ascii) (s t : string) :
  String a s ++ t = String a (s ++ t).
Proof. reflexivity. Qed.

(** Push an append through the constructors of its left argument. *)
Ltac app_simpl := simpl; rewrite ?app_cons, ?app_nil_l; simpl.

Lemma length_app (s t : string) :
  String.length (s ++ t) = (String.length s + String.length t)%nat.
Proof. induction s as [|a s IH]; app_simpl; [done | by rewrite IH]. Qed.

Lemma app_nil_r (s : string) : s ++ "" = s.
Proof. induction s as [|a s IH]; app_simpl; [done | by rewrite IH]. Qed.

Lemma app_assoc (s t u : string) : (s ++ t) ++ u = s ++ (t ++ u).
Proof. induction s as [|a s IH]; app_simpl; [done | by rewrite IH]. Qed.

Lemma drop_app_length (p s : string) : drop (String.length p) (p ++ s) = s.
Proof. induction p as [|a p IH]; app_simpl; [by destruct s | done]. Qed.

Lemma drop_app_plus (p s : string) (n : nat) :
  drop (String.length p + n) (p ++ s) = drop n s.
Proof. induction p as [|a p IH]; app_simpl; done. Qed.

Lemma take_app_length (p s : string) : take (String.length p) (p ++ s) = p.
Proof.
  induction p as [|a p IH]; app_simpl; [by destruct s | by rewrite IH].
Qed.

Lemma take_app_plus (p s : string) (n : nat) :
  take (String.length p + n) (p ++ s) = p ++ take n s.
Proof. induction p as [|a p IH]; app_simpl; [done | by rewrite IH]. Qed.

Lemma take_drop (n : nat) (s : string) : take n s ++ drop n s = s.
Proof.
  revert s; induction n as [|n IH]; intros [|a s]; app_simpl; try done.
  by rewrite IH.
Qed.

Lemma length_drop (n : nat) (s : string) :
  String.length (drop n s) = (String.length s - n)%nat.
Proof. revert s; induction n as [|n IH]; intros [|a s]; simpl; auto. Qed.

(** [endswith] is the suffix relation. *)
Lemma endswith_spec (s suffix : string) :
  endswith s suffix = true ↔ ∃ p, s = p ++ suffix.
Proof.
  unfold endswith. rewrite andb_true_iff, Nat.leb_le, String.eqb_eq. split.
  - intros [_ Hd]. exists (take (String.length s - String.length suffix) s).
    rewrite <- Hd at 2. by rewrite take_drop.
  - intros [p ->]. rewrite length_app. split; [lia|].
    replace (String.length p + String.length suffix - String.length suffix)%nat
      with (String.length p) by lia.
    apply drop_app_length.
Qed.

Lemma endswith_any_spec (s : string) (suffixes : list string) :
  endswith_any s suffixes = true ↔ ∃ suffix p, suffix ∈ suffixes ∧ s = p ++ suffix.
Proof.
  unfold endswith_any. rewrite existsb_exists. split.
  - intros (x & Hin & He). apply endswith_spec in He as [p ->].
    exists x, p. by rewrite list_elem_of_In.
  - intros (x & p & Hin & ->). exists x. rewrite <- list_elem_of_In.
    split; [done | apply endswith_spec; eauto].
Qed.

Lemma app_inv_tail (s1 s2 x : string) : s1 ++ x = s2 ++ x → s1 = s2.
Proof.
  revert s2. induction s1 as [|a s1 IH]; intros [|b s2] H.
  - done.
  - apply (f_equal String.length) in H.
    rewrite app_nil_l, app_cons in H. simpl in H.
    rewrite length_app in H. lia.
  - apply (f_equal String.length) in H.
    rewrite app_nil_l, app_cons in H. simpl in H.
    rewrite length_app in H. lia.
  - rewrite !app_cons in H. injection H as -> H. by rewrite (IH s2 H).
Qed.

Lemma app_inv_head (p s1 s2 : string) : p ++ s1 = p ++ s2 → s1 = s2.
Proof.
  induction p as [|a p IH]; [done|]. rewrite !app_cons. intros [= H]. auto.
Qed.

Lemma rfind_bounds (c : ascii) (s : string) :
  -1 ≤ rfind c s < Z.of_nat (String.length s).
Proof.
  induction s as [|a s IH]; simpl; [lia|].
  destruct (0 <=? rfind c s) eqn:E; [lia|].
  destruct (Ascii.eqb a c); lia.
Qed.

Lemma rfind_app_found (c : ascii) (p s : string) :
  0 ≤ rfind c s →
  rfind c (p ++ s) = Z.of_nat (String.length p) + rfind c s.
Proof.
  intros Hs. induction p as [|a p IH]; app_simpl; [lia|].
  rewrite IH. destruct (0 <=? _) eqn:E; [lia|].
  apply Z.leb_gt in E. lia.
Qed.

Lemma rfind_app_absent (c : ascii) (p s : string) :
  rfind c s = -1 → rfind c (p ++ s) = rfind c p.
Proof.
  intros Hs. induction p as [|a p IH]; app_simpl; [done | by rewrite IH].
Qed.

Lemma is_upper_lower_char (a : ascii) : is_upper (lower_char a) = false.
Proof.
  destruct a as [[] [] [] [] [] [] [] []]; vm_compute; reflexivity.
Qed.

(** [lower] leaves no upper-case letter. *)
Lemma lower_no_upper (s : string) :
  forallb_str (λ a, negb (is_upper a)) (lower s) = true.
Proof.
  induction s as [|a s IH]; simpl; [done|].
  by rewrite is_upper_lower_char, IH.
Qed.

Lemma lower_length (s : string) : String.length (lower s) = String.length s.
Proof. induction s as [|a s IH]; cbn; [done | by f_equal]. Qed.

End PyStrFacts.

(** ** File extensions *)

Module PosixPathFacts.
Import PyStr PyStrFacts PosixPath.

(** The loop stops at the first character that is not a dot. *)
Lemma skip_leading_dots_true (n : nat) (p : string) (i j : Z) :
  0 ≤ i ≤ j → j < i + Z.of_nat n →
  take 1 (drop (Z.to_nat j) p) ≠ "." →
  skip_leading_dots n p i = true.
Proof.
  revert i. induction n as [|n IH]; intros i Hij Hlt Hj; [lia|].
  cbn [skip_leading_dots].
  destruct (String.eqb (take 1 (drop (Z.to_nat i) p)) ".") eqn:E; [|done].
  cbn [negb].
  apply String.eqb_eq in E.
  assert (i ≠ j) by (intros ->; contradiction).
  apply IH; [lia | lia | done].
Qed.

Lemma rfind_dot_ext (e : string) : rfind "." e = -1 → rfind "." ("." ++ e) = 0.
Proof. intros H. rewrite app_cons, app_nil_l. simpl. by rewrite H. Qed.

(** A path whose last segment ends in [stem ++ "." ++ e], with [stem] not
    starting with a dot, has the extension ["." ++ e]. *)
Lemma splitext_ext (p stem e : string) (a : ascii) :
  a ≠ "."%char →
  rfind "/" (String a stem) = -1 → rfind "/" e = -1 → rfind "." e = -1 →
  splitext (p ++ String a stem ++ "." ++ e) = (p ++ String a stem, "." ++ e).
Proof.
  intros Ha Hstem Hse Hde.
  assert (Hsep : rfind "/" (p ++ String a stem ++ "." ++ e) = rfind "/" p).
  { apply rfind_app_absent. rewrite rfind_app_absent; [done|].
    rewrite app_cons, app_nil_l. simpl. by rewrite Hse. }
  assert (Hdot : rfind "." (p ++ String a stem ++ "." ++ e)
                 = Z.of_nat (String.length (p ++ String a stem))).
  { rewrite <- app_assoc.
    rewrite rfind_app_found; rewrite rfind_dot_ext; try done. lia. }
  unfold splitext. rewrite Hsep, Hdot.
  pose proof (rfind_bounds "/" p) as Hb.
  rewrite length_app in *. simpl String.length in *.
  assert ((rfind "/" p <? Z.of_nat (String.length p + S (String.length stem)))
          = true) as -> by (apply Z.ltb_lt; lia).
  rewrite (skip_leading_dots_true _ _ _ (Z.of_nat (String.length p))); simpl.
  - rewrite Nat2Z.id. rewrite <- app_assoc.
    replace (String.length p + S (String.length stem))%nat
      with (String.length (p ++ String a stem)) by (rewrite length_app; done).
    by rewrite take_app_length, drop_app_length.
  - lia.
  - lia.
  - rewrite Nat2Z.id, drop_app_length. rewrite app_cons. simpl.
    intros [= ->]. done.
Qed.
End PosixPathFacts.

(** ** The path component of a URL *)

Module UrllibFacts.
Import PyStr PyStrFacts Urllib.

Lemma find_bounds (c : ascii) (s : string) :
  -1 ≤ find c s < Z.of_nat (String.length s).
Proof.
  induction s as [|a s IH]; simpl; [lia|].
  destruct (Ascii.eqb a c); [lia|].
  destruct (find c s <? 0) eqn:E; [lia|]. apply Z.ltb_ge in E. lia.
Qed.

Lemma contains_false (c : ascii) (s : string) :
  contains c s = false ↔ find c s = -1.
Proof.
  unfold contains. pose proof (find_bounds c s). rewrite Z.leb_gt. lia.
Qed.

Lemma find_cons_head (c : ascii) (s : string) : find c (String c s) = 0.
Proof. simpl. by rewrite Ascii.eqb_refl. Qed.

(** The first [c] of [p ++ s] is the first [c] of [s] when [p] has none. *)
Lemma find_app_absent (c : ascii) (p s : string) :
  find c p = -1 →
  find c (p ++ s)
  = if find c s <? 0 then -1 else Z.of_nat (String.length p) + find c s.
Proof.
  intros Hp. induction p as [|a p IH].
  - rewrite app_nil_l. simpl. destruct (find c s <? 0) eqn:E; [|lia].
    apply Z.ltb_lt in E. pose proof (find_bounds c s). lia.
  - rewrite app_cons. simpl in *. cbv zeta in *.
    destruct (Ascii.eqb a c); [lia|].
    destruct (find c p <? 0) eqn:Ep; [|apply Z.ltb_ge in Ep; lia].
    rewrite IH by (apply Z.ltb_lt in Ep; pose proof (find_bounds c p); lia).
    destruct (find c s <? 0) eqn:Es; [done|].
    apply Z.ltb_ge in Es.
    destruct (_ + _ <? 0) eqn:E; [apply Z.ltb_lt in E; lia | lia].
Qed.

Lemma remove_clean (f : ascii → bool) (s : string) :
  forallb_str (λ a, negb (f a)) s = true → remove f s = s.
Proof.
  induction s as [|a s IH]; simpl; [done|].
  rewrite andb_true_iff, negb_true_iff. intros [-> H]. by rewrite IH.
Qed.

Lemma forallb_str_impl (f g : ascii → bool) (s : string) :
  forallb_str f s = true → (∀ a, f a = true → g a = true) →
  forallb_str g s = true.
Proof.
  intros H Hfg. induction s as [|a s IH]; [done|]. simpl in *.
  apply andb_true_iff in H as [Ha H]. by rewrite (Hfg _ Ha), IH.
Qed.

(** A character that the test [f] refuses does not occur. *)
Lemma forallb_str_absent (c : ascii) (f : ascii → bool) (s : string) :
  (∀ a, f a = true → Ascii.eqb a c = false) →
  forallb_str f s = true → contains c s = false.
Proof.
  intros Hf H. apply contains_false.
  induction s as [|a s IH]; [done|]. simpl in *.
  apply andb_true_iff in H as [Ha H]. by rewrite (Hf _ Ha), IH.
Qed.

Lemma take_length (s : string) : take (String.length s) s = s.
Proof. by rewrite <- (app_nil_r s) at 2; rewrite take_app_length. Qed.

Lemma drop_length (s : string) : drop (String.length s) s = "".
Proof. by rewrite <- (app_nil_r s) at 2; rewrite drop_app_length. Qed.

(** The text before the first [c]. *)
Lemma cut_app (c : ascii) (p s : string) :
  find c p = -1 →
  (if contains c (p ++ s) then (split_once c (p ++ s)).1 else p ++ s)
  = p ++ (if contains c s then (split_once c s).1 else s).
Proof.
  intros Hp. unfold contains, split_once. cbn [fst].
  rewrite (find_app_absent _ _ _ Hp).
  destruct (find c s <? 0) eqn:E.
  - apply Z.ltb_lt in E.
    destruct (0 <=? find c s) eqn:E'; [apply Z.leb_le in E'; lia | done].
  - apply Z.ltb_ge in E.
    destruct (0 <=? find c s) eqn:E'; [|apply Z.leb_gt in E'; lia].
    destruct (0 <=? _ + _) eqn:E''; [|apply Z.leb_gt in E''; lia].
    rewrite Z2Nat.inj_add, Nat2Z.id by lia. apply take_app_plus.
Qed.

Lemma cut_head (c : ascii) (s : string) :
  (if contains c (String c s) then (split_once c (String c s)).1
   else String c s) = "".
Proof.
  unfold contains, split_once. rewrite find_cons_head. reflexivity.
Qed.

(** After the path comes nothing, a query or a fragment; neither is part of
    what is left once [urlsplit] has cut at the first [#] and then at the
    first [?]. *)
Lemma cut_tail (tail : string) :
  tail = "" ∨ (∃ t, tail = String "?" t) ∨ (∃ t, tail = String "#" t) →
  let url := if contains "#" tail then (split_once "#" tail).1 else tail in
  (if contains "?" url then (split_once "?" url).1 else url) = "".
Proof.
  intros [->|[[t ->]|[t ->]]]; cbv zeta.
  - reflexivity.
  - assert (H : ∃ t', (if contains "#" (String "?" t)
                       then (split_once "#" (String "?" t)).1
                       else String "?" t) = String "?" t').
    { destruct (contains "#" (String "?" t)) eqn:E; [|eauto].
      unfold split_once. cbn [fst]. unfold contains in E.
      apply Z.leb_le in E. simpl in *. cbv zeta in *.
      destruct (find "#" t <? 0) eqn:E'; [lia|]. apply Z.ltb_ge in E'.
      replace (Z.to_nat (find "#" t + 1)) with (S (Z.to_nat (find "#" t)))
        by lia.
      simpl. eauto. }
    destruct H as [t' ->]. apply cut_head.
  - rewrite cut_head. reflexivity.
Qed.

(** The first of [/ ? #] after the host ends the network location. *)
Lemma find_from_host (c : ascii) (host rest : string) :
  find c host = -1 →
  let w := find_from c ("//" ++ host ++ rest) 2 in
  (w = -1 ∨ 2 + Z.of_nat (String.length host) ≤ w)
  ∧ (∀ r, rest = String c r → w = 2 + Z.of_nat (String.length host))
  ∧ (rest = "" → w = -1).
Proof.
  intros Hh. cbv zeta. unfold find_from.
  change (drop (Z.to_nat 2) ("//" ++ host ++ rest)) with (host ++ rest).
  rewrite (find_app_absent _ _ _ Hh).
  pose proof (find_bounds c rest) as Hb.
  split_and!.
  - destruct (find c rest <? 0) eqn:E; [by left|]. apply Z.ltb_ge in E.
    destruct (_ + _ <? 0) eqn:E'; [by left | right; lia].
  - intros r ->. rewrite find_cons_head.
    change (0 <? 0) with false. cbv iota.
    destruct (_ + _ <? 0) eqn:E'; [apply Z.ltb_lt in E'|]; lia.
  - intros ->. reflexivity.
Qed.

Lemma splitnetloc_host (host rest : string) :
  find "/" host = -1 → find "?" host = -1 → find "#" host = -1 →
  rest = "" ∨ (∃ r, rest = String "/" r) ∨ (∃ r, rest = String "?" r)
  ∨ (∃ r, rest = String "#" r) →
  splitnetloc ("//" ++ host ++ rest) 2 = (host, rest).
Proof.
  intros H1 H2 H3 Hrest.
  destruct (find_from_host "/" host rest H1) as (A1 & B1 & C1).
  destruct (find_from_host "?" host rest H2) as (A2 & B2 & C2).
  destruct (find_from_host "#" host rest H3) as (A3 & B3 & C3).
  cbv zeta in *.
  unfold splitnetloc. cbn [fold_left].
  set (w1 := find_from "/" _ 2) in *.
  set (w2 := find_from "?" _ 2) in *.
  set (w3 := find_from "#" _ 2) in *.
  set (n := Z.of_nat (String.length ("//" ++ host ++ rest))).
  assert (Hn : n = 2 + Z.of_nat (String.length host)
                   + Z.of_nat (String.length rest)).
  { subst n. rewrite !length_app. simpl String.length. lia. }
  assert (Hd : (let d1 := if 0 <=? w1 then Z.min n w1 else n in
                let d2 := if 0 <=? w2 then Z.min d1 w2 else d1 in
                if 0 <=? w3 then Z.min d2 w3 else d2)
               = if String.eqb rest "" then n
                 else 2 + Z.of_nat (String.length host)).
  { cbv zeta.
    destruct Hrest as [->|[[r ->]|[[r ->]|[r ->]]]].
    - rewrite C1, C2, C3 by done. reflexivity.
    - specialize (B1 _ eq_refl). simpl String.length in Hn. cbn [String.eqb].
      destruct (0 <=? w1) eqn:E1; [|apply Z.leb_gt in E1; lia].
      destruct (0 <=? w2) eqn:E2; destruct (0 <=? w3) eqn:E3;
        try apply Z.leb_le in E2; try apply Z.leb_le in E3; lia.
    - specialize (B2 _ eq_refl). simpl String.length in Hn. cbn [String.eqb].
      destruct (0 <=? w2) eqn:E2; [|apply Z.leb_gt in E2; lia].
      destruct (0 <=? w1) eqn:E1; destruct (0 <=? w3) eqn:E3;
        try apply Z.leb_le in E1; try apply Z.leb_le in E3; lia.
    - specialize (B3 _ eq_refl). simpl String.length in Hn. cbn [String.eqb].
      destruct (0 <=? w3) eqn:E3; [|apply Z.leb_gt in E3; lia].
      destruct (0 <=? w1) eqn:E1; destruct (0 <=? w2) eqn:E2;
        try apply Z.leb_le in E1; try apply Z.leb_le in E2; lia. }
  cbv zeta in Hd. rewrite Hd.
  change (drop (Z.to_nat 2) ("//" ++ host ++ rest)) with (host ++ rest).
  destruct (String.eqb rest "") eqn:Er.
  - apply String.eqb_eq in Er as ->.
    assert (Hn' : n = Z.of_nat (String.length ("//" ++ host)))
      by (rewrite Hn, length_app; simpl String.length; lia).
    rewrite Hn', Nat2Z.id, !app_nil_r.
    replace (Z.to_nat (Z.of_nat (String.length ("//" ++ host)) - 2))
      with (String.length host)
      by (rewrite length_app; simpl String.length; lia).
    by rewrite take_length, drop_length.
  - replace (Z.to_nat (2 + Z.of_nat (String.length host) - 2))
      with (String.length host) by lia.
    replace (Z.to_nat (2 + Z.of_nat (String.length host)))
      with (String.length ("//" ++ host))
      by (rewrite length_app; simpl String.length; lia).
    rewrite take_app_length.
    change ("//" ++ host ++ rest) with (String "/" (String "/" (host ++ rest))).
    change (String "/" (String "/" (host ++ rest)))
      with (("//" ++ host) ++ rest) at 1.
    by rewrite drop_app_length.
Qed.

(** The last two steps of [urlsplit]. *)
Lemma urlsplit_tail (sch host rest p : string) :
  (let url := if contains "#" rest then (split_once "#" rest).1 else rest in
   if contains "?" url then (split_once "?" url).1 else url) = p →
  ∃ query fragment,
    (let '(url, fragment) :=
       if contains "#" rest then split_once "#" rest else (rest, "") in
     let '(url, query) :=
       if contains "?" url then split_once "?" url else (url, "") in
     (sch, host, url, query, fragment))
    = (sch, host, p, query, fragment).
Proof.
  cbv zeta. intros Hcut.
  destruct (contains "#" rest).
  - destruct (split_once "#" rest) as [u f]. cbn [fst] in Hcut.
    destruct (contains "?" u).
    + destruct (split_once "?" u) as [v q]. cbn [fst] in Hcut. subst. eauto.
    + subst. eauto.
  - destruct (contains "?" rest).
    + destruct (split_once "?" rest) as [v q]. cbn [fst] in Hcut. subst. eauto.
    + subst. eauto.
Qed.

(** [urlparse] on [scheme://host path tail]: the path is what stands between
    the host and the first [?] or [#]. *)
Lemma urlparse_path (sch host p tail : string) :
  sch = "http" ∨ sch = "https" →
  contains "/" host = false → contains "?" host = false →
  contains "#" host = false →
  p = "" ∨ (∃ r, p = String "/" r) →
  contains "?" p = false → contains "#" p = false → contains ";" p = false →
  tail = "" ∨ (∃ t, tail = String "?" t) ∨ (∃ t, tail = String "#" t) →
  forallb_str (λ a, negb (unsafe_url_byte a)) (host ++ p ++ tail) = true →
  path (urlparse (sch ++ "://" ++ host ++ p ++ tail)) = p.
Proof.
  intros Hsch Hh1 Hh2 Hh3 Hp Hp1 Hp2 Hp3 Htail Hclean.
  apply contains_false in Hh1, Hh2, Hh3, Hp1, Hp2.
  set (R := host ++ p ++ tail) in *.
  assert (Hsplit : ∃ query fragment,
            urlsplit (sch ++ "://" ++ R) = (sch, host, p, query, fragment)).
  { assert (Hnet : splitnetloc ("//" ++ R) 2 = (host, p ++ tail)).
    { subst R. apply splitnetloc_host; try done.
      destruct Hp as [->|[r ->]].
      - rewrite app_nil_l. destruct Htail as [->|[[t ->]|[t ->]]]; eauto 6.
      - rewrite app_cons. eauto. }
    assert (Hcut : (let url := if contains "#" (p ++ tail)
                               then (split_once "#" (p ++ tail)).1
                               else p ++ tail in
                    if contains "?" url then (split_once "?" url).1 else url)
                   = p).
    { cbv zeta. rewrite (cut_app "#" p tail Hp2), (cut_app "?" p _ Hp1).
      rewrite (cut_tail tail Htail). apply app_nil_r. }
    unfold urlsplit.
    destruct Hsch as [->| ->].
    - change ("http" ++ "://" ++ R)
        with (String "h" (String "t" (String "t" (String "p"
               (String ":" ("//" ++ R)))))).
      cbn [lstrip]. change (c0_control_or_space "h") with false. cbv iota.
      rewrite remove_clean by (cbn; exact Hclean).
      change (find ":" (String "h" (String "t" (String "t" (String "p"
               (String ":" ("//" ++ R))))))) with 4.
      change (has_scheme _ 4) with true. cbv iota.
      change (lower (take (Z.to_nat 4) _)) with "http".
      change (drop (Z.to_nat (4 + 1)) _) with ("//" ++ R).
      change (String.eqb (take 2 ("//" ++ R)) "//") with true. cbv iota.
      rewrite Hnet.
      apply urlsplit_tail, Hcut.
    - change ("https" ++ "://" ++ R)
        with (String "h" (String "t" (String "t" (String "p" (String "s"
               (String ":" ("//" ++ R))))))).
      cbn [lstrip]. change (c0_control_or_space "h") with false. cbv iota.
      rewrite remove_clean by (cbn; exact Hclean).
      change (find ":" (String "h" (String "t" (String "t" (String "p"
               (String "s" (String ":" ("//" ++ R)))))))) with 5.
      change (has_scheme _ 5) with true. cbv iota.
      change (lower (take (Z.to_nat 5) _)) with "https".
      change (drop (Z.to_nat (5 + 1)) _) with ("//" ++ R).
      change (String.eqb (take 2 ("//" ++ R)) "//") with true. cbv iota.
      rewrite Hnet.
      apply urlsplit_tail, Hcut. }
  destruct Hsplit as (query & fragment & Hsplit).
  unfold urlparse. rewrite Hsplit.
  rewrite Hp3, andb_false_r. reflexivity.
Qed.

End UrllibFacts.

Lemma get_file_extension_eq (url : string) :
  get_file_extension url =
    let ext := (PosixPath.splitext (Urllib.path (Urllib.urlparse url))).2 in
    if String.eqb ext "" then ".jpg" else PyStr.lower ext.
Proof.
  unfold get_file_extension. by destruct (PosixPath.splitext _).
Qed.

Lemma get_file_extension_no_upper (url : string) :
  PyStr.forallb_str (λ a, negb (PyStr.is_upper a)) (get_file_extension url)
  = true.
Proof.
  rewrite get_file_extension_eq. cbv zeta.
  destruct (String.eqb _ ""); [reflexivity | apply PyStrFacts.lower_no_upper].
Qed.

Lemma get_file_extension_img_PNG (url p : string) :
  Urllib.path (Urllib.urlparse url) = p ++ "img.PNG" →
  get_file_extension url = ".png".
Proof.
  intros H. rewrite get_file_extension_eq, H.
  change (p ++ "img.PNG") with (p ++ String "i" "mg" ++ "." ++ "PNG").
  rewrite PosixPathFacts.splitext_ext by done. reflexivity.
Qed.

(** ** Counting submissions *)

Lemma count_cons (p : Submission.t → bool) s (l : list Submission.t) :
  count p (s :: l) = Z.b2z (p s) + count p l.
Proof.
  unfold count. destruct (p s) eqn:E.
  - rewrite filter_cons_True by (rewrite E; simpl; tauto). simpl length. simpl Z.b2z. lia.
  - rewrite filter_cons_False by (rewrite E; simpl; tauto). simpl. lia.
Qed.


(** ** The loop, for any storage *)

Section CollectFacts.
Context {Store : Type}.
Variable flair_rejected : option string → gset string → bool.
Variable save_image :
  World → Store → string → string → string → string → Store * Result unit.
Variable flair_key : option string → option string.
Variable w : World.
Variable subr : string.
Variable flair : gset string.
Variable existing_ids : gset string.

Local Abbreviation body :=
  (process flair_rejected save_image flair_key w subr flair existing_ids).
Local Abbreviation fetch := (download save_image flair_key w subr).
Local Abbreviation loop :=
  (collect_loop flair_rejected save_image flair_key w subr flair existing_ids).
Local Abbreviation p_flair := (passes_flair flair_rejected flair).
Local Abbreviation p_image := (passes_image flair_rejected flair).
Local Abbreviation p_nsfw := (passes_nsfw flair_rejected flair).
Local Abbreviation p_new := (is_new flair_rejected flair existing_ids).

(** Case analysis along the four [continue] tests of the loop body. *)
Ltac by_stage tac :=
  unfold is_new, passes_nsfw, passes_image, passes_flair, process, bump;
  destruct (flair_rejected _ _); simpl; [tac|];
  destruct (PyStr.endswith_any _ _); simpl; [|tac];
  destruct (Submission.over_18 _); simpl; [tac|];
  destruct (bool_decide _); simpl; [tac|].

(** A submission stopped by one of the four tests only moves counters. *)
Lemma process_not_new (L : Loop Store) (s : Submission.t) :
  p_new s = false →
  new_images (body L s) = new_images L
  ∧ store (body L s) = store L
  ∧ Stats.new_images (stats (body L s)) = Stats.new_images (stats L)
  ∧ Stats.download_errors (stats (body L s)) = Stats.download_errors (stats L).
Proof. by_stage done. done. Qed.

(** A submission that reaches the [try]. *)
Lemma process_new (L : Loop Store) (s : Submission.t) :
  p_new s = true →
  body L s =
    let st4 := Stats.incr_passed_nsfw (Stats.incr_passed_image
                 (Stats.incr_passed_flair (Stats.incr_checked (stats L)))) in
    match fetch (store L) s with
    | (st', Ok img) =>
        {| stats := Stats.incr_new_images st4;
           new_images := (new_images L ++ [img])%list;
           store := st' |}
    | (st', Raise _) =>
        {| stats := Stats.incr_download_errors st4;
           new_images := new_images L;
           store := st' |}
    end.
Proof. by_stage done. done. Qed.

(** What one iteration does to the counters. *)
Lemma process_counters (L : Loop Store) (s : Submission.t) :
  let L' := body L s in
  Stats.checked (stats L') = Stats.checked (stats L) + 1
  ∧ Stats.passed_flair (stats L') =
      Stats.passed_flair (stats L) + Z.b2z (p_flair s)
  ∧ Stats.passed_image (stats L') =
      Stats.passed_image (stats L) + Z.b2z (p_image s)
  ∧ Stats.passed_nsfw (stats L') =
      Stats.passed_nsfw (stats L) + Z.b2z (p_nsfw s)
  ∧ Stats.new_images (stats L') + Stats.download_errors (stats L') =
      Stats.new_images (stats L) + Stats.download_errors (stats L)
      + Z.b2z (p_new s)
  ∧ Stats.new_images (stats L) ≤ Stats.new_images (stats L')
  ∧ Stats.download_errors (stats L) ≤ Stats.download_errors (stats L').
Proof.
  by_stage lia. destruct (download _ _ _ _ _ _) as [st' [img|e]]; simpl; lia.
Qed.

Lemma process_subreddit (L : Loop Store) (s : Submission.t) :
  Stats.subreddit (stats (body L s)) = Stats.subreddit (stats L)
  ∧ Stats.images (stats (body L s)) = Stats.images (stats L).
Proof.
  by_stage done. by destruct (download _ _ _ _ _ _) as [st' [img|e]].
Qed.

Lemma collect_loop_cons (L : Loop Store) s (feed : list Submission.t) :
  loop L (s :: feed) = loop (body L s) feed.
Proof. reflexivity. Qed.


Lemma funnel_ok_process (L : Loop Store) (s : Submission.t) :
  funnel_ok (stats L) → funnel_ok (stats (body L s)).
Proof.
  unfold funnel_ok. intros H.
  pose proof (process_counters L s) as Hc. simpl in Hc.
  destruct (p_new s) eqn:En.
  - assert (p_nsfw s = true ∧ p_image s = true ∧ p_flair s = true)
      as (E3 & E2 & E1).
    { revert En. unfold is_new, passes_nsfw, passes_image.
      rewrite !andb_true_iff. tauto. }
    rewrite E1, E2, E3 in Hc. simpl in Hc. lia.
  - assert (Z.b2z (p_nsfw s) ≤ Z.b2z (p_image s)
            ∧ Z.b2z (p_image s) ≤ Z.b2z (p_flair s)
            ∧ 0 ≤ Z.b2z (p_nsfw s) ∧ Z.b2z (p_flair s) ≤ 1) as Hb.
    { unfold passes_nsfw, passes_image.
      destruct (p_flair s), (PyStr.endswith_any _ _), (Submission.over_18 s);
        simpl; lia. }
    simpl in Hc. lia.
Qed.

Lemma funnel_ok_loop (feed : list Submission.t) (L : Loop Store) :
  funnel_ok (stats L) → funnel_ok (stats (loop L feed)).
Proof.
  revert L. induction feed as [|s feed IH]; intros L H; [done|].
  rewrite collect_loop_cons. by apply IH, funnel_ok_process.
Qed.

(** The first four counters count the submissions that pass each test;
    the last two share the submissions that reach the [try]. *)
Lemma collect_loop_counters (feed : list Submission.t) (L : Loop Store) :
  let L' := loop L feed in
  Stats.checked (stats L') = Stats.checked (stats L) + Z.of_nat (length feed)
  ∧ Stats.passed_flair (stats L') =
      Stats.passed_flair (stats L) + count p_flair feed
  ∧ Stats.passed_image (stats L') =
      Stats.passed_image (stats L) + count p_image feed
  ∧ Stats.passed_nsfw (stats L') =
      Stats.passed_nsfw (stats L) + count p_nsfw feed
  ∧ Stats.new_images (stats L') + Stats.download_errors (stats L') =
      Stats.new_images (stats L) + Stats.download_errors (stats L)
      + count p_new feed.
Proof.
  revert L. induction feed as [|s feed IH]; intros L.
  - unfold count; simpl. lia.
  - cbv zeta. rewrite collect_loop_cons, !count_cons.
    specialize (IH (body L s)). cbv zeta in IH.
    pose proof (process_counters L s) as Hc. cbv zeta in Hc.
    rewrite length_cons. lia.
Qed.


(** What a successful [try] has done. *)
Lemma download_ok (st st' : Store) (s : Submission.t) (img : Image.t) :
  fetch st s = (st', Ok img) →
  ∃ response target_subr,
    requests_get w (Submission.url s) = Ok response
    ∧ resolve_target_subr subr (Submission.link_flair_text s) = Ok target_subr
    ∧ save_image w st target_subr
        (image_filename target_subr (Submission.id s)
           (get_file_extension (Submission.url s)))
        (get_file_extension (Submission.url s)) (Response.content response)
      = (st', Ok ())
    ∧ img = {| Image.submission_id := Submission.id s;
               Image.filename :=
                 image_filename target_subr (Submission.id s)
                   (get_file_extension (Submission.url s));
               Image.url := Submission.url s;
               Image.subreddit := subr;
               Image.date := isoformat w (Submission.created_utc s);
               Image.target_subr := target_subr;
               Image.flair := flair_key (Submission.link_flair_text s) |}.
Proof.
  unfold download.
  destruct (requests_get w _) as [response|]; [|by inversion 1].
  destruct (resolve_target_subr _ _) as [target_subr|]; [|by inversion 1].
  destruct (save_image _ _ _ _ _ _) as [st'' [[]|]] eqn:Es; inversion 1; subst.
  by exists response, target_subr.
Qed.

(** Every collected entry was built from a submission of the listing that
    reached the [try]. *)
Lemma collect_loop_images (feed : list Submission.t) (L : Loop Store)
    (img : Image.t) :
  img ∈ new_images (loop L feed) →
  img ∈ new_images L
  ∨ ∃ s response,
      s ∈ feed ∧ p_new s = true
      ∧ requests_get w (Submission.url s) = Ok response
      ∧ resolve_target_subr subr (Submission.link_flair_text s)
        = Ok (Image.target_subr img)
      ∧ Image.submission_id img = Submission.id s
      ∧ Image.url img = Submission.url s
      ∧ Image.subreddit img = subr
      ∧ Image.filename img =
          image_filename (Image.target_subr img) (Submission.id s)
            (get_file_extension (Submission.url s)).
Proof.
  revert L. induction feed as [|s feed IH]; intros L; [by left|].
  rewrite collect_loop_cons. intros Hin.
  destruct (IH _ Hin) as [Hin'|(s' & r & Hs' & H)].
  2:{ right. exists s', r. split; [by right | done]. }
  destruct (p_new s) eqn:En.
  - rewrite (process_new L s En) in Hin'. cbv zeta in Hin'.
    destruct (fetch (store L) s) as [st' [img'|e]] eqn:Ef; simpl in Hin';
      [|by left].
    apply elem_of_app in Hin' as [Hin'|Hin']; [by left|].
    apply list_elem_of_singleton in Hin' as ->.
    apply download_ok in Ef as (response & target_subr & Hr & Ht & _ & ->).
    right. exists s, response. simpl. split; [by left | done].
  - destruct (process_not_new L s En) as [E _]. rewrite E in Hin'. by left.
Qed.

(** One iteration adds at most one to [new_images] and [download_errors]
    together, and nothing when the submission is stopped before the
    [try]. *)
Lemma process_one_outcome (L : Loop Store) (s : Submission.t) :
  let L' := body L s in
  let d_new := Stats.new_images (stats L') - Stats.new_images (stats L) in
  let d_err :=
    Stats.download_errors (stats L') - Stats.download_errors (stats L) in
  0 ≤ d_new ∧ 0 ≤ d_err ∧ d_new + d_err ≤ 1
  ∧ (p_nsfw s = false → d_new = 0 ∧ d_err = 0)
  ∧ (Submission.id s ∈ existing_ids → d_new = 0 ∧ d_err = 0).
Proof.
  cbv zeta. pose proof (process_counters L s) as Hc. cbv zeta in Hc.
  destruct (p_new s) eqn:En; simpl in Hc.
  - assert (p_nsfw s = true ∧ Submission.id s ∉ existing_ids) as [E3 Enot].
    { unfold is_new in En. apply andb_true_iff in En as [? Hb].
      split; [done|]. by apply negb_true_iff, bool_decide_eq_false in Hb. }
    split_and!; try lia; [intros; congruence | intros; contradiction].
  - split_and!; try lia; intros; lia.
Qed.

Lemma collect_funnel_ok (st : Store) :
  funnel_ok
    (collect flair_rejected save_image flair_key w subr flair existing_ids st).1.
Proof.
  unfold collect. simpl.
  match goal with
  | |- funnel_ok (Stats.set_images _ (stats ?L)) =>
      assert (funnel_ok (stats L)) as H
  end.
  { apply funnel_ok_loop. unfold funnel_ok. simpl. lia. }
  exact H.
Qed.

(** Every entry of the returned [stats['images']] comes from a submission
    of the listing. *)
Lemma collect_images (st : Store) (img : Image.t) :
  img ∈ Stats.images
          (collect flair_rejected save_image flair_key w subr flair
             existing_ids st).1 →
  ∃ s response,
    s ∈ take 1000 (subreddit_new w subr) ∧ p_new s = true
    ∧ requests_get w (Submission.url s) = Ok response
    ∧ resolve_target_subr subr (Submission.link_flair_text s)
      = Ok (Image.target_subr img)
    ∧ Image.submission_id img = Submission.id s
    ∧ Image.url img = Submission.url s
    ∧ Image.subreddit img = subr
    ∧ Image.filename img =
        image_filename (Image.target_subr img) (Submission.id s)
          (get_file_extension (Submission.url s)).
Proof.
  unfold collect. simpl. intros Hin.
  apply collect_loop_images in Hin as [Hin|Hin]; [|done].
  simpl in Hin. by apply elem_of_nil in Hin.
Qed.

End CollectFacts.

(** ** The two scripts *)

Lemma upload_new_images_to_gcs_ok w gcs subr stats gcs' :
  Apache.upload_new_images_to_gcs w gcs subr = Ok (stats, gcs') →
  ∃ flair,
    FLAIR_DICT !! subr = Some flair
    ∧ (stats, gcs') =
        collect Apache.flair_rejected Apache.save_image (λ _, None) w subr
          flair (Apache.get_gcs_submission_ids gcs subr).1 gcs.
Proof.
  unfold Apache.upload_new_images_to_gcs.
  destruct (FLAIR_DICT !! subr) as [flair|] eqn:E; [|done].
  intros H. exists flair. split; [done|]. by inversion H.
Qed.

Lemma collect_new_images_from_subreddit_local_ok w fs subr flair stats fs' :
  Local.collect_new_images_from_subreddit_local w fs subr flair = Ok (stats, fs') →
  ∃ existing_ids log,
    Local.get_existing_image_ids_local fs subr = Ok (existing_ids, log)
    ∧ (stats, fs') =
        collect Local.flair_rejected Local.save_image (λ t, t) w subr flair
          existing_ids fs.
Proof.
  unfold Local.collect_new_images_from_subreddit_local.
  destruct (Local.get_existing_image_ids_local fs subr) as [[ids log]|]; [|done].
  simpl. intros H. exists ids, log. split; [done|]. by inversion H.
Qed.

(** C10. In both scripts the final counters form the funnel
    [checked >= passed_flair >= passed_image >= passed_nsfw >= new_images +
    download_errors] with no negative counter, and one submission adds at most
    one to [new_images] and [download_errors] together: nothing when it is
    stopped at or before the NSFW test, nothing when its id is already
    known. *)
Theorem funnel_counters_chain :
  (∀ w gcs subr stats gcs',
     Apache.upload_new_images_to_gcs w gcs subr = Ok (stats, gcs') →
     funnel_ok stats)
  ∧ (∀ w fs subr flair stats fs',
       Local.collect_new_images_from_subreddit_local w fs subr flair
       = Ok (stats, fs') →
       funnel_ok stats)
  ∧ (∀ w subr flair existing_ids L s,
       let L' := Apache.loop_body w subr flair existing_ids L s in
       let d_new := Stats.new_images (stats L') - Stats.new_images (stats L) in
       let d_err :=
         Stats.download_errors (stats L') - Stats.download_errors (stats L) in
       0 ≤ d_new ∧ 0 ≤ d_err ∧ d_new + d_err ≤ 1
       ∧ (passes_nsfw Apache.flair_rejected flair s = false →
          d_new = 0 ∧ d_err = 0)
       ∧ (Submission.id s ∈ existing_ids → d_new = 0 ∧ d_err = 0))
  ∧ (∀ w subr flair existing_ids L s,
       let L' := Local.loop_body w subr flair existing_ids L s in
       let d_new := Stats.new_images (stats L') - Stats.new_images (stats L) in
       let d_err :=
         Stats.download_errors (stats L') - Stats.download_errors (stats L) in
       0 ≤ d_new ∧ 0 ≤ d_err ∧ d_new + d_err ≤ 1
       ∧ (passes_nsfw Local.flair_rejected flair s = false →
          d_new = 0 ∧ d_err = 0)
       ∧ (Submission.id s ∈ existing_ids → d_new = 0 ∧ d_err = 0)).
Proof.
  split_and!.
  - intros w gcs subr stats gcs' H.
    apply upload_new_images_to_gcs_ok in H as (flair & _ & H).
    pose proof (collect_funnel_ok Apache.flair_rejected Apache.save_image
                  (λ _, None) w subr flair
                  (Apache.get_gcs_submission_ids gcs subr).1 gcs) as F.
    by rewrite <- H in F.
  - intros w fs subr flair stats fs' H.
    apply collect_new_images_from_subreddit_local_ok in H as (ids & log & _ & H).
    pose proof (collect_funnel_ok Local.flair_rejected Local.save_image
                  (λ t, t) w subr flair ids fs) as F.
    by rewrite <- H in F.
  - intros w subr flair existing_ids L s.
    apply (process_one_outcome Apache.flair_rejected Apache.save_image
             (λ _, None) w subr flair existing_ids L s).
  - intros w subr flair existing_ids L s.
    apply (process_one_outcome Local.flair_rejected Local.save_image
             (λ t, t) w subr flair existing_ids L s).
Qed.

Lemma funnel_counters_chain_witness :
  match Apache.upload_new_images_to_gcs Sample.world_five Sample.gcs_with_seen
          "dalle2" with
  | Ok (stats, _) => funnel_ok stats
  | Raise _ => False
  end
  ∧ match Local.collect_new_images_from_subreddit_local Sample.world_five
            Sample.fs_with_seen "dalle2" {["DALL·E 2"; "DALL·E 3"]} with
    | Ok (stats, _) => funnel_ok stats
    | Raise _ => False
    end.
Proof.
  split.
  - destruct (Apache.upload_new_images_to_gcs _ _ _) as [[stats gcs']|] eqn:E.
    + exact (proj1 funnel_counters_chain _ _ _ _ _ E).
    + vm_compute in E. discriminate.
  - destruct (Local.collect_new_images_from_subreddit_local _ _ _ _)
      as [[stats fs']|] eqn:E.
    + exact (proj1 (proj2 funnel_counters_chain) _ _ _ _ _ _ E).
    + vm_compute in E. discriminate.
Defined.

Lemma upload_new_images_to_gcs_images w gcs subr stats gcs' img :
  Apache.upload_new_images_to_gcs w gcs subr = Ok (stats, gcs') →
  img ∈ Stats.images stats →
  ∃ s response,
    s ∈ take 1000 (subreddit_new w subr)
    ∧ PyStr.endswith_any (Submission.url s) image_extensions = true
    ∧ requests_get w (Submission.url s) = Ok response
    ∧ resolve_target_subr subr (Submission.link_flair_text s)
      = Ok (Image.target_subr img)
    ∧ Image.submission_id img = Submission.id s
    ∧ Image.url img = Submission.url s
    ∧ Image.subreddit img = subr
    ∧ Image.filename img =
        image_filename (Image.target_subr img) (Submission.id s)
          (get_file_extension (Submission.url s)).
Proof.
  intros H Hin. apply upload_new_images_to_gcs_ok in H as (flair & _ & H).
  apply (f_equal fst) in H. simpl in H. subst stats.
  apply collect_images in Hin as (s & r & Hs & Hn & Hrest).
  exists s, r. split; [done|]. split; [|done].
  unfold is_new, passes_nsfw, passes_image in Hn.
  rewrite !andb_true_iff in Hn. tauto.
Qed.

Lemma collect_new_images_from_subreddit_local_images
    w fs subr flair stats fs' img :
  Local.collect_new_images_from_subreddit_local w fs subr flair
  = Ok (stats, fs') →
  img ∈ Stats.images stats →
  ∃ s response,
    s ∈ take 1000 (subreddit_new w subr)
    ∧ PyStr.endswith_any (Submission.url s) image_extensions = true
    ∧ requests_get w (Submission.url s) = Ok response
    ∧ resolve_target_subr subr (Submission.link_flair_text s)
      = Ok (Image.target_subr img)
    ∧ Image.submission_id img = Submission.id s
    ∧ Image.url img = Submission.url s
    ∧ Image.subreddit img = subr
    ∧ Image.filename img =
        image_filename (Image.target_subr img) (Submission.id s)
          (get_file_extension (Submission.url s)).
Proof.
  intros H Hin.
  apply collect_new_images_from_subreddit_local_ok in H as (ids & log & _ & H).
  apply (f_equal fst) in H. simpl in H. subst stats.
  apply collect_images in Hin as (s & r & Hs & Hn & Hrest).
  exists s, r. split; [done|]. split; [|done].
  unfold is_new, passes_nsfw, passes_image in Hn.
  rewrite !andb_true_iff in Hn. tauto.
Qed.

(** C9. The target subreddit of a submission is the subreddit itself for
    every subreddit other than r/aiArt, and for r/aiArt it is the entry of
    [AIART_MAP] under the submission's flair: ["Image - DALL E 3 :a2:"] gives
    r/dalle2 and ["Image - Midjourney :a2:"] gives r/midjourney.  Every entry
    collected by either script carries the target resolved in this way. *)
Theorem category_resolution :
  (∀ subr tag, subr ≠ AIART_SUBR → resolve_target_subr subr tag = Ok subr)
  ∧ resolve_target_subr AIART_SUBR (Some "Image - DALL E 3 :a2:") = Ok DALLE_SUBR
  ∧ resolve_target_subr AIART_SUBR (Some "Image - Midjourney :a2:") = Ok MIDJ_SUBR
  ∧ (∀ tag,
       resolve_target_subr AIART_SUBR (Some tag) =
         match AIART_MAP !! tag with
         | Some target_subr => Ok target_subr
         | None => Raise KeyError
         end)
  ∧ (∀ w gcs subr stats gcs' img,
       Apache.upload_new_images_to_gcs w gcs subr = Ok (stats, gcs') →
       img ∈ Stats.images stats →
       ∃ s, s ∈ take 1000 (subreddit_new w subr)
            ∧ Submission.id s = Image.submission_id img
            ∧ resolve_target_subr subr (Submission.link_flair_text s)
              = Ok (Image.target_subr img))
  ∧ (∀ w fs subr flair stats fs' img,
       Local.collect_new_images_from_subreddit_local w fs subr flair
       = Ok (stats, fs') →
       img ∈ Stats.images stats →
       ∃ s, s ∈ take 1000 (subreddit_new w subr)
            ∧ Submission.id s = Image.submission_id img
            ∧ resolve_target_subr subr (Submission.link_flair_text s)
              = Ok (Image.target_subr img)).
Proof.
  split_and!.
  - intros subr tag Hne. unfold resolve_target_subr.
    by rewrite bool_decide_eq_false_2.
  - reflexivity.
  - reflexivity.
  - intros tag. unfold resolve_target_subr.
    by rewrite bool_decide_eq_true_2.
  - intros w gcs subr stats gcs' img H Hin.
    destruct (upload_new_images_to_gcs_images _ _ _ _ _ _ H Hin)
      as (s & r & Hs & _ & _ & Ht & Hid & _).
    by exists s.
  - intros w fs subr flair stats fs' img H Hin.
    destruct (collect_new_images_from_subreddit_local_images _ _ _ _ _ _ _ H Hin)
      as (s & r & Hs & _ & _ & Ht & Hid & _).
    by exists s.
Qed.

Lemma category_resolution_witness :
  resolve_target_subr DALLE_SUBR (Some "DALL·E 2") = Ok DALLE_SUBR
  ∧ resolve_target_subr MIDJ_SUBR None = Ok MIDJ_SUBR.
Proof.
  split.
  - apply (proj1 category_resolution DALLE_SUBR (Some "DALL·E 2")). discriminate.
  - apply (proj1 category_resolution MIDJ_SUBR None). discriminate.
Defined.

(** C8. [get_file_extension] is the lower-cased [os.path.splitext] extension
    of the URL's path, or [".jpg"] when the path has none; it holds no
    upper-case letter; a URL whose path ends in [img.PNG] gives [".png"], and
    the file name is then [img_{category}_{id}.png].  The path is what
    [urlparse] makes of the URL: for [http(s)://host path tail], with [tail]
    empty, a query or a fragment, it is [path], so that the text of a query or
    of a fragment never reaches the extension, and an extension that occurs
    there only is not found; a dot in a directory name is no extension.
    Every entry collected by either script is named
    [img_{target_subr}_{submission_id}{extension}] with the extension derived
    from its URL. *)
Theorem filename_derivation :
  (∀ url,
     get_file_extension url =
       let ext := (PosixPath.splitext (Urllib.path (Urllib.urlparse url))).2 in
       if String.eqb ext "" then ".jpg" else PyStr.lower ext)
  ∧ (∀ url,
       PyStr.forallb_str (λ a, negb (PyStr.is_upper a)) (get_file_extension url)
       = true)
  ∧ (∀ url p,
       Urllib.path (Urllib.urlparse url) = p ++ "img.PNG" →
       get_file_extension url = ".png"
       ∧ ∀ category id,
           image_filename category id (get_file_extension url)
           = "img_" ++ category ++ "_" ++ id ++ ".png")
  ∧ get_file_extension "https://x.test/path/img.PNG" = ".png"
  ∧ get_file_extension "https://x.test/path/img" = ".jpg"
  ∧ (∀ w gcs subr stats gcs' img,
       Apache.upload_new_images_to_gcs w gcs subr = Ok (stats, gcs') →
       img ∈ Stats.images stats →
       Image.filename img =
         "img_" ++ Image.target_subr img ++ "_" ++ Image.submission_id img
         ++ get_file_extension (Image.url img))
  ∧ (∀ w fs subr flair stats fs' img,
       Local.collect_new_images_from_subreddit_local w fs subr flair
       = Ok (stats, fs') →
       img ∈ Stats.images stats →
       Image.filename img =
         "img_" ++ Image.target_subr img ++ "_" ++ Image.submission_id img
         ++ get_file_extension (Image.url img))
  ∧ (∀ sch host p tail,
       sch = "http" ∨ sch = "https" →
       PyStr.forallb_str
         (λ a, negb (Ascii.eqb a "/" || Ascii.eqb a "?" || Ascii.eqb a "#"
                     || Ascii.eqb a "[" || Ascii.eqb a "]")) host = true →
       p = "" ∨ (∃ r, p = String "/" r) →
       PyStr.contains "?" p = false → PyStr.contains "#" p = false →
       PyStr.contains ";" p = false →
       tail = "" ∨ (∃ t, tail = String "?" t) ∨ (∃ t, tail = String "#" t) →
       PyStr.forallb_str
         (λ a, (nat_of_ascii a <? 128)%nat && negb (Urllib.unsafe_url_byte a))
         (host ++ p ++ tail) = true →
       Urllib.path (Urllib.urlparse (sch ++ "://" ++ host ++ p ++ tail)) = p
       ∧ get_file_extension (sch ++ "://" ++ host ++ p ++ tail)
         = let ext := (PosixPath.splitext p).2 in
           if String.eqb ext "" then ".jpg" else PyStr.lower ext)
  ∧ get_file_extension "https://x.test/path/img.PNG?x=.jpg" = ".png"
  ∧ get_file_extension "https://x.test/view?f=a.png" = ".jpg"
  ∧ get_file_extension "https://x.test/a.jpeg#frag.png" = ".jpeg"
  ∧ get_file_extension "https://x.test/a.png;v=1.gif" = ".png"
  ∧ get_file_extension "https://x.test/dir.d/file" = ".jpg"
  ∧ get_file_extension "https://x.test?f=a.png" = ".jpg".
Proof.
  split_and!.
  - apply get_file_extension_eq.
  - apply get_file_extension_no_upper.
  - intros url p H. rewrite (get_file_extension_img_PNG url p H).
    split; reflexivity.
  - vm_compute. reflexivity.
  - vm_compute. reflexivity.
  - intros w gcs subr stats gcs' img H Hin.
    destruct (upload_new_images_to_gcs_images _ _ _ _ _ _ H Hin)
      as (s & r & _ & _ & _ & _ & Hid & Hurl & _ & Hf).
    by rewrite Hf, Hid, Hurl.
  - intros w fs subr flair stats fs' img H Hin.
    destruct (collect_new_images_from_subreddit_local_images _ _ _ _ _ _ _ H Hin)
      as (s & r & _ & _ & _ & _ & Hid & Hurl & _ & Hf).
    by rewrite Hf, Hid, Hurl.
  - intros sch host p tail Hsch Hhost Hp Hp1 Hp2 Hp3 Htail Hclean.
    assert (Hpath : Urllib.path (Urllib.urlparse
                                   (sch ++ "://" ++ host ++ p ++ tail)) = p).
    { apply UrllibFacts.urlparse_path; try done.
      - eapply UrllibFacts.forallb_str_absent; [|exact Hhost].
        intros a Ha. apply negb_true_iff in Ha.
        repeat (apply orb_false_iff in Ha as [Ha ?]). done.
      - eapply UrllibFacts.forallb_str_absent; [|exact Hhost].
        intros a Ha. apply negb_true_iff in Ha.
        repeat (apply orb_false_iff in Ha as [Ha ?]). done.
      - eapply UrllibFacts.forallb_str_absent; [|exact Hhost].
        intros a Ha. apply negb_true_iff in Ha.
        repeat (apply orb_false_iff in Ha as [Ha ?]). done.
      - apply (UrllibFacts.forallb_str_impl _ _ _ Hclean).
        intros a Ha. by apply andb_true_iff in Ha as [_ Ha]. }
    split; [exact Hpath|]. by rewrite get_file_extension_eq, Hpath.
  - vm_compute. reflexivity.
  - vm_compute. reflexivity.
  - vm_compute. reflexivity.
  - vm_compute. reflexivity.
  - vm_compute. reflexivity.
  - vm_compute. reflexivity.
Qed.

Lemma filename_derivation_witness :
  get_file_extension "https://x.test/path/img.PNG?x=.jpg" = ".png"
  ∧ Urllib.path
      (Urllib.urlparse
         ("https" ++ "://" ++ "i.redd.it" ++ "/a.b/c.JPeG" ++ "?format=.png"))
    = "/a.b/c.JPeG"
  ∧ get_file_extension
      ("https" ++ "://" ++ "i.redd.it" ++ "/a.b/c.JPeG" ++ "?format=.png")
    = ".jpeg"
  ∧ match Apache.upload_new_images_to_gcs Sample.world_upper_case_path
            Sample.empty_gcs "dalle2" with
    | Ok (stats, _) =>
        Forall (λ img, Image.filename img = "img_dalle2_u7.png")
          (Stats.images stats)
        ∧ length (Stats.images stats) = 1%nat
    | Raise _ => False
    end.
Proof.
  split; [|split_and!].
  - assert (H : Urllib.path (Urllib.urlparse "https://x.test/path/img.PNG?x=.jpg")
                = "/path/" ++ "img.PNG") by (vm_compute; reflexivity).
    exact (proj1 (proj1 (proj2 (proj2 filename_derivation)) _ _ H)).
  - apply (proj1 (proj2 (proj2 (proj2 (proj2 (proj2 (proj2 (proj2
             filename_derivation))))))) "https" "i.redd.it" "/a.b/c.JPeG"
             "?format=.png"); try (vm_compute; reflexivity); eauto.
  - assert (H : get_file_extension
                  ("https" ++ "://" ++ "i.redd.it" ++ "/a.b/c.JPeG"
                   ++ "?format=.png")
                = let ext := (PosixPath.splitext "/a.b/c.JPeG").2 in
                  if String.eqb ext "" then ".jpg" else PyStr.lower ext).
    { apply (proj1 (proj2 (proj2 (proj2 (proj2 (proj2 (proj2 (proj2
               filename_derivation))))))) "https" "i.redd.it" "/a.b/c.JPeG"
               "?format=.png"); try (vm_compute; reflexivity); eauto. }
    rewrite H. vm_compute. reflexivity.
  - destruct (Apache.upload_new_images_to_gcs _ _ _) as [[stats gcs']|] eqn:E.
    + assert (Hlen : length (Stats.images stats) = 1%nat).
      { pose proof E as E'. vm_compute in E'. by injection E' as <- _. }
      split; [|done].
      apply Forall_forall. intros img Hin.
      rewrite (proj1 (proj2 (proj2 (proj2 (proj2 (proj2 filename_derivation)))))
                 _ _ _ _ _ img E Hin).
      vm_compute in E. injection E as <- _.
      apply list_elem_of_singleton in Hin as ->. vm_compute. reflexivity.
    + vm_compute in E. discriminate.
Defined.

(** ** The image test *)

Lemma image_extension_suffix (url : string) :
  PyStr.endswith_any url image_extensions = true
  ↔ ∃ p, url = p ++ ".jpg" ∨ url = p ++ ".jpeg" ∨ url = p ++ ".png".
Proof.
  rewrite PyStrFacts.endswith_any_spec. unfold image_extensions. split.
  - intros (x & p & Hin & ->). exists p.
    rewrite !elem_of_cons in Hin. rewrite elem_of_nil in Hin.
    destruct Hin as [->|[->|[->|[]]]]; auto.
  - intros (p & [->|[->| ->]]); eexists _, p; (split; [|reflexivity]);
      rewrite !elem_of_cons; auto.
Qed.

Lemma process_passed_image {Store : Type}
    (flair_rejected : option string → gset string → bool)
    (save_image :
      World → Store → string → string → string → string → Store * Result unit)
    (flair_key : option string → option string)
    (w : World) (subr : string) (flair existing_ids : gset string)
    (L : Loop Store) (s : Submission.t) :
  passes_flair flair_rejected flair s = true →
  Stats.passed_image
    (stats (process flair_rejected save_image flair_key w subr flair
              existing_ids L s))
  = Stats.passed_image (stats L) + 1
  ↔ ∃ p, Submission.url s = p ++ ".jpg" ∨ Submission.url s = p ++ ".jpeg"
         ∨ Submission.url s = p ++ ".png".
Proof.
  intros Hf. rewrite <- image_extension_suffix.
  pose proof (process_counters flair_rejected save_image flair_key w subr
                flair existing_ids L s) as (_ & _ & Hc & _).
  rewrite Hc. unfold passes_image. rewrite Hf. simpl.
  destruct (PyStr.endswith_any _ _); simpl; split; intros; (done || lia).
Qed.

(** C3, as the scripts have it. For a submission that passed the flair test,
    [passed_image] is incremented exactly when the whole URL string ends,
    byte for byte, in [.jpg], [.jpeg] or [.png]. *)
Theorem image_test_is_suffix_of_url :
  (∀ w subr flair existing_ids L s,
     passes_flair Apache.flair_rejected flair s = true →
     Stats.passed_image (stats (Apache.loop_body w subr flair existing_ids L s))
     = Stats.passed_image (stats L) + 1
     ↔ ∃ p, Submission.url s = p ++ ".jpg" ∨ Submission.url s = p ++ ".jpeg"
            ∨ Submission.url s = p ++ ".png")
  ∧ (∀ w subr flair existing_ids L s,
       passes_flair Local.flair_rejected flair s = true →
       Stats.passed_image (stats (Local.loop_body w subr flair existing_ids L s))
       = Stats.passed_image (stats L) + 1
       ↔ ∃ p, Submission.url s = p ++ ".jpg" ∨ Submission.url s = p ++ ".jpeg"
              ∨ Submission.url s = p ++ ".png").
Proof.
  split; intros w subr flair existing_ids L s; apply process_passed_image.
Qed.

Lemma image_test_is_suffix_of_url_witness :
  Stats.passed_image
    (stats (Apache.loop_body Sample.world_five "dalle2" Sample.dalle_flair ∅
              (Sample.start_gcs "dalle2" Sample.empty_gcs) Sample.fresh))
  = 0 + 1
  ∧ Stats.passed_image
      (stats (Local.loop_body Sample.world_five "dalle2" Sample.dalle_flair ∅
                (Sample.start_fs "dalle2" Sample.empty_fs) Sample.fresh))
    = 0 + 1.
Proof.
  split.
  - apply (proj1 image_test_is_suffix_of_url Sample.world_five "dalle2"
             Sample.dalle_flair ∅ (Sample.start_gcs "dalle2" Sample.empty_gcs)
             Sample.fresh).
    + vm_compute. reflexivity.
    + exists "https://i.redd.it/e". right. left. vm_compute. reflexivity.
  - apply (proj2 image_test_is_suffix_of_url Sample.world_five "dalle2"
             Sample.dalle_flair ∅ (Sample.start_fs "dalle2" Sample.empty_fs)
             Sample.fresh).
    + vm_compute. reflexivity.
    + exists "https://i.redd.it/e". right. left. vm_compute. reflexivity.
Defined.

(** C3, as stated, fails. With a relevant flair: the path of
    [https://x.test/path/img.PNG] ends in [.png] once lower-cased and the path
    of [https://i.redd.it/a.jpg?width=640] ends in [.jpg], yet both are
    stopped by the image test; the path of [https://x.test/view?f=a.png] has
    no image extension, yet it passes. *)
Lemma image_test_counterexample :
  (path_has_image_extension (Submission.url Sample.upper_case_ext) = true
   ∧ passes_flair Apache.flair_rejected Sample.dalle_flair Sample.upper_case_ext
     = true
   ∧ Stats.passed_image
       (stats (Apache.loop_body Sample.world_five "dalle2" Sample.dalle_flair ∅
                 (Sample.start_gcs "dalle2" Sample.empty_gcs)
                 Sample.upper_case_ext)) = 0)
  ∧ (path_has_image_extension (Submission.url Sample.with_query) = true
     ∧ passes_flair Apache.flair_rejected Sample.dalle_flair Sample.with_query
       = true
     ∧ Stats.passed_image
         (stats (Apache.loop_body Sample.world_five "dalle2" Sample.dalle_flair ∅
                   (Sample.start_gcs "dalle2" Sample.empty_gcs)
                   Sample.with_query)) = 0)
  ∧ (path_has_image_extension (Submission.url Sample.ext_in_query) = false
     ∧ Stats.passed_image
         (stats (Apache.loop_body Sample.world_five "dalle2" Sample.dalle_flair ∅
                   (Sample.start_gcs "dalle2" Sample.empty_gcs)
                   Sample.ext_in_query)) = 1)
  ∧ Stats.passed_image
      (stats (Local.loop_body Sample.world_five "dalle2" Sample.dalle_flair ∅
                (Sample.start_fs "dalle2" Sample.empty_fs)
                Sample.upper_case_ext)) = 0.
Proof. vm_compute. repeat split; reflexivity. Qed.

(** ** Failed downloads *)

Lemma process_fetch_raises {Store : Type}
    (flair_rejected : option string → gset string → bool)
    (save_image :
      World → Store → string → string → string → string → Store * Result unit)
    (flair_key : option string → option string)
    (w : World) (subr : string) (flair existing_ids : gset string)
    (L : Loop Store) (s : Submission.t) (e : exn) :
  is_new flair_rejected flair existing_ids s = true →
  requests_get w (Submission.url s) = Raise e →
  process flair_rejected save_image flair_key w subr flair existing_ids L s =
    {| stats :=
         Stats.incr_download_errors
           (Stats.incr_passed_nsfw (Stats.incr_passed_image
              (Stats.incr_passed_flair (Stats.incr_checked (stats L)))));
       new_images := new_images L;
       store := store L |}.
Proof.
  intros Hn Hr. rewrite (process_new _ _ _ _ _ _ _ L s Hn). cbv zeta.
  unfold download. by rewrite Hr.
Qed.

(** C5, as the scripts have it. When [requests.get] raises for a submission
    that reached the [try] (a connection error, a timeout), that iteration
    adds one to [download_errors], leaves [new_images] (the counter and the
    list the metadata rows are made from) and the storage as they were, and
    the loop goes on with the next submission. *)
Theorem failed_request_is_skipped :
  (∀ w subr flair existing_ids L s e rest,
     is_new Apache.flair_rejected flair existing_ids s = true →
     requests_get w (Submission.url s) = Raise e →
     let L' := Apache.loop_body w subr flair existing_ids L s in
     Stats.download_errors (stats L') = Stats.download_errors (stats L) + 1
     ∧ Stats.new_images (stats L') = Stats.new_images (stats L)
     ∧ new_images L' = new_images L
     ∧ store L' = store L
     ∧ Apache.loop w subr flair existing_ids L (s :: rest)
       = Apache.loop w subr flair existing_ids L' rest)
  ∧ (∀ w subr flair existing_ids L s e rest,
       is_new Local.flair_rejected flair existing_ids s = true →
       requests_get w (Submission.url s) = Raise e →
       let L' := Local.loop_body w subr flair existing_ids L s in
       Stats.download_errors (stats L') = Stats.download_errors (stats L) + 1
       ∧ Stats.new_images (stats L') = Stats.new_images (stats L)
       ∧ new_images L' = new_images L
       ∧ store L' = store L
       ∧ Local.loop w subr flair existing_ids L (s :: rest)
         = Local.loop w subr flair existing_ids L' rest).
Proof.
  split; intros w subr flair existing_ids L s e rest Hn Hr L'; subst L'.
  - unfold Apache.loop_body, Apache.loop.
    rewrite (process_fetch_raises _ _ _ _ _ _ _ L s e Hn Hr), collect_loop_cons.
    by rewrite (process_fetch_raises _ _ _ _ _ _ _ L s e Hn Hr).
  - unfold Local.loop_body, Local.loop.
    rewrite (process_fetch_raises _ _ _ _ _ _ _ L s e Hn Hr), collect_loop_cons.
    by rewrite (process_fetch_raises _ _ _ _ _ _ _ L s e Hn Hr).
Qed.

Lemma failed_request_is_skipped_witness :
  Stats.download_errors
    (stats (Apache.loop_body Sample.world_timeout "dalle2" Sample.dalle_flair ∅
              (Sample.start_gcs "dalle2" Sample.empty_gcs) Sample.fresh))
  = 0 + 1
  ∧ new_images
      (Apache.loop_body Sample.world_timeout "dalle2" Sample.dalle_flair ∅
         (Sample.start_gcs "dalle2" Sample.empty_gcs) Sample.fresh)
    = []
  ∧ Stats.download_errors
      (stats (Local.loop_body Sample.world_timeout "dalle2" Sample.dalle_flair ∅
                (Sample.start_fs "dalle2" Sample.empty_fs) Sample.fresh))
    = 0 + 1.
Proof.
  assert (H1 : is_new Apache.flair_rejected Sample.dalle_flair ∅ Sample.fresh
               = true) by (vm_compute; reflexivity).
  assert (H1' : is_new Local.flair_rejected Sample.dalle_flair ∅ Sample.fresh
                = true) by (vm_compute; reflexivity).
  assert (H2 : requests_get Sample.world_timeout (Submission.url Sample.fresh)
               = Raise RequestException) by reflexivity.
  pose proof (proj1 failed_request_is_skipped Sample.world_timeout "dalle2"
                Sample.dalle_flair ∅
                (Sample.start_gcs "dalle2" Sample.empty_gcs) Sample.fresh
                RequestException [] H1 H2) as H.
  pose proof (proj2 failed_request_is_skipped Sample.world_timeout "dalle2"
                Sample.dalle_flair ∅
                (Sample.start_fs "dalle2" Sample.empty_fs) Sample.fresh
                RequestException [] H1' H2) as H'.
  cbv zeta in H, H'.
  exact (conj (proj1 H) (conj (proj1 (proj2 (proj2 H))) (proj1 H'))).
Defined.

(** C5, as stated, fails for a response that is not 2xx. [requests.get]
    returns the 404 response without raising and the scripts never look at
    its status: the item is counted as a new image, its body is stored as the
    image and its metadata row is written. *)
Lemma non_2xx_response_counterexample :
  requests_get Sample.world_404 (Submission.url Sample.fresh)
  = Ok (Response.mk 404 "Not Found")
  ∧ match Apache.run_subreddit Sample.world_404 Sample.gcs_with_seen "dalle2" with
    | Ok (stats, gcs') =>
        Stats.download_errors stats = 0
        ∧ Stats.new_images stats = 1
        ∧ Apache.objects gcs' !! "dalle2/img_dalle2_e5.jpeg"
          = Some {| Apache.data := [Bytes "Not Found"];
                    Apache.content_type := "image/jpeg" |}
        ∧ Apache.data <$> Apache.objects gcs' !! "dalle2/metadata.csv"
          = Some (to_csv
                    [Sample.seen_row;
                     Row.mk "e5" "img_dalle2_e5.jpeg" "https://i.redd.it/e.jpeg"
                       "dalle2" "2025-01-01T11:00:00"])
    | Raise _ => False
    end
  ∧ match Local.run_subreddit Sample.world_404 Sample.fs_with_seen "dalle2" with
    | Ok (stats, fs') =>
        Stats.download_errors stats = 0
        ∧ Stats.new_images stats = 1
        ∧ Local.files fs' !! "data_collection/data/dalle2/img_dalle2_e5.jpeg"
          = Some [Bytes "Not Found"]
    | Raise _ => False
    end.
Proof. vm_compute. repeat split; reflexivity. Qed.

(** ** Reading the known submission ids *)

(** [get_gcs_submission_ids] never raises: a missing blob and a blob that
    cannot be read both give the empty set and one warning. *)
Lemma get_gcs_submission_ids_fail_open (gcs : Apache.GCS) (subr : string) :
  (Apache.objects gcs !! Apache.metadata_blob subr = None →
   Apache.get_gcs_submission_ids gcs subr
   = (∅, [{| levelname := WARNING; about := subr |}]))
  ∧ (∀ blob e,
       Apache.objects gcs !! Apache.metadata_blob subr = Some blob →
       read_csv (Apache.data blob) = Raise e →
       Apache.get_gcs_submission_ids gcs subr
       = (∅, [{| levelname := WARNING; about := subr |}]))
  ∧ (∀ blob rows,
       Apache.objects gcs !! Apache.metadata_blob subr = Some blob →
       read_csv (Apache.data blob) = Ok rows →
       Apache.get_gcs_submission_ids gcs subr = (submission_ids rows, [])).
Proof.
  unfold Apache.get_gcs_submission_ids, Apache.read_submission_ids.
  split_and!.
  - by intros ->.
  - intros blob e -> Hr. by rewrite Hr.
  - intros blob rows -> Hr. by rewrite Hr.
Qed.

(** C2 on the local script. [get_existing_image_ids_local] tests the
    directory, not the file, and has no [try]: with the directory of r/dalle2
    present and its [metadata.csv] missing or not a table, the exception of
    [pd.read_csv] leaves the function and ends the whole run.  Such a
    directory is what a run leaves behind whose image was written and whose
    metadata write was refused.  The Airflow script returns the empty set on
    the same data. *)
Theorem local_loader_raises :
  Local.get_existing_image_ids_local Sample.fs_dir_without_metadata "dalle2"
  = Raise FileNotFoundError
  ∧ Local.get_existing_image_ids_local Sample.fs_garbled_metadata "dalle2"
    = Raise ParserError
  ∧ Local.collect_all_subreddit_images_local Sample.world_five
      Sample.fs_dir_without_metadata
    = Raise FileNotFoundError
  ∧ Local.collect_all_subreddit_images_local Sample.world_five
      Sample.fs_garbled_metadata
    = Raise ParserError
  ∧ match Local.collect_all_subreddit_images_local Sample.world_metadata_refused
            Sample.empty_fs with
    | Ok (_, fs') =>
        Local.collect_all_subreddit_images_local Sample.world_five fs'
        = Raise FileNotFoundError
    | Raise _ => False
    end
  ∧ (Apache.get_gcs_submission_ids Sample.gcs_garbled_metadata "dalle2").1 = ∅
  ∧ is_ok (Apache.upload_new_images_to_gcs Sample.world_five
             Sample.gcs_garbled_metadata "dalle2") = true.
Proof. vm_compute. repeat split; reflexivity. Qed.

(** ** Grouping by target *)

Lemma group_append_keys (t : string) (img : Image.t)
    (d : list (string * list Image.t)) :
  (group_append t img d).*1 = if bool_decide (t ∈ d.*1) then d.*1 else (d.*1 ++ [t])%list.
Proof.
  induction d as [|[k imgs] d IH]; [done|]. cbn [group_append].
  destruct (decide (k = t)) as [->|E].
  - rewrite (bool_decide_eq_true_2 (t = t)) by done.
    rewrite !fmap_cons. cbn [fst].
    by rewrite bool_decide_eq_true_2 by left.
  - rewrite (bool_decide_eq_false_2 (k = t)) by done.
    rewrite !fmap_cons, IH. cbn [fst].
    destruct (decide (t ∈ d.*1)) as [E'|E'].
    + rewrite (bool_decide_eq_true_2 _ E').
      by rewrite bool_decide_eq_true_2 by (by right).
    + rewrite (bool_decide_eq_false_2 _ E').
      rewrite bool_decide_eq_false_2; [done|].
      rewrite elem_of_cons. intros [->|?]; done.
Qed.

Lemma group_append_NoDup (t : string) (img : Image.t)
    (d : list (string * list Image.t)) :
  NoDup d.*1 → NoDup (group_append t img d).*1.
Proof.
  intros H. rewrite group_append_keys. case_bool_decide; [done|].
  apply NoDup_app. split_and!; [done| |apply NoDup_singleton].
  intros x Hx ->%list_elem_of_singleton. done.
Qed.

Lemma group_append_map (t : string) (img : Image.t)
    (d : list (string * list Image.t)) :
  (list_to_map (group_append t img d) : gmap string (list Image.t)) =
    <[t := (default [] ((list_to_map d : gmap string (list Image.t)) !! t) ++ [img])%list]>
      (list_to_map d).
Proof.
  induction d as [|[k imgs] d IH]; [done|]. cbn [group_append].
  destruct (decide (k = t)) as [->|E].
  - rewrite (bool_decide_eq_true_2 (t = t)) by done.
    rewrite !list_to_map_cons. cbn [fst snd].
    rewrite lookup_insert_eq. cbn [default]. by rewrite insert_insert_eq.
  - rewrite (bool_decide_eq_false_2 (k = t)) by done.
    rewrite !list_to_map_cons, IH. cbn [fst snd].
    rewrite lookup_insert_ne by done. by apply insert_insert_ne.
Qed.

Lemma images_by_target_NoDup (l : list Image.t) :
  NoDup (images_by_target l).*1.
Proof.
  unfold images_by_target. induction l as [|img l IH] using rev_ind.
  - apply NoDup_nil_2.
  - rewrite foldl_app. simpl. by apply group_append_NoDup.
Qed.

Lemma images_by_target_map (l : list Image.t) (c : string) :
  (list_to_map (images_by_target l) : gmap string (list Image.t)) !! c =
    match filter (λ img, Image.target_subr img = c) l with
    | [] => None
    | img :: imgs => Some (img :: imgs)
    end.
Proof.
  unfold images_by_target.
  induction l as [|img l IH] using rev_ind; [apply lookup_empty|].
  rewrite foldl_app. cbn [foldl]. rewrite group_append_map, filter_app.
  destruct (decide (Image.target_subr img = c)) as [E|Hne].
  - rewrite E, lookup_insert_eq, IH.
    rewrite (filter_cons_True _ img []) by done. rewrite filter_nil.
    destruct (filter _ l); reflexivity.
  - rewrite lookup_insert_ne, IH by done.
    rewrite (filter_cons_False _ img []) by done. rewrite filter_nil.
    by rewrite app_nil_r.
Qed.

Lemma images_by_target_elem (l : list Image.t) (c : string)
    (imgs : list Image.t) :
  (c, imgs) ∈ images_by_target l ↔
  imgs = filter (λ img, Image.target_subr img = c) l ∧ imgs ≠ [].
Proof.
  rewrite (elem_of_list_to_map (M := gmap string) _ _ _ (images_by_target_NoDup l)).
  rewrite images_by_target_map.
  destruct (filter _ l) as [|img imgs'].
  - split; [done|]. by intros [-> ?].
  - split; [by intros [= <-] | by intros [-> _]].
Qed.

Lemma images_by_target_key (l : list Image.t) (c : string) :
  c ∈ (images_by_target l).*1 ↔ filter (λ img, Image.target_subr img = c) l ≠ [].
Proof.
  rewrite list_elem_of_fmap. split.
  - intros ([c' imgs] & -> & Hin). simpl.
    apply images_by_target_elem in Hin as [<- ?]. done.
  - intros H. exists (c, filter (λ img, Image.target_subr img = c) l).
    split; [done|]. by apply images_by_target_elem.
Qed.

(** ** The metadata update, for any storage *)

Section MergeFacts.
Context {Store V : Type}.
Variable merge_target :
  World → Store → string → list Image.t → Store * Result LogRecord.
(** What the storage holds for one subreddit. *)
Variable view : Store → string → V.

(** Merging one target leaves the others alone, and a merge that raises
    leaves everything alone. *)
Hypothesis merge_frame : ∀ w st t imgs c,
  c ≠ t → view (merge_target w st t imgs).1 c = view st c.
Hypothesis merge_raise : ∀ w st t imgs e,
  (merge_target w st t imgs).2 = Raise e → (merge_target w st t imgs).1 = st.

Local Abbreviation loop := (merge_loop merge_target).

Lemma merge_loop_frame w st groups c :
  c ∉ groups.*1 → view (loop w st groups).1.1 c = view st c.
Proof.
  revert st. induction groups as [|[t imgs] rest IH]; intros st Hc; [done|].
  rewrite fmap_cons, not_elem_of_cons in Hc. destruct Hc as [Hne Hc].
  cbn [merge_loop]. pose proof (merge_frame w st t imgs c Hne) as Hf.
  destruct (merge_target w st t imgs) as [st' [r|e]]; [|done].
  specialize (IH st' Hc).
  destruct (loop w st' rest) as [[st'' log] res]. simpl in *. congruence.
Qed.


Lemma merge_loop_group w st groups c imgs :
  NoDup groups.*1 → (c, imgs) ∈ groups →
  view (loop w st groups).1.1 c = view st c
  ∨ ∃ st_c,
      view st_c c = view st c
      ∧ is_ok (merge_target w st_c c imgs).2 = true
      ∧ view (loop w st groups).1.1 c = view (merge_target w st_c c imgs).1 c.
Proof.
  revert st. induction groups as [|[t timgs] rest IH]; intros st Hnd Hin.
  { by apply elem_of_nil in Hin. }
  rewrite fmap_cons in Hnd. apply NoDup_cons in Hnd as [Hnot Hnd].
  cbn [merge_loop].
  apply elem_of_cons in Hin as [[= -> ->]|Hin].
  - destruct (merge_target w st t timgs) as [st' [r|e]] eqn:Em.
    + right. exists st. split; [done|]. rewrite Em. split; [done|].
      pose proof (merge_loop_frame w st' rest t Hnot) as Hf.
      destruct (loop w st' rest) as [[st'' log] res]. done.
    + left. pose proof (merge_raise w st t timgs e) as Hs.
      rewrite Em in Hs. simpl in *. by rewrite Hs.
  - assert (c ≠ t) as Hne.
    { intros ->. apply Hnot. apply list_elem_of_fmap. by exists (t, imgs). }
    pose proof (merge_frame w st t timgs c Hne) as Hf.
    destruct (merge_target w st t timgs) as [st' [r|e]] eqn:Em; simpl in Hf.
    + destruct (IH st' Hnd Hin) as [H|(st_c & H1 & H2 & H3)].
      * left. destruct (loop w st' rest) as [[st'' log] res]. simpl in *.
        congruence.
      * right. exists st_c. destruct (loop w st' rest) as [[st'' log] res].
        simpl in *. split; [congruence | done].
    + left. done.
Qed.

(** When the loop ends without an exception, every target was merged. *)
Lemma merge_loop_ok_group w st groups st' log c imgs :
  loop w st groups = (st', log, Ok ()) →
  NoDup groups.*1 → (c, imgs) ∈ groups →
  ∃ st_c,
    view st_c c = view st c
    ∧ is_ok (merge_target w st_c c imgs).2 = true
    ∧ view st' c = view (merge_target w st_c c imgs).1 c.
Proof.
  revert st log. induction groups as [|[t timgs] rest IH]; intros st log Hl Hnd Hin.
  { by apply elem_of_nil in Hin. }
  rewrite fmap_cons in Hnd. apply NoDup_cons in Hnd as [Hnot Hnd].
  cbn [merge_loop] in Hl.
  destruct (merge_target w st t timgs) as [st1 [r|e]] eqn:Em; [|done].
  destruct (loop w st1 rest) as [[st2 log2] res] eqn:El.
  injection Hl as -> _ ->.
  apply elem_of_cons in Hin as [[= -> ->]|Hin].
  - exists st. rewrite Em. split_and!; [done..|].
    pose proof (merge_loop_frame w st1 rest t Hnot) as Hf.
    by rewrite El in Hf.
  - assert (c ≠ t) as Hne.
    { intros ->. apply Hnot. apply list_elem_of_fmap. by exists (t, imgs). }
    pose proof (merge_frame w st t timgs c Hne) as Hf. rewrite Em in Hf.
    destruct (IH st1 log2 El Hnd Hin) as (st_c & H1 & H2 & H3).
    exists st_c. split_and!; [|done..]. simpl in Hf. congruence.
Qed.

(** [update_metadata] per subreddit [c]: nothing changes for [c] when no
    new image goes to [c]; otherwise what is stored for [c] is either
    untouched or the result of merging exactly the images that go to [c]. *)
Lemma update_metadata_group w st subr (l : list Image.t) c :
  let st' := (update_metadata merge_target w st subr l).1 in
  let imgs := filter (λ img, Image.target_subr img = c) l in
  (imgs = [] → view st' c = view st c)
  ∧ (view st' c = view st c
     ∨ imgs ≠ []
       ∧ ∃ st_c,
           view st_c c = view st c
           ∧ is_ok (merge_target w st_c c imgs).2 = true
           ∧ view st' c = view (merge_target w st_c c imgs).1 c).
Proof.
  cbv zeta. unfold update_metadata.
  destruct l as [|img0 l0] eqn:El; [by split; [|left]|]. rewrite <- El.
  assert ((match loop w st (images_by_target l) with
           | (st', log, Ok _) => (st', log)
           | (st', log, Raise _) =>
               (st', (log ++ [{| levelname := ERROR; about := subr |}])%list)
           end).1 = (loop w st (images_by_target l)).1.1) as ->.
  { by destruct (loop w st (images_by_target l)) as [[st' log] [?|?]]. }
  split.
  - intros Hnil. apply merge_loop_frame.
    rewrite images_by_target_key. by intros H.
  - destruct (decide (filter (λ img, Image.target_subr img = c) l = []))
      as [Hnil|Hne].
    + left. apply merge_loop_frame. rewrite images_by_target_key. by intros H.
    + destruct (merge_loop_group w st (images_by_target l) c
                  (filter (λ img, Image.target_subr img = c) l)
                  (images_by_target_NoDup l)) as [H|H].
      * by apply images_by_target_elem.
      * by left.
      * right. by split.
Qed.

End MergeFacts.

(** ** The metadata update of the two scripts *)




Lemma metadata_blob_inj (c t : string) :
  Apache.metadata_blob c = Apache.metadata_blob t → c = t.
Proof. apply PyStrFacts.app_inv_tail. Qed.

Lemma metadata_path_inj (c t : string) :
  Local.metadata_path c = Local.metadata_path t → c = t.
Proof.
  unfold Local.metadata_path, Local.subr_dir. intros H.
  apply PyStrFacts.app_inv_tail in H.
  by do 2 apply PyStrFacts.app_inv_head in H.
Qed.

Lemma filter_eq_snoc_ne (l : list string) (k name : string) :
  k ≠ name →
  length (filter (λ x, x = name) (l ++ [k])%list)
  = length (filter (λ x, x = name) l).
Proof.
  intros H. rewrite filter_app, (filter_cons_False _ k []) by done.
  by rewrite filter_nil, app_nil_r.
Qed.

Lemma apache_merge_frame w gcs t imgs c :
  c ≠ t →
  Apache.metadata_view (Apache.merge_target w gcs t imgs).1 c
  = Apache.metadata_view gcs c.
Proof.
  intros Hne. assert (Apache.metadata_blob t ≠ Apache.metadata_blob c) as Hk.
  { intros H. by apply metadata_blob_inj in H. }
  unfold Apache.merge_target, Apache.upload_from_string.
  destruct (Apache.objects gcs !! Apache.metadata_blob t) as [blob|]; simpl.
  - destruct (read_csv (Apache.data blob)); simpl; [|done].
    destruct (write_fails w _); simpl; [done|].
    unfold Apache.metadata_view, Apache.upload_count. simpl.
    by rewrite lookup_insert_ne, filter_eq_snoc_ne.
  - destruct (write_fails w _); simpl; [done|].
    unfold Apache.metadata_view, Apache.upload_count. simpl.
    by rewrite lookup_insert_ne, filter_eq_snoc_ne.
Qed.

Lemma apache_merge_raise w gcs t imgs e :
  (Apache.merge_target w gcs t imgs).2 = Raise e →
  (Apache.merge_target w gcs t imgs).1 = gcs.
Proof.
  unfold Apache.merge_target, Apache.upload_from_string.
  destruct (Apache.objects gcs !! Apache.metadata_blob t) as [blob|]; simpl.
  - destruct (read_csv (Apache.data blob)); simpl; [|done].
    by destruct (write_fails w _).
  - by destruct (write_fails w _).
Qed.


Lemma apache_stored_rows_view gcs gcs' c :
  Apache.metadata_view gcs' c = Apache.metadata_view gcs c →
  Apache.stored_rows gcs' c = Apache.stored_rows gcs c.
Proof. unfold Apache.metadata_view, Apache.stored_rows. by intros [= -> _]. Qed.

Lemma local_merge_frame w fs t imgs c :
  c ≠ t →
  Local.metadata_view (Local.merge_target w fs t imgs).1 c
  = Local.metadata_view fs c.
Proof.
  intros Hne. assert (Local.metadata_path t ≠ Local.metadata_path c) as Hk.
  { intros H. by apply metadata_path_inj in H. }
  unfold Local.merge_target.
  destruct (negb _); simpl; [done|].
  destruct (write_fails w _); simpl; [done|].
  unfold Local.metadata_view, Local.write_count. simpl.
  by rewrite lookup_insert_ne, filter_eq_snoc_ne.
Qed.

Lemma local_merge_raise w fs t imgs e :
  (Local.merge_target w fs t imgs).2 = Raise e →
  (Local.merge_target w fs t imgs).1 = fs.
Proof.
  unfold Local.merge_target.
  destruct (negb _); simpl; [done|]. by destruct (write_fails w _).
Qed.

(** A merge that goes through leaves what the file held in place and adds,
    after it, the header if the file is new and one line per image. *)
Lemma local_merge_ok w fs c imgs :
  is_ok (Local.merge_target w fs c imgs).2 = true →
  Local.files (Local.merge_target w fs c imgs).1 !! Local.metadata_path c
  = Some (match Local.files fs !! Local.metadata_path c with
          | Some old => old ++ map Line (map Row.of_image imgs)
          | None => to_csv (map Row.of_image imgs)
          end)%list.
Proof.
  unfold Local.merge_target.
  destruct (negb _); simpl; [done|].
  destruct (write_fails w _); simpl; [done|]. intros _.
  rewrite lookup_insert_eq. unfold to_csv. rewrite map_map.
  destruct (Local.files fs !! Local.metadata_path c) as [old|] eqn:E.
  - rewrite bool_decide_eq_true_2 by eauto. reflexivity.
  - rewrite bool_decide_eq_false_2 by (by intros [? ?]). reflexivity.
Qed.

Lemma local_stored_rows_view fs fs' c :
  Local.metadata_view fs' c = Local.metadata_view fs c →
  Local.stored_rows fs' c = Local.stored_rows fs c.
Proof. unfold Local.metadata_view, Local.stored_rows. by intros [= -> _]. Qed.


(** ** A merge that raises *)

Section MergeStops.
Context {Store V : Type}.
Variable merge_target :
  World → Store → string → list Image.t → Store * Result LogRecord.
Variable view : Store → string → V.
Hypothesis merge_frame : ∀ w st t imgs c,
  c ≠ t → view (merge_target w st t imgs).1 c = view st c.
Hypothesis merge_raise : ∀ w st t imgs e,
  (merge_target w st t imgs).2 = Raise e → (merge_target w st t imgs).1 = st.


End MergeStops.




(** ** Five posts, one of them new *)

Section CollectFive.
Context {Store : Type}.
Variable flair_rejected : option string → gset string → bool.
Variable save_image :
  World → Store → string → string → string → string → Store * Result unit.
Variable flair_key : option string → option string.
Variable w : World.
Variable subr : string.
Variable flair : gset string.
Variable existing_ids : gset string.

Local Abbreviation body :=
  (process flair_rejected save_image flair_key w subr flair existing_ids).
Local Abbreviation fetch := (download save_image flair_key w subr).
Local Abbreviation loop :=
  (collect_loop flair_rejected save_image flair_key w subr flair existing_ids).
Local Abbreviation p_flair := (passes_flair flair_rejected flair).
Local Abbreviation p_image := (passes_image flair_rejected flair).
Local Abbreviation p_nsfw := (passes_nsfw flair_rejected flair).
Local Abbreviation p_new := (is_new flair_rejected flair existing_ids).

Lemma collect_loop_subreddit (feed : list Submission.t) (L : Loop Store) :
  Stats.subreddit (stats (loop L feed)) = Stats.subreddit (stats L).
Proof.
  revert L. induction feed as [|s feed IH]; intros L; [done|].
  rewrite collect_loop_cons, IH.
  apply (process_subreddit flair_rejected save_image flair_key w subr flair
           existing_ids L s).
Qed.



End CollectFive.









(** ** Running the collection again *)

Section Rerun.
Context {Store : Type}.
Variable flair_rejected : option string → gset string → bool.
Variable save_image :
  World → Store → string → string → string → string → Store * Result unit.
Variable flair_key : option string → option string.
Variable w : World.
Variable subr : string.
Variable flair : gset string.

(** Whether a download goes through does not depend on what is stored. *)
Hypothesis download_outcome : ∀ st st' s,
  is_ok (download save_image flair_key w subr st s).2
  = is_ok (download save_image flair_key w subr st' s).2.

Local Abbreviation fetch := (download save_image flair_key w subr).

Lemma collect_loop_grows (ids : gset string) (feed : list Submission.t)
    (L : Loop Store) :
  ∃ more,
    new_images
      (collect_loop flair_rejected save_image flair_key w subr flair ids L feed)
    = (new_images L ++ more)%list.
Proof.
  revert L. induction feed as [|s feed IH]; intros L.
  - exists []. by rewrite app_nil_r.
  - rewrite collect_loop_cons. destruct (IH (process flair_rejected save_image
      flair_key w subr flair ids L s)) as [more ->].
    destruct (is_new flair_rejected flair ids s) eqn:En.
    + rewrite (process_new _ _ _ _ _ _ _ L s En). cbv zeta.
      destruct (fetch (store L) s) as [st' [img|e]]; simpl.
      * exists (img :: more). by rewrite <- app_assoc.
      * by exists more.
    + destruct (process_not_new _ save_image flair_key w subr _ _ L s En)
        as [-> _]. by exists more.
Qed.

(** A submission that reaches the [try] and whose download goes through
    leaves an entry with its id. *)
Lemma collect_loop_collects (ids : gset string) (st0 : Store)
    (feed : list Submission.t) (L : Loop Store) (s : Submission.t) :
  s ∈ feed → is_new flair_rejected flair ids s = true →
  is_ok (fetch st0 s).2 = true →
  Submission.id s ∈
    map Image.submission_id
      (new_images
         (collect_loop flair_rejected save_image flair_key w subr flair ids
            L feed)).
Proof.
  intros Hin Hn Hok. revert L.
  induction feed as [|x feed IH]; intros L; [by apply elem_of_nil in Hin|].
  rewrite collect_loop_cons.
  apply elem_of_cons in Hin as [<-|Hin]; [|by apply IH].
  destruct (collect_loop_grows ids feed
              (process flair_rejected save_image flair_key w subr flair ids L s))
    as [more ->].
  rewrite (process_new _ _ _ _ _ _ _ L s Hn). cbv zeta.
  rewrite (download_outcome st0 (store L)) in Hok.
  destruct (fetch (store L) s) as [st' [img|e]] eqn:Ef; [|done]. simpl.
  apply (download_ok save_image flair_key w subr) in Ef
    as (r & t & _ & _ & _ & ->).
  rewrite !map_app. simpl. set_solver.
Qed.

(** When no submission that reaches the [try] can be downloaded, nothing is
    collected. *)
Lemma collect_loop_nothing (ids : gset string) (st0 : Store)
    (feed : list Submission.t) (L : Loop Store) :
  (∀ s, s ∈ feed → is_new flair_rejected flair ids s = true →
        is_ok (fetch st0 s).2 = false) →
  Stats.new_images
    (stats (collect_loop flair_rejected save_image flair_key w subr flair ids
              L feed))
  = Stats.new_images (stats L).
Proof.
  revert L. induction feed as [|x feed IH]; intros L H; [done|].
  rewrite collect_loop_cons, IH by (intros s Hs; apply H; by right).
  destruct (is_new flair_rejected flair ids x) eqn:En.
  - rewrite (process_new _ _ _ _ _ _ _ L x En). cbv zeta.
    pose proof (H x (list_elem_of_here _ _) En) as Hx.
    rewrite (download_outcome st0 (store L)) in Hx.
    by destruct (fetch (store L) x) as [st' [img|e]].
  - by destruct (process_not_new _ save_image flair_key w subr _ _ L x En)
      as (_ & _ & -> & _).
Qed.

(** A second pass over the same listing, started with every id the first
    pass knew and every id it collected, collects nothing. *)
Lemma collect_again (ids1 ids2 : gset string) (st1 st2 : Store) :
  ids1 ⊆ ids2 →
  (∀ img,
     img ∈ Stats.images
             (collect flair_rejected save_image flair_key w subr flair ids1
                st1).1 →
     Image.submission_id img ∈ ids2) →
  Stats.new_images
    (collect flair_rejected save_image flair_key w subr flair ids2 st2).1 = 0.
Proof.
  intros Hsub Himgs. unfold collect in *. simpl in *.
  rewrite (collect_loop_nothing ids2 st2); [done|].
  intros s Hs Hn2. destruct (is_ok (fetch st2 s).2) eqn:Hok; [exfalso|done].
  assert (Submission.id s ∉ ids2) as Hnot.
  { unfold is_new in Hn2. apply andb_true_iff in Hn2 as [_ Hb].
    by apply negb_true_iff, bool_decide_eq_false in Hb. }
  assert (is_new flair_rejected flair ids1 s = true) as Hn1.
  { unfold is_new in *. apply andb_true_iff in Hn2 as [-> _]. simpl.
    apply negb_true_iff, bool_decide_eq_false. set_solver. }
  pose proof (collect_loop_collects ids1 st2 _
                {| stats := Stats.init subr; new_images := []; store := st1 |}
                s Hs Hn1 Hok) as Hc.
  apply list_elem_of_fmap in Hc as (img & Hid & Himg).
  apply Hnot. rewrite Hid. by apply Himgs.
Qed.

End Rerun.

Lemma apache_download_outcome w subr (st st' : Apache.GCS) s :
  is_ok (download Apache.save_image (λ _, None) w subr st s).2
  = is_ok (download Apache.save_image (λ _, None) w subr st' s).2.
Proof.
  unfold download. destruct (requests_get w _); [|done].
  destruct (resolve_target_subr _ _); [|done].
  unfold Apache.save_image, Apache.upload_from_string.
  by destruct (write_fails w _).
Qed.

Lemma local_download_outcome w subr (st st' : Local.FS) s :
  is_ok (download Local.save_image (λ t, t) w subr st s).2
  = is_ok (download Local.save_image (λ t, t) w subr st' s).2.
Proof.
  unfold download. destruct (requests_get w _); [|done].
  destruct (resolve_target_subr _ _); [|done].
  unfold Local.save_image. by destruct (write_fails w _).
Qed.

Lemma get_gcs_submission_ids_stored_rows gcs subr :
  (Apache.get_gcs_submission_ids gcs subr).1
  = submission_ids (Apache.stored_rows gcs subr).
Proof.
  unfold Apache.get_gcs_submission_ids, Apache.read_submission_ids,
    Apache.stored_rows.
  destruct (Apache.objects gcs !! Apache.metadata_blob subr) as [blob|];
    [|done].
  simpl. by destruct (read_csv (Apache.data blob)).
Qed.

Lemma get_existing_image_ids_local_stored_rows fs subr ids log :
  Local.get_existing_image_ids_local fs subr = Ok (ids, log) →
  ids ⊆ submission_ids (Local.stored_rows fs subr)
  ∧ (Local.subr_dir subr ∈ Local.dirs fs →
     ids = submission_ids (Local.stored_rows fs subr)).
Proof.
  unfold Local.get_existing_image_ids_local, Local.stored_rows.
  destruct (decide (Local.subr_dir subr ∈ Local.dirs fs)) as [Hd|Hd].
  - rewrite bool_decide_eq_true_2 by done. simpl.
    destruct (Local.files fs !! Local.metadata_path subr) as [data|]; [|done].
    destruct (read_csv data) as [rows|]; [|done]. simpl. by intros [= <- _].
  - rewrite bool_decide_eq_false_2 by done. simpl. intros [= <- _].
    split; [set_solver | done].
Qed.

Lemma submission_ids_app (rows : list Row.t) (imgs : list Image.t) :
  submission_ids (rows ++ map Row.of_image imgs)
  = submission_ids rows ∪ list_to_set (map Image.submission_id imgs).
Proof.
  unfold submission_ids. rewrite map_app, list_to_set_app_L, map_map. done.
Qed.

(** On the Airflow script: when the first run has put the rows of what it
    collected into the [metadata.csv] of the subreddit it was run for, the
    next run over the same listing collects nothing. *)
Lemma rerun_collects_nothing_gcs w gcs subr stats1 gcs1 stats2 gcs2 :
  Apache.run_subreddit w gcs subr = Ok (stats1, gcs1) →
  Apache.stored_rows gcs1 subr
  = (Apache.stored_rows gcs subr ++ map Row.of_image (Stats.images stats1))%list →
  Apache.run_subreddit w gcs1 subr = Ok (stats2, gcs2) →
  Stats.new_images stats2 = 0.
Proof.
  unfold Apache.run_subreddit, Apache.upload_new_images_to_gcs.
  destruct (FLAIR_DICT !! subr) as [flair|]; [|done].
  cbn [mbind Result_bind].
  destruct (collect _ _ _ w subr flair (Apache.get_gcs_submission_ids gcs subr).1
              gcs) as [s1 g1] eqn:E1.
  destruct (collect _ _ _ w subr flair
              (Apache.get_gcs_submission_ids gcs1 subr).1 gcs1)
    as [s2 g2] eqn:E2.
  intros [= <- _] Hrows [= <- _].
  apply (f_equal fst) in E1, E2. simpl in E1, E2. subst s1 s2.
  rewrite !get_gcs_submission_ids_stored_rows, Hrows, submission_ids_app.
  apply (collect_again Apache.flair_rejected Apache.save_image (λ _, None) w
           subr flair (apache_download_outcome w subr)
           (submission_ids (Apache.stored_rows gcs subr)) _ gcs gcs1).
  - apply union_subseteq_l.
  - intros img Himg. rewrite <- get_gcs_submission_ids_stored_rows in Himg.
    apply elem_of_union_r, elem_of_list_to_set, list_elem_of_fmap.
    by exists img.
Qed.

(** The same on the local script, with the data directory of the subreddit
    in place. *)
Lemma rerun_collects_nothing_local w fs subr stats1 fs1 stats2 fs2 :
  Local.run_subreddit w fs subr = Ok (stats1, fs1) →
  Local.subr_dir subr ∈ Local.dirs fs1 →
  Local.stored_rows fs1 subr
  = (Local.stored_rows fs subr ++ map Row.of_image (Stats.images stats1))%list →
  Local.run_subreddit w fs1 subr = Ok (stats2, fs2) →
  Stats.new_images stats2 = 0.
Proof.
  unfold Local.run_subreddit, Local.collect_new_images_from_subreddit_local.
  destruct (FLAIR_DICT !! subr) as [flair|]; [|done].
  destruct (Local.get_existing_image_ids_local fs subr) as [[ids1 log1]|] eqn:L1;
    [|done].
  destruct (Local.get_existing_image_ids_local fs1 subr) as [[ids2 log2]|] eqn:L2;
    [|by intros _ _ _ ?].
  cbn [mbind Result_bind].
  destruct (collect _ _ _ w subr flair ids1 fs) as [s1 g1] eqn:E1.
  destruct (collect _ _ _ w subr flair ids2 fs1) as [s2 g2] eqn:E2.
  intros [= <- _] Hdir Hrows [= <- _].
  apply (f_equal fst) in E1, E2. simpl in E1, E2. subst s1 s2.
  destruct (get_existing_image_ids_local_stored_rows _ _ _ _ L1) as [Hsub1 _].
  destruct (get_existing_image_ids_local_stored_rows _ _ _ _ L2) as [_ Heq2].
  rewrite (Heq2 Hdir), Hrows, submission_ids_app.
  apply (collect_again Local.flair_rejected Local.save_image (λ t, t) w
           subr flair (local_download_outcome w subr) ids1 _ fs fs1).
  - etrans; [exact Hsub1 | apply union_subseteq_l].
  - intros img Himg.
    apply elem_of_union_r, elem_of_list_to_set, list_elem_of_fmap.
    by exists img.
Qed.

(** C1 on r/aiArt. The known ids are read from the [metadata.csv] of the
    subreddit being collected, and r/aiArt has none: its rows go to r/dalle2
    and r/midjourney.  Starting from nothing, the first run collects both
    posts and writes their rows; the second run over the same listing finds
    the id ["abc"] among the rows of r/dalle2, yet reads no known id for
    r/aiArt, collects both posts again and writes their rows a second time.
    On r/dalle2 itself the second run collects nothing. *)
Theorem aiart_rerun_collects_again :
  match Apache.run_subreddit Sample.world_aiart Sample.empty_gcs "aiArt" with
  | Ok (stats1, gcs1) =>
      Stats.new_images stats1 = 2
      ∧ map Row.submission_id (Apache.stored_rows gcs1 "dalle2") = ["abc"]
      ∧ (Apache.get_gcs_submission_ids gcs1 "aiArt").1 = ∅
      ∧ match Apache.run_subreddit Sample.world_aiart gcs1 "aiArt" with
        | Ok (stats2, gcs2) =>
            Stats.new_images stats2 = 2
            ∧ map Row.submission_id (Apache.stored_rows gcs2 "dalle2")
              = ["abc"; "abc"]
            ∧ map Row.submission_id (Apache.stored_rows gcs2 "midjourney")
              = ["xyz"; "xyz"]
        | Raise _ => False
        end
  | Raise _ => False
  end
  ∧ match Local.run_subreddit Sample.world_aiart Sample.empty_fs "aiArt" with
    | Ok (stats1, fs1) =>
        Stats.new_images stats1 = 2
        ∧ map Row.submission_id (Local.stored_rows fs1 "dalle2") = ["abc"]
        ∧ match Local.run_subreddit Sample.world_aiart fs1 "aiArt" with
          | Ok (stats2, fs2) =>
              Stats.new_images stats2 = 2
              ∧ map Row.submission_id (Local.stored_rows fs2 "dalle2")
                = ["abc"; "abc"]
          | Raise _ => False
          end
    | Raise _ => False
    end
  ∧ match Apache.run_subreddit Sample.world_five Sample.gcs_with_seen "dalle2" with
    | Ok (stats1, gcs1) =>
        Stats.new_images stats1 = 1
        ∧ match Apache.run_subreddit Sample.world_five gcs1 "dalle2" with
          | Ok (stats2, _) => Stats.new_images stats2 = 0
          | Raise _ => False
          end
    | Raise _ => False
    end.
Proof. vm_compute. repeat split; reflexivity. Qed.

(** * More about the collection, the metadata update and the logs *)

(** ** The sample runs, computed *)

Module SampleRuns.

(** The five posts of r/dalle2, collected into the bucket and onto the disk
    that hold [seen]. *)
Lemma upload_five :
  match Apache.upload_new_images_to_gcs Sample.world_five Sample.gcs_with_seen
          "dalle2" with
  | Ok (stats, gcs') =>
      Stats.new_images stats = 1
      ∧ map image_blob (Stats.images stats) = ["dalle2/img_dalle2_e5.jpeg"]
  | Raise _ => False
  end.
Proof. vm_compute. split; reflexivity. Qed.

Lemma collect_five_local :
  match Local.collect_new_images_from_subreddit_local Sample.world_five
          Sample.fs_with_seen "dalle2" Sample.dalle_flair with
  | Ok (stats, fs') =>
      Stats.new_images stats = 1
      ∧ map image_path (Stats.images stats)
        = ["data_collection/data/dalle2/img_dalle2_e5.jpeg"]
  | Raise _ => False
  end.
Proof. vm_compute. split; reflexivity. Qed.



(** The two posts of r/aiArt, from nothing. *)
Lemma upload_aiart :
  match Apache.upload_new_images_to_gcs Sample.world_aiart Sample.empty_gcs
          "aiArt" with
  | Ok (stats, _) =>
      map Image.target_subr (Stats.images stats) = ["dalle2"; "midjourney"]
  | Raise _ => False
  end.
Proof. vm_compute. reflexivity. Qed.

Lemma run_aiart :
  match Apache.run_subreddit Sample.world_aiart Sample.empty_gcs "aiArt" with
  | Ok (stats, _) => Stats.new_images stats = 2
  | Raise _ => False
  end.
Proof. vm_compute. reflexivity. Qed.

Lemma run_aiart_local :
  match Local.run_subreddit Sample.world_aiart Sample.empty_fs "aiArt" with
  | Ok (stats, _) => Stats.new_images stats = 2
  | Raise _ => False
  end.
Proof. vm_compute. reflexivity. Qed.

Lemma download_aiart_dalle :
  is_ok (download Apache.save_image (λ _, None) Sample.world_aiart "aiArt"
           Sample.empty_gcs Sample.aiart_dalle).2 = true.
Proof. vm_compute. reflexivity. Qed.

(** The local script to its end, over the five posts. *)
Lemma log_five_local :
  match collect_all_and_log_local (λ _, "{}") Sample.world_five
          Sample.fs_with_seen "2025-01-01T16:00:00" "20250101_160000" with
  | Ok (data, _) => LogData.total_new_images data = 1
  | Raise _ => False
  end.
Proof. vm_compute. reflexivity. Qed.

End SampleRuns.

(** ** The shape of what the loop collects *)

Section LoopShape.
Context {Store : Type}.
Variable flair_rejected : option string → gset string → bool.
Variable save_image :
  World → Store → string → string → string → string → Store * Result unit.
Variable flair_key : option string → option string.
Variable w : World.
Variable subr : string.
Variable flair : gset string.
Variable ids : gset string.

Local Abbreviation body :=
  (process flair_rejected save_image flair_key w subr flair ids).
Local Abbreviation fetch := (download save_image flair_key w subr).
Local Abbreviation loop :=
  (collect_loop flair_rejected save_image flair_key w subr flair ids).
Local Abbreviation p_new := (is_new flair_rejected flair ids).

(** [stats['new_images']] is the length of [new_images]. *)
Lemma collect_loop_entries_count (feed : list Submission.t) (L : Loop Store) :
  Stats.new_images (stats L) = Z.of_nat (length (new_images L)) →
  Stats.new_images (stats (loop L feed))
  = Z.of_nat (length (new_images (loop L feed))).
Proof.
  revert L. induction feed as [|s feed IH]; intros L H; [done|].
  rewrite collect_loop_cons. apply IH.
  destruct (p_new s) eqn:En.
  - rewrite (process_new _ _ _ _ _ _ _ L s En). cbv zeta.
    destruct (fetch (store L) s) as [st' [img|e]]; simpl; [|done].
    rewrite length_app. simpl. lia.
  - destruct (process_not_new _ save_image flair_key w subr _ _ L s En)
      as (-> & _ & -> & _). done.
Qed.

(** Any property of the storage that writing an image keeps is kept by the
    loop. *)
Lemma collect_loop_preserves (P : Store → Prop) (feed : list Submission.t)
    (L : Loop Store) :
  (∀ st t f e c, P st → P (save_image w st t f e c).1) →
  P (store L) → P (store (loop L feed)).
Proof.
  intros Hsave. revert L. induction feed as [|s feed IH]; intros L H; [done|].
  rewrite collect_loop_cons. apply IH.
  destruct (p_new s) eqn:En.
  - rewrite (process_new _ _ _ _ _ _ _ L s En). cbv zeta.
    assert (P (fetch (store L) s).1) as Hf.
    { unfold download. destruct (requests_get w _); [|done].
      destruct (resolve_target_subr _ _) as [t|]; [|done].
      specialize (Hsave (store L) t
        (image_filename t (Submission.id s)
           (get_file_extension (Submission.url s)))
        (get_file_extension (Submission.url s)) (Response.content a) H).
      by destruct (save_image _ _ _ _ _ _) as [st' [[]|]]. }
    by destruct (fetch (store L) s) as [st' [img|e]].
  - by destruct (process_not_new _ save_image flair_key w subr _ _ L s En)
      as (_ & -> & _).
Qed.

(** With a record of what was written: the loop writes one name per
    collected entry, in their order, and nothing else. *)
Variable written : Store → list string.
Variable name_of : string → string → string.
Hypothesis save_written : ∀ st t f e c,
  written (save_image w st t f e c).1
  = (written st
     ++ if is_ok (save_image w st t f e c).2 then [name_of t f] else [])%list.

Lemma collect_loop_written (feed : list Submission.t) (L : Loop Store) :
  ∃ more,
    new_images (loop L feed) = (new_images L ++ more)%list
    ∧ written (store (loop L feed))
      = (written (store L)
         ++ map (λ img, name_of (Image.target_subr img) (Image.filename img))
              more)%list.
Proof.
  revert L. induction feed as [|s feed IH]; intros L.
  { exists []. by rewrite !app_nil_r. }
  rewrite collect_loop_cons. destruct (IH (body L s)) as (more & -> & ->).
  destruct (p_new s) eqn:En.
  - rewrite (process_new _ _ _ _ _ _ _ L s En). cbv zeta.
    destruct (fetch (store L) s) as [st' [img|e]] eqn:Ef; simpl.
    + exists (img :: more). rewrite <- !app_assoc. split; [done|].
      apply (download_ok save_image flair_key w subr) in Ef
        as (r & t & _ & _ & Hs & ->). simpl.
      pose proof (save_written (store L) t
        (image_filename t (Submission.id s)
           (get_file_extension (Submission.url s)))
        (get_file_extension (Submission.url s)) (Response.content r)) as Hw.
      rewrite Hs in Hw. simpl in Hw. rewrite Hw, <- app_assoc. done.
    + exists more. split; [done|]. f_equal.
      unfold download in Ef. destruct (requests_get w _) as [r|]; [|by inversion Ef].
      destruct (resolve_target_subr _ _) as [t|]; [|by inversion Ef].
      pose proof (save_written (store L) t
        (image_filename t (Submission.id s)
           (get_file_extension (Submission.url s)))
        (get_file_extension (Submission.url s)) (Response.content r)) as Hw.
      destruct (save_image _ _ _ _ _ _) as [st'' [[]|e']]; inversion Ef; subst.
      simpl in Hw. by rewrite app_nil_r in Hw.
  - destruct (process_not_new _ save_image flair_key w subr _ _ L s En)
      as (-> & -> & _). by exists more.
Qed.

End LoopShape.

Section LoopIds.
Context {Store : Type}.
Variable flair_rejected : option string → gset string → bool.
Variable save_image :
  World → Store → string → string → string → string → Store * Result unit.
Variable flair_key : option string → option string.
Variable w : World.
Variable subr : string.
Variable flair : gset string.
Variable ids : gset string.

Hypothesis download_outcome : ∀ st st' s,
  is_ok (download save_image flair_key w subr st s).2
  = is_ok (download save_image flair_key w subr st' s).2.

Local Abbreviation body :=
  (process flair_rejected save_image flair_key w subr flair ids).
Local Abbreviation fetch := (download save_image flair_key w subr).
Local Abbreviation loop :=
  (collect_loop flair_rejected save_image flair_key w subr flair ids).
Local Abbreviation p_new := (is_new flair_rejected flair ids).

(** The ids of what the loop collects, and its count of failed downloads,
    read off the listing. *)
Lemma collect_loop_ids (st0 : Store) (feed : list Submission.t)
    (L : Loop Store) :
  map Image.submission_id (new_images (loop L feed))
  = (map Image.submission_id (new_images L)
     ++ map Submission.id
          (filter (λ s, Is_true (p_new s && is_ok (fetch st0 s).2)) feed))%list
  ∧ Stats.download_errors (stats (loop L feed))
    = Stats.download_errors (stats L)
      + count (λ s, p_new s && negb (is_ok (fetch st0 s).2)) feed.
Proof.
  revert L. induction feed as [|s feed IH]; intros L.
  { unfold count. simpl. rewrite app_nil_r. split; [done|lia]. }
  rewrite collect_loop_cons, count_cons.
  destruct (IH (body L s)) as [-> ->].
  assert (∀ b, is_ok (fetch (store L) s).2 = b →
             is_ok (fetch st0 s).2 = b) as Hst0.
  { intros b <-. apply download_outcome. }
  destruct (p_new s) eqn:En.
  - rewrite (process_new _ _ _ _ _ _ _ L s En). cbv zeta.
    destruct (fetch (store L) s) as [st' [img|e]] eqn:Ef; simpl.
    + rewrite filter_cons_True by (by rewrite En, (Hst0 true)).
      rewrite (Hst0 true) by done.
      apply (download_ok save_image flair_key w subr) in Ef
        as (r & t & _ & _ & _ & ->).
      rewrite map_app, <- app_assoc. simpl. split; [done|lia].
    + rewrite filter_cons_False by (rewrite En, (Hst0 false); simpl; tauto).
      rewrite (Hst0 false) by done. simpl. split; [done|lia].
  - destruct (process_not_new _ save_image flair_key w subr _ _ L s En)
      as (-> & _ & _ & ->).
    rewrite filter_cons_False by (rewrite En; simpl; tauto).
    simpl. split; [done|lia].
Qed.

End LoopIds.

Lemma collect_counts {Store : Type}
    (flair_rejected : option string → gset string → bool)
    (save_image :
       World → Store → string → string → string → string → Store * Result unit)
    (flair_key : option string → option string)
    (w : World) (subr : string) (flair ids : gset string) (st : Store) :
  let stats :=
    (collect flair_rejected save_image flair_key w subr flair ids st).1 in
  Stats.subreddit stats = subr
  ∧ Stats.checked stats = Z.of_nat (length (subreddit_new w subr)) `min` 1000
  ∧ Stats.new_images stats = Z.of_nat (length (Stats.images stats)).
Proof.
  cbv zeta. unfold collect. simpl. split_and!.
  - by rewrite collect_loop_subreddit.
  - pose proof (collect_loop_counters flair_rejected save_image flair_key w
                  subr flair ids (take 1000 (subreddit_new w subr))
                  {| stats := Stats.init subr; new_images := [];
                     store := st |}) as Hc.
    cbv zeta in Hc. destruct Hc as (-> & _). simpl.
    rewrite length_take. lia.
  - by apply collect_loop_entries_count.
Qed.

(** X1. In both scripts the returned [stats] names the subreddit it was
    collected for, [checked] is the length of the listing, capped at the
    [limit] of 1000, and [new_images] is the number of entries of
    [stats['images']]. *)
Theorem counters_match_listing_and_entries :
  (∀ w gcs subr stats gcs',
     Apache.upload_new_images_to_gcs w gcs subr = Ok (stats, gcs') →
     Stats.subreddit stats = subr
     ∧ Stats.checked stats = Z.of_nat (length (subreddit_new w subr)) `min` 1000
     ∧ Stats.new_images stats = Z.of_nat (length (Stats.images stats)))
  ∧ (∀ w fs subr flair stats fs',
       Local.collect_new_images_from_subreddit_local w fs subr flair
       = Ok (stats, fs') →
       Stats.subreddit stats = subr
       ∧ Stats.checked stats
         = Z.of_nat (length (subreddit_new w subr)) `min` 1000
       ∧ Stats.new_images stats = Z.of_nat (length (Stats.images stats))).
Proof.
  split.
  - intros w gcs subr stats gcs' H.
    apply upload_new_images_to_gcs_ok in H as (flair & _ & H).
    pose proof (collect_counts Apache.flair_rejected Apache.save_image
                  (λ _, None) w subr flair
                  (Apache.get_gcs_submission_ids gcs subr).1 gcs) as F.
    cbv zeta in F. by rewrite <- H in F.
  - intros w fs subr flair stats fs' H.
    apply collect_new_images_from_subreddit_local_ok in H as (ids & log & _ & H).
    pose proof (collect_counts Local.flair_rejected Local.save_image
                  (λ t, t) w subr flair ids fs) as F.
    cbv zeta in F. by rewrite <- H in F.
Qed.

Lemma counters_match_listing_and_entries_witness :
  match Apache.upload_new_images_to_gcs Sample.world_five Sample.gcs_with_seen
          "dalle2" with
  | Ok (stats, _) =>
      Stats.checked stats = 5 ∧ Stats.new_images stats = 1
      ∧ length (Stats.images stats) = 1%nat
  | Raise _ => False
  end
  ∧ match Local.collect_new_images_from_subreddit_local Sample.world_five
            Sample.fs_with_seen "dalle2" Sample.dalle_flair with
    | Ok (stats, _) =>
        Stats.checked stats = 5 ∧ Stats.new_images stats = 1
        ∧ length (Stats.images stats) = 1%nat
    | Raise _ => False
    end.
Proof.
  split.
  - generalize SampleRuns.upload_five.
    destruct (Apache.upload_new_images_to_gcs _ _ _) as [[stats gcs']|] eqn:E;
      [|done].
    intros [H1 _].
    destruct (proj1 counters_match_listing_and_entries _ _ _ _ _ E)
      as (_ & Hc & Hn).
    split_and!; [exact Hc | exact H1 | lia].
  - generalize SampleRuns.collect_five_local.
    destruct (Local.collect_new_images_from_subreddit_local _ _ _ _)
      as [[stats fs']|] eqn:E; [|done].
    intros [H1 _].
    destruct (proj2 counters_match_listing_and_entries _ _ _ _ _ _ E)
      as (_ & Hc & Hn).
    split_and!; [exact Hc | exact H1 | lia].
Defined.

Lemma collect_ids {Store : Type}
    (flair_rejected : option string → gset string → bool)
    (save_image :
       World → Store → string → string → string → string → Store * Result unit)
    (flair_key : option string → option string)
    (w : World) (subr : string) (flair ids : gset string) (st0 st : Store) :
  (∀ st st' s,
     is_ok (download save_image flair_key w subr st s).2
     = is_ok (download save_image flair_key w subr st' s).2) →
  let stats :=
    (collect flair_rejected save_image flair_key w subr flair ids st).1 in
  map Image.submission_id (Stats.images stats)
  = map Submission.id
      (filter (λ s, Is_true (is_new flair_rejected flair ids s
                             && is_ok (download save_image flair_key w subr
                                         st0 s).2))
         (take 1000 (subreddit_new w subr)))
  ∧ Stats.download_errors stats
    = count (λ s, is_new flair_rejected flair ids s
                  && negb (is_ok (download save_image flair_key w subr
                                    st0 s).2))
        (take 1000 (subreddit_new w subr)).
Proof.
  intros Hout. cbv zeta. unfold collect. simpl.
  destruct (collect_loop_ids flair_rejected save_image flair_key w subr flair
              ids Hout st0 (take 1000 (subreddit_new w subr))
              {| stats := Stats.init subr; new_images := []; store := st |})
    as [-> ->].
  simpl. split; [done|lia].
Qed.







Section LoopStored.
Context {Store : Type}.
Variable flair_rejected : option string → gset string → bool.
Variable save_image :
  World → Store → string → string → string → string → Store * Result unit.
Variable flair_key : option string → option string.
Variable w : World.
Variable subr : string.
Variable flair : gset string.
Variable ids : gset string.

Local Abbreviation body :=
  (process flair_rejected save_image flair_key w subr flair ids).
Local Abbreviation fetch := (download save_image flair_key w subr).
Local Abbreviation loop :=
  (collect_loop flair_rejected save_image flair_key w subr flair ids).
Local Abbreviation p_new := (is_new flair_rejected flair ids).

(** What a successful write establishes for its entry, and later writes
    keep, holds of every collected entry at the end. *)
Variable Q : Store → string → string → Prop.
Hypothesis Q_kept : ∀ st t f e c t0 f0,
  Q st t0 f0 → Q (save_image w st t f e c).1 t0 f0.
Hypothesis Q_saved : ∀ st st' t f e c,
  save_image w st t f e c = (st', Ok ()) → Q st' t f.

Lemma collect_loop_stored (feed : list Submission.t) (L : Loop Store) :
  (∀ img, img ∈ new_images L →
          Q (store L) (Image.target_subr img) (Image.filename img)) →
  ∀ img, img ∈ new_images (loop L feed) →
         Q (store (loop L feed)) (Image.target_subr img) (Image.filename img).
Proof.
  revert L. induction feed as [|s feed IH]; intros L H; [done|].
  rewrite collect_loop_cons. apply IH. clear IH.
  destruct (p_new s) eqn:En.
  - rewrite (process_new _ _ _ _ _ _ _ L s En). cbv zeta.
    destruct (fetch (store L) s) as [st' [img|e]] eqn:Ef; simpl.
    + apply (download_ok save_image flair_key w subr) in Ef
        as (r & t & _ & _ & Hs & ->).
      intros img [Hin|Hin%list_elem_of_singleton]%elem_of_app; [|subst img].
      * pose proof (Q_kept (store L) t
          (image_filename t (Submission.id s)
             (get_file_extension (Submission.url s)))
          (get_file_extension (Submission.url s)) (Response.content r)
          _ _ (H img Hin)) as Hk.
        by rewrite Hs in Hk.
      * simpl. by apply (Q_saved _ _ _ _ _ _ Hs).
    + intros img Hin. unfold download in Ef.
      destruct (requests_get w _) as [r|]; [|inversion Ef; subst; by apply H].
      destruct (resolve_target_subr _ _) as [t|];
        [|inversion Ef; subst; by apply H].
      pose proof (Q_kept (store L) t
          (image_filename t (Submission.id s)
             (get_file_extension (Submission.url s)))
          (get_file_extension (Submission.url s)) (Response.content r)
          _ _ (H img Hin)) as Hk.
      destruct (save_image _ _ _ _ _ _) as [st'' [[]|e']]; inversion Ef; subst.
      exact Hk.
  - destruct (process_not_new _ save_image flair_key w subr _ _ L s En)
      as (-> & -> & _). exact H.
Qed.

End LoopStored.

(** ** What collecting does to the bucket and to the disk *)

Lemma apache_save_written w gcs t f e c :
  Apache.uploads (Apache.save_image w gcs t f e c).1
  = (Apache.uploads gcs
     ++ if is_ok (Apache.save_image w gcs t f e c).2 then [(t ++ "/" ++ f)%string]
        else [])%list.
Proof.
  unfold Apache.save_image, Apache.upload_from_string.
  destruct (write_fails w _); simpl; [by rewrite app_nil_r | done].
Qed.

Lemma local_save_written w fs t f e c :
  Local.writes (Local.save_image w fs t f e c).1
  = (Local.writes fs
     ++ if is_ok (Local.save_image w fs t f e c).2
        then [(Local.subr_dir t ++ "/" ++ f)%string] else [])%list.
Proof.
  unfold Local.save_image.
  destruct (write_fails w _); simpl; [by rewrite app_nil_r | done].
Qed.

(** The objects that differ from those of [gcs0] are among the uploads made
    since. *)
Lemma apache_frame_save gcs0 w gcs t f e c :
  (∃ l, Apache.uploads gcs = (Apache.uploads gcs0 ++ l)%list
        ∧ ∀ name, name ∉ l →
                  Apache.objects gcs !! name = Apache.objects gcs0 !! name) →
  ∃ l, Apache.uploads (Apache.save_image w gcs t f e c).1
       = (Apache.uploads gcs0 ++ l)%list
       ∧ ∀ name, name ∉ l →
                 Apache.objects (Apache.save_image w gcs t f e c).1 !! name
                 = Apache.objects gcs0 !! name.
Proof.
  intros (l & Hu & Ho). unfold Apache.save_image, Apache.upload_from_string.
  destruct (write_fails w _); simpl; [by exists l|].
  exists (l ++ [(t ++ "/" ++ f)%string])%list. simpl. split.
  - by rewrite Hu, <- app_assoc.
  - intros name Hn. rewrite not_elem_of_app, list_elem_of_singleton in Hn.
    destruct Hn as [Hn1 Hn2]. rewrite lookup_insert_ne by done. by apply Ho.
Qed.

Lemma local_frame_save fs0 w fs t f e c :
  (∃ l, Local.writes fs = (Local.writes fs0 ++ l)%list
        ∧ ∀ path, path ∉ l →
                  Local.files fs !! path = Local.files fs0 !! path) →
  ∃ l, Local.writes (Local.save_image w fs t f e c).1
       = (Local.writes fs0 ++ l)%list
       ∧ ∀ path, path ∉ l →
                 Local.files (Local.save_image w fs t f e c).1 !! path
                 = Local.files fs0 !! path.
Proof.
  intros (l & Hu & Ho). unfold Local.save_image.
  destruct (write_fails w _); simpl; [by exists l|].
  exists (l ++ [(Local.subr_dir t ++ "/" ++ f)%string])%list. simpl. split.
  - by rewrite Hu, <- app_assoc.
  - intros name Hn. rewrite not_elem_of_app, list_elem_of_singleton in Hn.
    destruct Hn as [Hn1 Hn2]. rewrite lookup_insert_ne by done. by apply Ho.
Qed.

Lemma apache_collect_effect w subr flair ids gcs :
  let r := collect Apache.flair_rejected Apache.save_image (λ _, None) w subr
             flair ids gcs in
  Apache.uploads r.2
  = (Apache.uploads gcs ++ map image_blob (Stats.images r.1))%list
  ∧ (∀ name, name ∉ map image_blob (Stats.images r.1) →
             Apache.objects r.2 !! name = Apache.objects gcs !! name)
  ∧ (∀ img, img ∈ Stats.images r.1 →
            ∃ content,
              Apache.data <$> (Apache.objects r.2 !! image_blob img)
              = Some [Bytes content]).
Proof.
  cbv zeta. unfold collect. simpl.
  set (L0 := {| stats := Stats.init subr; new_images := []; store := gcs |}).
  set (feed := take 1000 (subreddit_new w subr)).
  destruct (collect_loop_written Apache.flair_rejected Apache.save_image
              (λ _, None) w subr flair ids Apache.uploads
              (λ t f, t ++ "/" ++ f) (apache_save_written w) feed L0)
    as (more & Hn & Hu).
  simpl in Hn, Hu. rewrite Hn. fold (image_blob) in Hu.
  change (map _ more) with (map image_blob more) in Hu.
  split_and!.
  - exact Hu.
  - pose proof (collect_loop_preserves Apache.flair_rejected Apache.save_image
                  (λ _, None) w subr flair ids
                  (λ st, ∃ l, Apache.uploads st = (Apache.uploads gcs ++ l)%list
                              ∧ ∀ name, name ∉ l →
                                  Apache.objects st !! name
                                  = Apache.objects gcs !! name) feed L0)
      as Hp.
    destruct Hp as (l & Hl & Ho).
    + intros st t f e c. apply apache_frame_save.
    + exists []. simpl. by rewrite app_nil_r.
    + rewrite Hu in Hl. apply app_inv_head in Hl. by subst l.
  - rewrite <- Hn.
    apply (collect_loop_stored Apache.flair_rejected Apache.save_image
             (λ _, None) w subr flair ids
             (λ st t f, ∃ content,
                Apache.data <$> (Apache.objects st !! (t ++ "/" ++ f))
                = Some [Bytes content])).
    + intros st t f e c t0 f0 (content & Hc).
      unfold Apache.save_image, Apache.upload_from_string.
      destruct (write_fails w _); simpl; [by exists content|].
      destruct (decide (t ++ "/" ++ f = t0 ++ "/" ++ f0)) as [E|E].
      * rewrite E, lookup_insert_eq. by exists c.
      * rewrite lookup_insert_ne by done. by exists content.
    + intros st st' t f e c.
      unfold Apache.save_image, Apache.upload_from_string.
      destruct (write_fails w _); [by inversion 1|].
      inversion 1; subst. simpl. rewrite lookup_insert_eq. by exists c.
    + simpl. by intros img ?%elem_of_nil.
Qed.

Lemma local_collect_effect w subr flair ids fs :
  let r := collect Local.flair_rejected Local.save_image (λ t, t) w subr
             flair ids fs in
  Local.writes r.2
  = (Local.writes fs ++ map image_path (Stats.images r.1))%list
  ∧ (∀ path, path ∉ map image_path (Stats.images r.1) →
             Local.files r.2 !! path = Local.files fs !! path)
  ∧ (∀ img, img ∈ Stats.images r.1 →
            (∃ content,
               Local.files r.2 !! image_path img = Some [Bytes content])
            ∧ Local.subr_dir (Image.target_subr img) ∈ Local.dirs r.2)
  ∧ Local.dirs fs ⊆ Local.dirs r.2.
Proof.
  cbv zeta. unfold collect. simpl.
  set (L0 := {| stats := Stats.init subr; new_images := []; store := fs |}).
  set (feed := take 1000 (subreddit_new w subr)).
  destruct (collect_loop_written Local.flair_rejected Local.save_image
              (λ t, t) w subr flair ids Local.writes
              (λ t f, Local.subr_dir t ++ "/" ++ f) (local_save_written w)
              feed L0)
    as (more & Hn & Hu).
  simpl in Hn, Hu. rewrite Hn.
  change (map _ more) with (map image_path more) in Hu.
  split_and!.
  - exact Hu.
  - pose proof (collect_loop_preserves Local.flair_rejected Local.save_image
                  (λ t, t) w subr flair ids
                  (λ st, ∃ l, Local.writes st = (Local.writes fs ++ l)%list
                              ∧ ∀ path, path ∉ l →
                                  Local.files st !! path
                                  = Local.files fs !! path) feed L0)
      as Hp.
    destruct Hp as (l & Hl & Ho).
    + intros st t f e c. apply local_frame_save.
    + exists []. simpl. by rewrite app_nil_r.
    + rewrite Hu in Hl. apply app_inv_head in Hl. by subst l.
  - rewrite <- Hn.
    apply (collect_loop_stored Local.flair_rejected Local.save_image
             (λ t, t) w subr flair ids
             (λ st t f,
                (∃ content,
                   Local.files st !! (Local.subr_dir t ++ "/" ++ f)
                   = Some [Bytes content])
                ∧ Local.subr_dir t ∈ Local.dirs st)).
    + intros st t f e c t0 f0 [(content & Hc) Hd].
      unfold Local.save_image.
      destruct (write_fails w _); simpl.
      * split; [by exists content | by apply elem_of_union_r].
      * split; [|by apply elem_of_union_r].
        destruct (decide (Local.subr_dir t ++ "/" ++ f
                          = Local.subr_dir t0 ++ "/" ++ f0)) as [E|E].
        -- rewrite E, lookup_insert_eq. by exists c.
        -- rewrite lookup_insert_ne by done. by exists content.
    + intros st st' t f e c. unfold Local.save_image.
      destruct (write_fails w _); [by inversion 1|].
      inversion 1; subst. simpl. rewrite lookup_insert_eq.
      split; [by exists c|]. apply elem_of_union_l. set_solver.
    + simpl. by intros img ?%elem_of_nil.
  - apply (collect_loop_preserves Local.flair_rejected Local.save_image
             (λ t, t) w subr flair ids
             (λ st, Local.dirs fs ⊆ Local.dirs st) feed L0); [|done].
    intros st t f e c Hs. unfold Local.save_image.
    destruct (write_fails w _); simpl;
      (etrans; [exact Hs | apply union_subseteq_r]).
Qed.

(** X4. [upload_new_images_to_gcs] uploads one object per entry of
    [stats['images']], named [{target_subr}/{filename}], in the order of the
    entries, and nothing else; every other object of the bucket is what it
    was, each entry's object holds downloaded bytes, and no object is
    removed. *)
Theorem collection_uploads_one_object_per_entry :
  ∀ w gcs subr stats gcs',
    Apache.upload_new_images_to_gcs w gcs subr = Ok (stats, gcs') →
    Apache.uploads gcs'
    = (Apache.uploads gcs ++ map image_blob (Stats.images stats))%list
    ∧ (∀ name, name ∉ map image_blob (Stats.images stats) →
               Apache.objects gcs' !! name = Apache.objects gcs !! name)
    ∧ (∀ img, img ∈ Stats.images stats →
              ∃ content,
                Apache.data <$> (Apache.objects gcs' !! image_blob img)
                = Some [Bytes content])
    ∧ (∀ name, is_Some (Apache.objects gcs !! name) →
               is_Some (Apache.objects gcs' !! name)).
Proof.
  intros w gcs subr stats gcs' H.
  apply upload_new_images_to_gcs_ok in H as (flair & _ & H).
  pose proof (apache_collect_effect w subr flair
                (Apache.get_gcs_submission_ids gcs subr).1 gcs) as F.
  cbv zeta in F. rewrite <- H in F. simpl in F.
  destruct F as (Hu & Ho & Hi). split_and!; [done..|].
  intros name Hs.
  destruct (decide (name ∈ map image_blob (Stats.images stats))) as [Hin|Hn].
  - apply list_elem_of_fmap in Hin as (img & -> & Hin).
    destruct (Hi img Hin) as (content & Hc).
    destruct (Apache.objects gcs' !! image_blob img); [done|discriminate].
  - by rewrite Ho.
Qed.

Lemma collection_uploads_one_object_per_entry_witness :
  match Apache.upload_new_images_to_gcs Sample.world_five Sample.gcs_with_seen
          "dalle2" with
  | Ok (stats, gcs') =>
      Apache.uploads gcs' = ["dalle2/img_dalle2_e5.jpeg"]
      ∧ is_Some (Apache.objects gcs' !! "dalle2/metadata.csv")
  | Raise _ => False
  end.
Proof.
  generalize SampleRuns.upload_five.
  destruct (Apache.upload_new_images_to_gcs _ _ _) as [[stats gcs']|] eqn:E;
    [|done].
  intros [_ Hb].
  destruct (collection_uploads_one_object_per_entry _ _ _ _ _ E)
    as (Hu & _ & _ & Hk).
  split.
  - rewrite Hu, Hb. reflexivity.
  - apply Hk. vm_compute. eauto.
Defined.

(** X5. [collect_new_images_from_subreddit_local] writes one file per entry
    of [stats['images']], at [DATA_DIR/{target_subr}/{filename}], in the
    order of the entries, and nothing else; every other file is what it was,
    each entry's file holds downloaded bytes, the directory of each entry's
    target exists afterwards, and no directory goes away. *)
Theorem collection_writes_one_file_per_entry :
  ∀ w fs subr flair stats fs',
    Local.collect_new_images_from_subreddit_local w fs subr flair
    = Ok (stats, fs') →
    Local.writes fs'
    = (Local.writes fs ++ map image_path (Stats.images stats))%list
    ∧ (∀ path, path ∉ map image_path (Stats.images stats) →
               Local.files fs' !! path = Local.files fs !! path)
    ∧ (∀ img, img ∈ Stats.images stats →
              (∃ content,
                 Local.files fs' !! image_path img = Some [Bytes content])
              ∧ Local.subr_dir (Image.target_subr img) ∈ Local.dirs fs')
    ∧ Local.dirs fs ⊆ Local.dirs fs'.
Proof.
  intros w fs subr flair stats fs' H.
  apply collect_new_images_from_subreddit_local_ok in H as (ids & log & _ & H).
  pose proof (local_collect_effect w subr flair ids fs) as F.
  cbv zeta in F. by rewrite <- H in F.
Qed.

Lemma collection_writes_one_file_per_entry_witness :
  match Local.collect_new_images_from_subreddit_local Sample.world_five
          Sample.fs_with_seen "dalle2" Sample.dalle_flair with
  | Ok (stats, fs') =>
      Local.writes fs' = ["data_collection/data/dalle2/img_dalle2_e5.jpeg"]
  | Raise _ => False
  end.
Proof.
  generalize SampleRuns.collect_five_local.
  destruct (Local.collect_new_images_from_subreddit_local _ _ _ _)
    as [[stats fs']|] eqn:E; [|done].
  intros [_ Hb].
  destruct (collection_writes_one_file_per_entry _ _ _ _ _ _ E) as (Hu & _).
  rewrite Hu, Hb. reflexivity.
Defined.

(** ** Names without a slash *)

Lemma slash_free_app (x y : string) :
  PyStr.forallb_str (λ a, negb (Ascii.eqb a "/")) (x ++ "/" ++ y) = false.
Proof.
  induction x as [|a x IH].
  - by rewrite PyStrFacts.app_nil_l.
  - rewrite PyStrFacts.app_cons. simpl. rewrite IH. apply andb_false_r.
Qed.

(** A name without a slash followed by a slash and a last part without one
    splits in one way only. *)
Lemma slash_split (c m t r : string) :
  PyStr.forallb_str (λ a, negb (Ascii.eqb a "/")) c = true →
  PyStr.forallb_str (λ a, negb (Ascii.eqb a "/")) m = true →
  t ++ "/" ++ r = c ++ "/" ++ m → t = c ∧ r = m.
Proof.
  intros Hc Hm. revert t. induction c as [|b c IH]; intros t H.
  - rewrite (PyStrFacts.app_nil_l ("/" ++ m)) in H.
    destruct t as [|a t].
    + rewrite PyStrFacts.app_nil_l in H.
      rewrite !PyStrFacts.app_cons, !PyStrFacts.app_nil_l in H.
      by inversion H.
    + rewrite !PyStrFacts.app_cons, !PyStrFacts.app_nil_l in H.
      inversion H as [[Ha Ht]]. rewrite <- Ht in Hm.
      pose proof (slash_free_app t r) as Hf.
      rewrite !PyStrFacts.app_cons, !PyStrFacts.app_nil_l in Hf. congruence.
  - simpl in Hc. apply andb_true_iff in Hc as [Hb Hc].
    destruct t as [|a t].
    + rewrite PyStrFacts.app_nil_l in H.
      rewrite !PyStrFacts.app_cons, !PyStrFacts.app_nil_l in H.
      inversion H as [[Ha Ht]]. subst b. done.
    + rewrite !(PyStrFacts.app_cons _ _ ("/" ++ _)) in H.
      inversion H as [[Ha Ht]]. destruct (IH Hc t Ht) as [-> ->]. done.
Qed.

Lemma image_blob_not_metadata_of (c : string) (img : Image.t) (id ext : string) :
  PyStr.forallb_str (λ a, negb (Ascii.eqb a "/")) c = true →
  Image.filename img = image_filename (Image.target_subr img) id ext →
  image_blob img ≠ Apache.metadata_blob c.
Proof.
  intros Hc Hf H. unfold image_blob, Apache.metadata_blob in H.
  apply slash_split in H as [_ H]; [|done|by vm_compute].
  rewrite Hf in H. unfold image_filename in H.
  rewrite !PyStrFacts.app_cons in H. discriminate H.
Qed.

Lemma image_path_not_metadata_of (c : string) (img : Image.t) (id ext : string) :
  PyStr.forallb_str (λ a, negb (Ascii.eqb a "/")) c = true →
  Image.filename img = image_filename (Image.target_subr img) id ext →
  image_path img ≠ Local.metadata_path c.
Proof.
  intros Hc Hf H.
  unfold image_path, Local.metadata_path, Local.subr_dir in H.
  rewrite !PyStrFacts.app_assoc in H.
  apply PyStrFacts.app_inv_head, PyStrFacts.app_inv_head in H.
  apply slash_split in H as [_ H]; [|done|by vm_compute].
  rewrite Hf in H. unfold image_filename in H.
  rewrite !PyStrFacts.app_cons in H. discriminate H.
Qed.

Lemma filter_eq_app_notin (l more : list string) (name : string) :
  name ∉ more →
  length (filter (λ k, k = name) (l ++ more)%list)
  = length (filter (λ k, k = name) l).
Proof.
  intros Hn. rewrite filter_app, length_app.
  assert (filter (λ k, k = name) more = []) as ->; [|simpl; lia].
  induction more as [|x more IH]; [done|].
  rewrite not_elem_of_cons in Hn. destruct Hn as [Hx Hn].
  rewrite filter_cons_False by (by intros ->). by apply IH.
Qed.

(** Collecting leaves the [metadata.csv] of every subreddit alone. *)
Lemma upload_new_images_to_gcs_metadata_view w gcs subr stats gcs' c :
  Apache.upload_new_images_to_gcs w gcs subr = Ok (stats, gcs') →
  PyStr.forallb_str (λ a, negb (Ascii.eqb a "/")) c = true →
  Apache.metadata_view gcs' c = Apache.metadata_view gcs c.
Proof.
  intros H Hc.
  assert (Apache.metadata_blob c ∉ map image_blob (Stats.images stats))
    as Hn.
  { intros (img & Hb & Hin)%list_elem_of_fmap.
    destruct (upload_new_images_to_gcs_images _ _ _ _ _ _ H Hin)
      as (s & r & _ & _ & _ & _ & _ & _ & _ & Hf).
    by apply (image_blob_not_metadata_of c img _ _ Hc Hf). }
  apply upload_new_images_to_gcs_ok in H as (flair & _ & H).
  pose proof (apache_collect_effect w subr flair
                (Apache.get_gcs_submission_ids gcs subr).1 gcs) as F.
  cbv zeta in F. rewrite <- H in F. simpl in F.
  destruct F as (Hu & Ho & _).
  unfold Apache.metadata_view, Apache.upload_count.
  by rewrite Hu, (Ho _ Hn), filter_eq_app_notin.
Qed.

Lemma collect_new_images_from_subreddit_local_metadata_view
    w fs subr flair stats fs' c :
  Local.collect_new_images_from_subreddit_local w fs subr flair
  = Ok (stats, fs') →
  PyStr.forallb_str (λ a, negb (Ascii.eqb a "/")) c = true →
  Local.metadata_view fs' c = Local.metadata_view fs c.
Proof.
  intros H Hc.
  assert (Local.metadata_path c ∉ map image_path (Stats.images stats))
    as Hn.
  { intros (img & Hb & Hin)%list_elem_of_fmap.
    destruct (collect_new_images_from_subreddit_local_images
                _ _ _ _ _ _ _ H Hin)
      as (s & r & _ & _ & _ & _ & _ & _ & _ & Hf).
    by apply (image_path_not_metadata_of c img _ _ Hc Hf). }
  apply collect_new_images_from_subreddit_local_ok in H
    as (ids & log & _ & H).
  pose proof (local_collect_effect w subr flair ids fs) as F.
  cbv zeta in F. rewrite <- H in F. simpl in F.
  destruct F as (Hu & Ho & _).
  unfold Local.metadata_view, Local.write_count.
  by rewrite Hu, (Ho _ Hn), filter_eq_app_notin.
Qed.

(** X6. Collecting never touches a [metadata.csv]: for every subreddit name
    without a slash, the [metadata.csv] of that subreddit is after
    [upload_new_images_to_gcs] or [collect_new_images_from_subreddit_local]
    what it was before, and was not written. *)
Theorem collection_leaves_metadata_alone :
  (∀ w gcs subr stats gcs' c,
     Apache.upload_new_images_to_gcs w gcs subr = Ok (stats, gcs') →
     PyStr.forallb_str (λ a, negb (Ascii.eqb a "/")) c = true →
     Apache.metadata_view gcs' c = Apache.metadata_view gcs c
     ∧ Apache.stored_rows gcs' c = Apache.stored_rows gcs c)
  ∧ (∀ w fs subr flair stats fs' c,
       Local.collect_new_images_from_subreddit_local w fs subr flair
       = Ok (stats, fs') →
       PyStr.forallb_str (λ a, negb (Ascii.eqb a "/")) c = true →
       Local.metadata_view fs' c = Local.metadata_view fs c
       ∧ Local.stored_rows fs' c = Local.stored_rows fs c).
Proof.
  split.
  - intros w gcs subr stats gcs' c H Hc.
    pose proof (upload_new_images_to_gcs_metadata_view _ _ _ _ _ _ H Hc) as Hv.
    split; [done|]. by apply apache_stored_rows_view.
  - intros w fs subr flair stats fs' c H Hc.
    pose proof (collect_new_images_from_subreddit_local_metadata_view
                  _ _ _ _ _ _ _ H Hc) as Hv.
    split; [done|]. by apply local_stored_rows_view.
Qed.

Lemma collection_leaves_metadata_alone_witness :
  match Apache.upload_new_images_to_gcs Sample.world_five Sample.gcs_with_seen
          "dalle2" with
  | Ok (stats, gcs') => Apache.stored_rows gcs' "dalle2" = [Sample.seen_row]
  | Raise _ => False
  end
  ∧ match Local.collect_new_images_from_subreddit_local Sample.world_five
            Sample.fs_with_seen "dalle2" Sample.dalle_flair with
    | Ok (stats, fs') => Local.stored_rows fs' "dalle2" = [Sample.seen_row]
    | Raise _ => False
    end.
Proof.
  split.
  - generalize SampleRuns.upload_five.
    destruct (Apache.upload_new_images_to_gcs _ _ _) as [[stats gcs']|] eqn:E;
      [|done].
    intros _.
    rewrite (proj2 (proj1 collection_leaves_metadata_alone _ _ _ _ _ "dalle2"
                      E eq_refl)).
    vm_compute. reflexivity.
  - generalize SampleRuns.collect_five_local.
    destruct (Local.collect_new_images_from_subreddit_local _ _ _ _)
      as [[stats fs']|] eqn:E; [|done].
    intros _.
    rewrite (proj2 (proj2 collection_leaves_metadata_alone _ _ _ _ _ _
                      "dalle2" E eq_refl)).
    vm_compute. reflexivity.
Defined.

Lemma FLAIR_DICT_cases (subr : string) (flair : gset string) :
  FLAIR_DICT !! subr = Some flair →
  (subr = DALLE_SUBR ∧ flair = {["DALL·E 2"; "DALL·E 3"]})
  ∨ (subr = MIDJ_SUBR ∧ flair = {["AI Showcase - Midjourney"]})
  ∨ (subr = AIART_SUBR
     ∧ flair = {["Image - DALL E 3 :a2:"; "Image - Midjourney :a2:"]}).
Proof.
  unfold FLAIR_DICT.
  destruct (decide (subr = DALLE_SUBR)) as [->|H1].
  { rewrite lookup_insert_eq. intros [= <-]. by left. }
  rewrite lookup_insert_ne by done.
  destruct (decide (subr = MIDJ_SUBR)) as [->|H2].
  { rewrite lookup_insert_eq. intros [= <-]. right. by left. }
  rewrite lookup_insert_ne by done.
  destruct (decide (subr = AIART_SUBR)) as [->|H3].
  { rewrite lookup_insert_eq. intros [= <-]. right. by right. }
  rewrite lookup_insert_ne by done. by rewrite lookup_empty.
Qed.

(** A flair that passes the flair test under [FLAIR_DICT[subr]] has a target
    subreddit, r/dalle2 or r/midjourney. *)
Lemma accepted_flair_resolves (subr : string) (flair : gset string)
    (link_flair_text : option string) :
  FLAIR_DICT !! subr = Some flair →
  Local.flair_rejected link_flair_text flair = false →
  ∃ target_subr,
    resolve_target_subr subr link_flair_text = Ok target_subr
    ∧ (target_subr = DALLE_SUBR ∨ target_subr = MIDJ_SUBR).
Proof.
  intros Hf Hp.
  destruct (FLAIR_DICT_cases _ _ Hf) as [[-> ->]|[[-> ->]|[-> ->]]].
  - exists DALLE_SUBR. split; [|by left]. by vm_compute.
  - exists MIDJ_SUBR. split; [|by right]. by vm_compute.
  - destruct link_flair_text as [f|]; [|done]. simpl in Hp.
    apply negb_false_iff, bool_decide_eq_true in Hp.
    apply elem_of_union in Hp as [->%elem_of_singleton| ->%elem_of_singleton].
    + exists DALLE_SUBR. split; [|by left]. vm_compute. reflexivity.
    + exists MIDJ_SUBR. split; [|by right]. vm_compute. reflexivity.
Qed.

Lemma apache_flair_rejected_local link_flair_text flair :
  Apache.flair_rejected link_flair_text flair = false →
  Local.flair_rejected link_flair_text flair = false.
Proof.
  destruct link_flair_text as [f|]; [|done]. simpl.
  by intros [_ ?]%orb_false_iff.
Qed.

(** The target of a subreddit of [SUBREDDITS], once it resolves. *)
Lemma resolved_target_cases (subr : string) (link_flair_text : option string)
    (target_subr : string) :
  subr ∈ SUBREDDITS →
  resolve_target_subr subr link_flair_text = Ok target_subr →
  target_subr = DALLE_SUBR ∨ target_subr = MIDJ_SUBR.
Proof.
  unfold SUBREDDITS. rewrite !elem_of_cons, elem_of_nil.
  intros [->|[->|[->|[]]]].
  - vm_compute. intros [= <-]. by left.
  - vm_compute. intros [= <-]. by right.
  - unfold resolve_target_subr. rewrite bool_decide_eq_true_2 by done.
    destruct link_flair_text as [f|]; [|done].
    unfold AIART_MAP.
    destruct (decide (f = "Image - DALL E 3 :a2:")) as [->|H1].
    { rewrite lookup_insert_eq. intros [= <-]. by left. }
    rewrite lookup_insert_ne by done.
    destruct (decide (f = "Image - Midjourney :a2:")) as [->|H2].
    { rewrite lookup_insert_eq. intros [= <-]. by right. }
    rewrite lookup_insert_ne by done. by rewrite lookup_empty.
Qed.

Lemma FLAIR_DICT_SUBREDDITS (subr : string) (flair : gset string) :
  FLAIR_DICT !! subr = Some flair → subr ∈ SUBREDDITS.
Proof.
  intros Hf. unfold SUBREDDITS.
  destruct (FLAIR_DICT_cases _ _ Hf) as [[-> _]|[[-> _]|[-> _]]];
    rewrite !elem_of_cons; tauto.
Qed.

(** X7. The flair sets and the r/aiArt table agree: a flair that passes the
    flair test of either script under [FLAIR_DICT[subr]] always has a target
    subreddit, so the lookup in [AIART_MAP] inside the [try] never raises;
    and the target of every collected entry is r/dalle2 or r/midjourney,
    never r/aiArt. *)
Theorem accepted_flairs_have_a_target :
  (∀ subr flair link_flair_text,
     FLAIR_DICT !! subr = Some flair →
     Apache.flair_rejected link_flair_text flair = false
     ∨ Local.flair_rejected link_flair_text flair = false →
     ∃ target_subr,
       resolve_target_subr subr link_flair_text = Ok target_subr
       ∧ (target_subr = DALLE_SUBR ∨ target_subr = MIDJ_SUBR))
  ∧ (∀ w gcs subr stats gcs' img,
       Apache.upload_new_images_to_gcs w gcs subr = Ok (stats, gcs') →
       img ∈ Stats.images stats →
       Image.target_subr img = DALLE_SUBR ∨ Image.target_subr img = MIDJ_SUBR)
  ∧ (∀ w fs subr flair stats fs' img,
       Local.collect_new_images_from_subreddit_local w fs subr flair
       = Ok (stats, fs') →
       subr ∈ SUBREDDITS →
       img ∈ Stats.images stats →
       Image.target_subr img = DALLE_SUBR ∨ Image.target_subr img = MIDJ_SUBR).
Proof.
  split_and!.
  - intros subr flair tag Hf [Hp|Hp].
    + apply (accepted_flair_resolves subr flair tag Hf).
      by apply apache_flair_rejected_local.
    + by apply (accepted_flair_resolves subr flair tag Hf).
  - intros w gcs subr stats gcs' img H Hin.
    destruct (upload_new_images_to_gcs_images _ _ _ _ _ _ H Hin)
      as (s & r & _ & _ & _ & Ht & _).
    apply upload_new_images_to_gcs_ok in H as (flair & Hf & _).
    apply (resolved_target_cases subr _ _ (FLAIR_DICT_SUBREDDITS _ _ Hf) Ht).
  - intros w fs subr flair stats fs' img H Hs Hin.
    destruct (collect_new_images_from_subreddit_local_images
                _ _ _ _ _ _ _ H Hin)
      as (s & r & _ & _ & _ & Ht & _).
    apply (resolved_target_cases subr _ _ Hs Ht).
Qed.

Lemma accepted_flairs_have_a_target_witness :
  ∃ target_subr,
    resolve_target_subr AIART_SUBR (Some "Image - Midjourney :a2:")
    = Ok target_subr
    ∧ (target_subr = DALLE_SUBR ∨ target_subr = MIDJ_SUBR).
Proof.
  apply (proj1 accepted_flairs_have_a_target AIART_SUBR
           {["Image - DALL E 3 :a2:"; "Image - Midjourney :a2:"]}
           (Some "Image - Midjourney :a2:")).
  - unfold FLAIR_DICT.
    rewrite lookup_insert_ne by discriminate.
    rewrite lookup_insert_ne by discriminate.
    by rewrite lookup_insert_eq.
  - right. unfold Local.flair_rejected.
    rewrite bool_decide_eq_true_2; [done|].
    apply elem_of_union_r, elem_of_singleton. reflexivity.
Defined.

(** ** What the metadata update writes *)

Lemma apache_merge_loop_effect w gcs (groups : list (string * list Image.t)) :
  ∃ merged,
    merged `prefix_of` groups.*1
    ∧ Apache.uploads (merge_loop Apache.merge_target w gcs groups).1.1
      = (Apache.uploads gcs ++ map Apache.metadata_blob merged)%list
    ∧ ∀ name, name ∉ map Apache.metadata_blob merged →
        Apache.objects (merge_loop Apache.merge_target w gcs groups).1.1 !! name
        = Apache.objects gcs !! name.
Proof.
  revert gcs. induction groups as [|[t imgs] rest IH]; intros gcs.
  { exists []. simpl. rewrite app_nil_r. split_and!; [apply prefix_nil|done..]. }
  cbn [merge_loop].
  destruct (Apache.merge_target w gcs t imgs) as [gcs1 [r|e]] eqn:E.
  - destruct (IH gcs1) as (merged & Hp & Hu & Ho).
    destruct (merge_loop Apache.merge_target w gcs1 rest) as [[gcs2 log] res].
    simpl in *.
    assert (Apache.uploads gcs1
            = (Apache.uploads gcs ++ [Apache.metadata_blob t])%list
            ∧ ∀ name, name ≠ Apache.metadata_blob t →
                Apache.objects gcs1 !! name = Apache.objects gcs !! name)
      as [Hu1 Ho1].
    { unfold Apache.merge_target, Apache.upload_from_string in E.
      destruct (Apache.objects gcs !! Apache.metadata_blob t) as [blob|];
        simpl in E.
      - destruct (read_csv (Apache.data blob)); simpl in E; [|by inversion E].
        destruct (write_fails w _); inversion E; subst; simpl.
        split; [done|]. intros name Hn. by rewrite lookup_insert_ne.
      - destruct (write_fails w _); inversion E; subst; simpl.
        split; [done|]. intros name Hn. by rewrite lookup_insert_ne. }
    exists (t :: merged). split_and!.
    + by apply prefix_cons.
    + rewrite Hu, Hu1, <- app_assoc. done.
    + intros name Hn. rewrite fmap_cons, not_elem_of_cons in Hn.
      destruct Hn as [Hn1 Hn2]. rewrite Ho by done. by apply Ho1.
  - exists []. simpl. rewrite app_nil_r.
    pose proof (apache_merge_raise w gcs t imgs e) as Hr.
    rewrite E in Hr. simpl in Hr. rewrite Hr by done.
    split_and!; [apply prefix_nil|done..].
Qed.

Lemma local_merge_loop_effect w fs (groups : list (string * list Image.t)) :
  ∃ merged,
    merged `prefix_of` groups.*1
    ∧ Local.writes (merge_loop Local.merge_target w fs groups).1.1
      = (Local.writes fs ++ map Local.metadata_path merged)%list
    ∧ (∀ path, path ∉ map Local.metadata_path merged →
         Local.files (merge_loop Local.merge_target w fs groups).1.1 !! path
         = Local.files fs !! path)
    ∧ Local.dirs (merge_loop Local.merge_target w fs groups).1.1
      = Local.dirs fs.
Proof.
  revert fs. induction groups as [|[t imgs] rest IH]; intros fs.
  { exists []. simpl. rewrite app_nil_r. split_and!; [apply prefix_nil|done..]. }
  cbn [merge_loop].
  destruct (Local.merge_target w fs t imgs) as [fs1 [r|e]] eqn:E.
  - destruct (IH fs1) as (merged & Hp & Hu & Ho & Hd).
    destruct (merge_loop Local.merge_target w fs1 rest) as [[fs2 log] res].
    simpl in *.
    assert (Local.writes fs1
            = (Local.writes fs ++ [Local.metadata_path t])%list
            ∧ (∀ path, path ≠ Local.metadata_path t →
                 Local.files fs1 !! path = Local.files fs !! path)
            ∧ Local.dirs fs1 = Local.dirs fs)
      as (Hu1 & Ho1 & Hd1).
    { unfold Local.merge_target in E.
      destruct (negb _); [by inversion E|].
      destruct (write_fails w _); inversion E; subst; simpl.
      split_and!; [done| |done].
      intros name Hn. by rewrite lookup_insert_ne. }
    exists (t :: merged). split_and!.
    + by apply prefix_cons.
    + rewrite Hu, Hu1, <- app_assoc. done.
    + intros name Hn. rewrite fmap_cons, not_elem_of_cons in Hn.
      destruct Hn as [Hn1 Hn2]. rewrite Ho by done. by apply Ho1.
    + congruence.
  - exists []. simpl. rewrite app_nil_r.
    pose proof (local_merge_raise w fs t imgs e) as Hr.
    rewrite E in Hr. simpl in Hr. rewrite Hr by done.
    split_and!; [apply prefix_nil|done..].
Qed.

Lemma apache_update_effect :
  ∀ w gcs subr new_images,
     ∃ merged,
       merged `prefix_of` (images_by_target new_images).*1
       ∧ NoDup merged
       ∧ Apache.uploads (Apache.update_metadata_csv w gcs subr new_images).1
         = (Apache.uploads gcs ++ map Apache.metadata_blob merged)%list
       ∧ ∀ name, name ∉ map Apache.metadata_blob merged →
           Apache.objects (Apache.update_metadata_csv w gcs subr new_images).1
             !! name
           = Apache.objects gcs !! name.
Proof.
  intros w gcs subr new_images.
  unfold Apache.update_metadata_csv, update_metadata.
  destruct new_images as [|img l].
  { exists []. simpl. rewrite app_nil_r.
    split_and!; [apply prefix_nil|apply NoDup_nil_2|done..]. }
  destruct (apache_merge_loop_effect w gcs (images_by_target (img :: l)))
    as (merged & Hp & Hu & Ho).
  exists merged.
  assert (NoDup merged) as Hnd.
  { destruct Hp as [k Hk].
    pose proof (images_by_target_NoDup (img :: l)) as Hn.
    rewrite Hk in Hn. by apply NoDup_app in Hn as [? _]. }
  destruct (merge_loop Apache.merge_target w gcs _) as [[gcs' log] [[]|e]];
    simpl in *; done.
Qed.

Lemma local_update_effect :
  ∀ w fs subr new_images,
       ∃ merged,
         merged `prefix_of` (images_by_target new_images).*1
         ∧ NoDup merged
         ∧ Local.writes (Local.update_metadata_csv_local w fs subr new_images).1
           = (Local.writes fs ++ map Local.metadata_path merged)%list
         ∧ (∀ path, path ∉ map Local.metadata_path merged →
              Local.files
                (Local.update_metadata_csv_local w fs subr new_images).1
                !! path
              = Local.files fs !! path)
         ∧ Local.dirs (Local.update_metadata_csv_local w fs subr new_images).1
           = Local.dirs fs.
Proof.
  intros w fs subr new_images.
  unfold Local.update_metadata_csv_local, update_metadata.
  destruct new_images as [|img l].
  { exists []. simpl. rewrite app_nil_r.
    split_and!; [apply prefix_nil|apply NoDup_nil_2|done..]. }
  destruct (local_merge_loop_effect w fs (images_by_target (img :: l)))
    as (merged & Hp & Hu & Ho & Hd).
  exists merged.
  assert (NoDup merged) as Hnd.
  { destruct Hp as [k Hk].
    pose proof (images_by_target_NoDup (img :: l)) as Hn.
    rewrite Hk in Hn. by apply NoDup_app in Hn as [? _]. }
  destruct (merge_loop Local.merge_target w fs _) as [[fs' log] [[]|e]];
    simpl in *; done.
Qed.

(** X9. The metadata update writes [metadata.csv] objects only: those of a
    leading stretch of the targets of the new images, in the order in which
    the targets first occur, each once.  Every other object of the bucket, and
    every other file and every directory of the disk, is what it was. *)
Theorem metadata_update_writes_only_metadata :
  (∀ w gcs subr new_images,
     ∃ merged,
       merged `prefix_of` (images_by_target new_images).*1
       ∧ NoDup merged
       ∧ Apache.uploads (Apache.update_metadata_csv w gcs subr new_images).1
         = (Apache.uploads gcs ++ map Apache.metadata_blob merged)%list
       ∧ ∀ name, name ∉ map Apache.metadata_blob merged →
           Apache.objects (Apache.update_metadata_csv w gcs subr new_images).1
             !! name
           = Apache.objects gcs !! name)
  ∧ (∀ w fs subr new_images,
       ∃ merged,
         merged `prefix_of` (images_by_target new_images).*1
         ∧ NoDup merged
         ∧ Local.writes (Local.update_metadata_csv_local w fs subr new_images).1
           = (Local.writes fs ++ map Local.metadata_path merged)%list
         ∧ (∀ path, path ∉ map Local.metadata_path merged →
              Local.files
                (Local.update_metadata_csv_local w fs subr new_images).1
                !! path
              = Local.files fs !! path)
         ∧ Local.dirs (Local.update_metadata_csv_local w fs subr new_images).1
           = Local.dirs fs).
Proof.
  split; [apply apache_update_effect | apply local_update_effect].
Qed.

Lemma filter_target_nil (l : list Image.t) (c : string) :
  (∀ img, img ∈ l → Image.target_subr img ≠ c) →
  filter (λ img, Image.target_subr img = c) l = [].
Proof.
  intros H. induction l as [|img l IH]; [done|].
  rewrite filter_cons_False by (apply H; left).
  apply IH. intros img' Hin. apply H. by right.
Qed.

(** X8. No run of either script writes the [metadata.csv] of r/aiArt: after
    the collection and the metadata update of any subreddit of
    [FLAIR_DICT], that object or file is what it was and was not written, so
    the ids known for r/aiArt at the next run are those known at this run. *)
Theorem aiart_metadata_is_never_written :
  (∀ w gcs subr stats gcs',
     Apache.run_subreddit w gcs subr = Ok (stats, gcs') →
     Apache.metadata_view gcs' AIART_SUBR = Apache.metadata_view gcs AIART_SUBR
     ∧ (Apache.get_gcs_submission_ids gcs' AIART_SUBR).1
       = (Apache.get_gcs_submission_ids gcs AIART_SUBR).1)
  ∧ (∀ w fs subr stats fs',
       Local.run_subreddit w fs subr = Ok (stats, fs') →
       Local.metadata_view fs' AIART_SUBR = Local.metadata_view fs AIART_SUBR).
Proof.
  split.
  - intros w gcs subr stats gcs'. unfold Apache.run_subreddit.
    destruct (Apache.upload_new_images_to_gcs w gcs subr)
      as [[stats1 gcs1]|] eqn:E; [|done].
    cbn [mbind Result_bind]. intros [= <- <-].
    assert (Apache.metadata_view
              (Apache.update_metadata_csv w gcs1 subr (Stats.images stats1)).1
              AIART_SUBR
            = Apache.metadata_view gcs AIART_SUBR) as Hv.
    { destruct (update_metadata_group Apache.merge_target Apache.metadata_view
                  apache_merge_frame apache_merge_raise w gcs1 subr
                  (Stats.images stats1) AIART_SUBR) as [H1 _].
      unfold Apache.update_metadata_csv. rewrite H1.
      - by apply (upload_new_images_to_gcs_metadata_view _ _ _ _ _ _ E).
      - apply filter_target_nil. intros img Hin.
        destruct (upload_new_images_to_gcs_images _ _ _ _ _ _ E Hin)
          as (s & r & _ & _ & _ & Ht & _).
        apply upload_new_images_to_gcs_ok in E as (flair & Hf & _).
        destruct (resolved_target_cases subr _ _
                    (FLAIR_DICT_SUBREDDITS _ _ Hf) Ht) as [-> | ->]; done. }
    split; [done|].
    rewrite !get_gcs_submission_ids_stored_rows.
    by rewrite (apache_stored_rows_view _ _ _ Hv).
  - intros w fs subr stats fs'. unfold Local.run_subreddit.
    destruct (FLAIR_DICT !! subr) as [flair|] eqn:Hf; [|done].
    destruct (Local.collect_new_images_from_subreddit_local w fs subr flair)
      as [[stats1 fs1]|] eqn:E; [|done].
    cbn [mbind Result_bind]. intros [= <- <-].
    destruct (update_metadata_group Local.merge_target Local.metadata_view
                local_merge_frame local_merge_raise w fs1 subr
                (Stats.images stats1) AIART_SUBR) as [H1 _].
    unfold Local.update_metadata_csv_local. rewrite H1.
    + by apply (collect_new_images_from_subreddit_local_metadata_view
                  _ _ _ _ _ _ _ E).
    + apply filter_target_nil. intros img Hin.
      destruct (collect_new_images_from_subreddit_local_images
                  _ _ _ _ _ _ _ E Hin)
        as (s & r & _ & _ & _ & Ht & _).
      destruct (resolved_target_cases subr _ _
                  (FLAIR_DICT_SUBREDDITS _ _ Hf) Ht) as [-> | ->]; done.
Qed.

Lemma aiart_metadata_is_never_written_witness :
  match Apache.run_subreddit Sample.world_aiart Sample.empty_gcs "aiArt" with
  | Ok (stats, gcs') =>
      Stats.new_images stats = 2
      ∧ Apache.metadata_view gcs' AIART_SUBR = (None, 0%nat)
  | Raise _ => False
  end
  ∧ match Local.run_subreddit Sample.world_aiart Sample.empty_fs "aiArt" with
    | Ok (stats, fs') =>
        Stats.new_images stats = 2
        ∧ Local.metadata_view fs' AIART_SUBR = (None, 0%nat)
    | Raise _ => False
    end.
Proof.
  split.
  - generalize SampleRuns.run_aiart.
    destruct (Apache.run_subreddit _ _ _) as [[stats gcs']|] eqn:E; [|done].
    intros Hn. split; [exact Hn|].
    rewrite (proj1 (proj1 aiart_metadata_is_never_written _ _ _ _ _ E)).
    vm_compute. reflexivity.
  - generalize SampleRuns.run_aiart_local.
    destruct (Local.run_subreddit _ _ _) as [[stats fs']|] eqn:E; [|done].
    intros Hn. split; [exact Hn|].
    rewrite (proj2 aiart_metadata_is_never_written _ _ _ _ _ E).
    vm_compute. reflexivity.
Defined.

(** ** When the metadata update goes through *)

Lemma filter_eq_snoc_eq (l : list string) (name : string) :
  length (filter (λ x, x = name) (l ++ [name])%list)
  = S (length (filter (λ x, x = name) l)).
Proof.
  rewrite filter_app, (filter_cons_True _ name []) by done.
  rewrite filter_nil, length_app. simpl. lia.
Qed.

(** [Apache.merge_target] is the loop body for a pandas that reads every
    column as text. *)
Lemma frames_merge_target_keeps_text w gcs t imgs :
  ApacheFrames.merge_target ApacheFrames.keeps_text w gcs t imgs
  = Apache.merge_target w gcs t imgs.
Proof.
  unfold ApacheFrames.merge_target, ApacheFrames.csv_string,
    Apache.merge_target.
  destruct (Apache.objects gcs !! Apache.metadata_blob t) as [blob|];
    [|done].
  simpl. by destruct (read_csv (Apache.data blob)).
Qed.

(** The text to upload depends on the bucket through the stored
    [metadata.csv] of the target only. *)
Lemma frames_csv_string_view pd gcs gcs' c imgs :
  Apache.metadata_view gcs' c = Apache.metadata_view gcs c →
  ApacheFrames.csv_string pd gcs' c imgs = ApacheFrames.csv_string pd gcs c imgs.
Proof.
  unfold Apache.metadata_view, ApacheFrames.csv_string. by intros [= -> _].
Qed.

Lemma frames_merge_frame pd w gcs t imgs c :
  c ≠ t →
  Apache.metadata_view (ApacheFrames.merge_target pd w gcs t imgs).1 c
  = Apache.metadata_view gcs c.
Proof.
  intros Hne. assert (Apache.metadata_blob t ≠ Apache.metadata_blob c) as Hk.
  { intros H. by apply metadata_blob_inj in H. }
  unfold ApacheFrames.merge_target, Apache.upload_from_string.
  destruct (ApacheFrames.csv_string pd gcs t imgs); simpl; [|done].
  destruct (write_fails w _); simpl; [done|].
  unfold Apache.metadata_view, Apache.upload_count. simpl.
  by rewrite lookup_insert_ne, filter_eq_snoc_ne.
Qed.

Lemma frames_merge_raise pd w gcs t imgs e :
  (ApacheFrames.merge_target pd w gcs t imgs).2 = Raise e →
  (ApacheFrames.merge_target pd w gcs t imgs).1 = gcs.
Proof.
  unfold ApacheFrames.merge_target, Apache.upload_from_string.
  destruct (ApacheFrames.csv_string pd gcs t imgs); simpl; [|done].
  by destruct (write_fails w _).
Qed.

(** A merge that goes through has uploaded, once, the text that pandas made
    of the stored text and the new rows. *)
Lemma frames_merge_ok pd w gcs c imgs :
  is_ok (ApacheFrames.merge_target pd w gcs c imgs).2 = true →
  ∃ text,
    ApacheFrames.csv_string pd gcs c imgs = Ok text
    ∧ Apache.metadata_view (ApacheFrames.merge_target pd w gcs c imgs).1 c
      = (Some {| Apache.data := text; Apache.content_type := "text/csv" |},
         S (Apache.upload_count gcs (Apache.metadata_blob c))).
Proof.
  unfold ApacheFrames.merge_target, Apache.upload_from_string.
  destruct (ApacheFrames.csv_string pd gcs c imgs) as [text|]; simpl; [|done].
  destruct (write_fails w _); simpl; [done|]. intros _.
  exists text. split; [done|].
  unfold Apache.metadata_view, Apache.upload_count. simpl.
  by rewrite lookup_insert_eq, filter_eq_snoc_eq.
Qed.

Lemma frames_merge_succeeds pd w gcs c imgs :
  write_fails w (Apache.metadata_blob c) = false →
  is_ok (ApacheFrames.csv_string pd gcs c imgs) = true →
  (ApacheFrames.merge_target pd w gcs c imgs).2
  = Ok {| levelname := INFO; about := c |}.
Proof.
  intros Hw Hc. unfold ApacheFrames.merge_target, Apache.upload_from_string.
  destruct (ApacheFrames.csv_string pd gcs c imgs); [|done].
  by rewrite Hw.
Qed.

Lemma frames_merge_loop_succeeds pd w gcs
    (groups : list (string * list Image.t)) :
  NoDup groups.*1 →
  (∀ t imgs, (t, imgs) ∈ groups →
     write_fails w (Apache.metadata_blob t) = false
     ∧ is_ok (ApacheFrames.csv_string pd gcs t imgs) = true) →
  ∃ gcs',
    merge_loop (ApacheFrames.merge_target pd) w gcs groups
    = (gcs', map (λ t, {| levelname := INFO; about := t |}) groups.*1, Ok ()).
Proof.
  revert gcs. induction groups as [|[t imgs] rest IH]; intros gcs Hnd Hok.
  { by exists gcs. }
  rewrite fmap_cons in Hnd. apply NoDup_cons in Hnd as [Ht Hnd].
  destruct (Hok t imgs) as [Hw Hc]; [left|].
  cbn [merge_loop].
  pose proof (frames_merge_succeeds pd w gcs t imgs Hw Hc) as Hm.
  pose proof (λ c, frames_merge_frame pd w gcs t imgs c) as Hf.
  destruct (ApacheFrames.merge_target pd w gcs t imgs) as [gcs1 r].
  simpl in Hm, Hf. subst r.
  destruct (IH gcs1 Hnd) as (gcs' & ->).
  - intros t' imgs' Hin. destruct (Hok t' imgs') as [Hw' Hc']; [by right|].
    split; [done|]. rewrite (frames_csv_string_view pd gcs gcs1); [done|].
    apply Hf. intros ->. apply Ht. apply list_elem_of_fmap.
    by exists (t, imgs').
  - by exists gcs'.
Qed.

(** The bucket version. *)
Lemma frames_update_goes_through pd w gcs subr new_images :
  new_images ≠ [] →
  (∀ img, img ∈ new_images →
     write_fails w (Apache.metadata_blob (Image.target_subr img)) = false
     ∧ is_ok (ApacheFrames.csv_string pd gcs (Image.target_subr img)
                (filter (λ i, Image.target_subr i = Image.target_subr img)
                   new_images)) = true) →
  (ApacheFrames.update_metadata_csv pd w gcs subr new_images).2
  = map (λ t, {| levelname := INFO; about := t |})
      (images_by_target new_images).*1
  ∧ ∀ c,
      let images := filter (λ img, Image.target_subr img = c) new_images in
      images ≠ [] →
      ∃ text,
        ApacheFrames.csv_string pd gcs c images = Ok text
        ∧ Apache.metadata_view
            (ApacheFrames.update_metadata_csv pd w gcs subr new_images).1 c
          = (Some {| Apache.data := text; Apache.content_type := "text/csv" |},
             S (Apache.upload_count gcs (Apache.metadata_blob c))).
Proof.
  intros Hne Hok.
  assert (∀ t imgs, (t, imgs) ∈ images_by_target new_images →
            write_fails w (Apache.metadata_blob t) = false
            ∧ is_ok (ApacheFrames.csv_string pd gcs t imgs) = true) as Hok'.
  { intros t imgs Hin. apply images_by_target_elem in Hin as [-> Hn].
    destruct (filter _ new_images) as [|img l] eqn:E; [done|].
    assert (img ∈ filter (λ img, Image.target_subr img = t) new_images)
      as Hin by (rewrite E; left).
    apply list_elem_of_filter in Hin as [<- Hin]. rewrite <- E.
    by apply Hok. }
  destruct (frames_merge_loop_succeeds pd w gcs (images_by_target new_images)
              (images_by_target_NoDup _) Hok') as (gcs' & Hl).
  unfold ApacheFrames.update_metadata_csv, update_metadata.
  destruct new_images as [|img0 l0]; [done|].
  rewrite Hl. simpl. split; [done|]. intros c Himgs.
  assert ((c, filter (λ img, Image.target_subr img = c) (img0 :: l0))
          ∈ images_by_target (img0 :: l0)) as Hin.
  { by apply images_by_target_elem. }
  destruct (merge_loop_ok_group (ApacheFrames.merge_target pd)
              Apache.metadata_view (frames_merge_frame pd) w gcs _ _ _ c _ Hl
              (images_by_target_NoDup _) Hin)
    as (st_c & Hv & Hokc & Hfin).
  destruct (frames_merge_ok pd w st_c c _ Hokc) as (text & Ht & Hview).
  exists text. rewrite <- (frames_csv_string_view pd gcs st_c c _ Hv).
  split; [done|]. rewrite Hfin, Hview.
  by injection Hv as _ ->.
Qed.

Lemma local_merge_loop_succeeds w fs (groups : list (string * list Image.t)) :
  (∀ t, t ∈ groups.*1 →
        write_fails w (Local.metadata_path t) = false
        ∧ Local.subr_dir t ∈ Local.dirs fs) →
  ∃ fs',
    merge_loop Local.merge_target w fs groups
    = (fs', map (λ t, {| levelname := INFO; about := t |}) groups.*1, Ok ()).
Proof.
  revert fs. induction groups as [|[t imgs] rest IH]; intros fs Hok.
  { by exists fs. }
  destruct (Hok t) as [Hw Hd]; [left|].
  cbn [merge_loop].
  assert (∃ fs1,
            Local.merge_target w fs t imgs
            = (fs1, Ok {| levelname := INFO; about := t |})
            ∧ Local.dirs fs1 = Local.dirs fs)
    as (fs1 & -> & Hf).
  { unfold Local.merge_target. rewrite Hw.
    rewrite bool_decide_eq_true_2 by done. simpl. by eexists. }
  destruct (IH fs1) as (fs' & ->).
  - intros t' Ht'. destruct (Hok t') as [Hw' Hr']; [by right|].
    by rewrite Hf.
  - by exists fs'.
Qed.

(** A merge on disk that goes through has written the file once: what it
    held is still there, followed by the header if the file is new and by
    one line per image. *)
Lemma local_merge_ok_view w fs c imgs :
  is_ok (Local.merge_target w fs c imgs).2 = true →
  Local.metadata_view (Local.merge_target w fs c imgs).1 c
  = (Some (match Local.files fs !! Local.metadata_path c with
           | Some old => old ++ map Line (map Row.of_image imgs)
           | None => to_csv (map Row.of_image imgs)
           end)%list,
     S (Local.write_count fs (Local.metadata_path c))).
Proof.
  intros Hok. unfold Local.metadata_view.
  rewrite (local_merge_ok _ _ _ _ Hok). f_equal.
  unfold Local.merge_target in *.
  destruct (negb _); simpl in *; [done|].
  destruct (write_fails w _); simpl in *; [done|].
  unfold Local.write_count. simpl. apply filter_eq_snoc_eq.
Qed.

(** The disk version. *)
Lemma local_update_goes_through w fs subr new_images :
  new_images ≠ [] →
  (∀ img, img ∈ new_images →
     write_fails w (Local.metadata_path (Image.target_subr img)) = false
     ∧ Local.subr_dir (Image.target_subr img) ∈ Local.dirs fs) →
  (Local.update_metadata_csv_local w fs subr new_images).2
  = map (λ t, {| levelname := INFO; about := t |})
      (images_by_target new_images).*1
  ∧ ∀ c,
      let added :=
        map Row.of_image
          (filter (λ img, Image.target_subr img = c) new_images) in
      added ≠ [] →
      Local.metadata_view
        (Local.update_metadata_csv_local w fs subr new_images).1 c
      = (Some (match Local.files fs !! Local.metadata_path c with
               | Some old => old ++ map Line added
               | None => to_csv added
               end)%list,
         S (Local.write_count fs (Local.metadata_path c))).
Proof.
  intros Hne Hok.
  assert (∀ t, t ∈ (images_by_target new_images).*1 →
            write_fails w (Local.metadata_path t) = false
            ∧ Local.subr_dir t ∈ Local.dirs fs) as Hok'.
  { intros t Ht. apply images_by_target_key in Ht.
    destruct (filter _ new_images) as [|img l] eqn:E; [done|].
    assert (img ∈ filter (λ img, Image.target_subr img = t) new_images)
      as Hin by (rewrite E; left).
    apply list_elem_of_filter in Hin as [<- Hin]. by apply Hok. }
  destruct (local_merge_loop_succeeds w fs (images_by_target new_images)
              Hok') as (fs' & Hl).
  unfold Local.update_metadata_csv_local, update_metadata.
  destruct new_images as [|img0 l0]; [done|].
  rewrite Hl. simpl. split; [done|]. intros c Hadd.
  destruct (filter (λ img, Image.target_subr img = c) (img0 :: l0))
    as [|img l] eqn:E; [done|].
  assert ((c, img :: l) ∈ images_by_target (img0 :: l0)) as Hin.
  { apply images_by_target_elem. by rewrite E. }
  destruct (merge_loop_ok_group Local.merge_target Local.metadata_view
              local_merge_frame w fs _ _ _ c _ Hl
              (images_by_target_NoDup _) Hin)
    as (st_c & Hv & Hokc & Hfin).
  rewrite Hfin, (local_merge_ok_view _ _ _ _ Hokc).
  by injection Hv as -> ->.
Qed.

(** X13. The metadata update, target by target.  In the bucket, for any
    behaviour of pandas: the [metadata.csv] of a subreddit that no new image
    goes to is left as it is and is not uploaded; that of any subreddit is
    either left as it is or is, uploaded once, the text that pandas made of
    the stored text and the new rows of that target (the table of the new
    rows, if there was none); and when no write of a [metadata.csv] is
    refused and pandas raises on none of the stored texts, the update goes
    through: one info line per target in the order the targets first occur,
    no error, and every target's [metadata.csv] is that text.  On disk the
    same holds with the file grown in place: what it held, then the header if
    it is new, then one line per new row; there the update goes through when
    no write is refused and the directory of every target exists. *)
Theorem metadata_update_target_by_target :
  (∀ pd w gcs subr new_images c,
     let gcs' := (ApacheFrames.update_metadata_csv pd w gcs subr new_images).1 in
     let images := filter (λ img, Image.target_subr img = c) new_images in
     (images = [] → Apache.metadata_view gcs' c = Apache.metadata_view gcs c)
     ∧ (Apache.metadata_view gcs' c = Apache.metadata_view gcs c
        ∨ ∃ text,
            ApacheFrames.csv_string pd gcs c images = Ok text
            ∧ Apache.metadata_view gcs' c
              = (Some {| Apache.data := text;
                         Apache.content_type := "text/csv" |},
                 S (Apache.upload_count gcs (Apache.metadata_blob c)))))
  ∧ (∀ pd w gcs subr new_images,
       new_images ≠ [] →
       (∀ img, img ∈ new_images →
          write_fails w (Apache.metadata_blob (Image.target_subr img)) = false
          ∧ is_ok (ApacheFrames.csv_string pd gcs (Image.target_subr img)
                     (filter
                        (λ i, Image.target_subr i = Image.target_subr img)
                        new_images)) = true) →
       (ApacheFrames.update_metadata_csv pd w gcs subr new_images).2
       = map (λ t, {| levelname := INFO; about := t |})
           (images_by_target new_images).*1
       ∧ ∀ c,
           let images :=
             filter (λ img, Image.target_subr img = c) new_images in
           images ≠ [] →
           ∃ text,
             ApacheFrames.csv_string pd gcs c images = Ok text
             ∧ Apache.metadata_view
                 (ApacheFrames.update_metadata_csv pd w gcs subr new_images).1
                 c
               = (Some {| Apache.data := text;
                          Apache.content_type := "text/csv" |},
                  S (Apache.upload_count gcs (Apache.metadata_blob c))))
  ∧ (∀ w fs subr new_images c,
       let fs' := (Local.update_metadata_csv_local w fs subr new_images).1 in
       let added :=
         map Row.of_image
           (filter (λ img, Image.target_subr img = c) new_images) in
       (added = [] → Local.metadata_view fs' c = Local.metadata_view fs c)
       ∧ (Local.metadata_view fs' c = Local.metadata_view fs c
          ∨ Local.metadata_view fs' c
            = (Some (match Local.files fs !! Local.metadata_path c with
                     | Some old => old ++ map Line added
                     | None => to_csv added
                     end)%list,
               S (Local.write_count fs (Local.metadata_path c)))))
  ∧ (∀ w fs subr new_images,
       new_images ≠ [] →
       (∀ img, img ∈ new_images →
          write_fails w (Local.metadata_path (Image.target_subr img)) = false
          ∧ Local.subr_dir (Image.target_subr img) ∈ Local.dirs fs) →
       (Local.update_metadata_csv_local w fs subr new_images).2
       = map (λ t, {| levelname := INFO; about := t |})
           (images_by_target new_images).*1
       ∧ ∀ c,
           let added :=
             map Row.of_image
               (filter (λ img, Image.target_subr img = c) new_images) in
           added ≠ [] →
           Local.metadata_view
             (Local.update_metadata_csv_local w fs subr new_images).1 c
           = (Some (match Local.files fs !! Local.metadata_path c with
                    | Some old => old ++ map Line added
                    | None => to_csv added
                    end)%list,
              S (Local.write_count fs (Local.metadata_path c)))).
Proof.
  split_and!.
  - intros pd w gcs subr new_images c. cbv zeta.
    unfold ApacheFrames.update_metadata_csv.
    destruct (update_metadata_group (ApacheFrames.merge_target pd)
                Apache.metadata_view (frames_merge_frame pd)
                (frames_merge_raise pd) w gcs subr new_images c) as [H1 H2].
    split; [exact H1|].
    destruct H2 as [H2|(_ & st_c & Hv & Hok & Hfin)]; [by left|right].
    destruct (frames_merge_ok pd w st_c c _ Hok) as (text & Ht & Hview).
    exists text. rewrite <- (frames_csv_string_view pd gcs st_c c _ Hv).
    split; [done|]. rewrite Hfin, Hview. by injection Hv as _ ->.
  - apply frames_update_goes_through.
  - intros w fs subr new_images c. cbv zeta.
    unfold Local.update_metadata_csv_local.
    destruct (update_metadata_group Local.merge_target Local.metadata_view
                local_merge_frame local_merge_raise w fs subr new_images c)
      as [H1 H2].
    split.
    + intros Hnil. apply H1. by apply map_eq_nil in Hnil.
    + destruct H2 as [H2|(_ & st_c & Hv & Hok & Hfin)]; [by left|right].
      rewrite Hfin, (local_merge_ok_view _ _ _ _ Hok).
      by injection Hv as -> ->.
  - apply local_update_goes_through.
Qed.

Lemma metadata_update_target_by_target_witness :
  Apache.metadata_view
    (ApacheFrames.update_metadata_csv SampleFrames.pandas Sample.world_aiart
       SampleFrames.gcs_with_old "aiArt" [Sample.img_midj]).1 "dalle2"
  = Apache.metadata_view SampleFrames.gcs_with_old "dalle2"
  ∧ (∃ text,
       ApacheFrames.csv_string SampleFrames.pandas SampleFrames.gcs_with_old
         "dalle2" [Sample.img_dalle] = Ok text
       ∧ Apache.metadata_view
           (ApacheFrames.update_metadata_csv SampleFrames.pandas
              Sample.world_aiart SampleFrames.gcs_with_old "aiArt"
              [Sample.img_dalle; Sample.img_midj]).1 "dalle2"
         = (Some {| Apache.data := text; Apache.content_type := "text/csv" |},
            1%nat))
  ∧ Local.metadata_view
      (Local.update_metadata_csv_local Sample.world_aiart
         SampleFrames.fs_with_old "aiArt" [Sample.img_midj]).1 "dalle2"
    = Local.metadata_view SampleFrames.fs_with_old "dalle2"
  ∧ Local.metadata_view
      (Local.update_metadata_csv_local Sample.world_aiart
         {| Local.dirs := {[ Local.subr_dir "dalle2"; Local.subr_dir "midjourney" ]};
            Local.files := Local.files SampleFrames.fs_with_old;
            Local.writes := [] |} "aiArt"
         [Sample.img_dalle; Sample.img_midj]).1 "dalle2"
    = (Some [Header; Line SampleFrames.old_row; Line (Row.of_image Sample.img_dalle)],
       1%nat).
Proof.
  split_and!.
  - apply (proj1 metadata_update_target_by_target SampleFrames.pandas
             Sample.world_aiart SampleFrames.gcs_with_old "aiArt"
             [Sample.img_midj] "dalle2").
    vm_compute. reflexivity.
  - assert (∀ img, img ∈ [Sample.img_dalle; Sample.img_midj] →
        write_fails Sample.world_aiart
          (Apache.metadata_blob (Image.target_subr img)) = false
        ∧ is_ok (ApacheFrames.csv_string SampleFrames.pandas
                   SampleFrames.gcs_with_old (Image.target_subr img)
                   (filter (λ i, Image.target_subr i = Image.target_subr img)
                      [Sample.img_dalle; Sample.img_midj])) = true) as H.
    { intros img Hin. split; [reflexivity|].
      apply elem_of_cons in Hin as [->|Hin].
      - vm_compute. reflexivity.
      - apply list_elem_of_singleton in Hin as ->. vm_compute. reflexivity. }
    destruct (proj2 (proj1 (proj2 metadata_update_target_by_target)
                       SampleFrames.pandas Sample.world_aiart
                       SampleFrames.gcs_with_old "aiArt"
                       [Sample.img_dalle; Sample.img_midj] ltac:(done) H)
                "dalle2" ltac:(done)) as (text & Ht & Hv).
    exists text. split; [exact Ht | exact Hv].
  - apply (proj1 (proj2 (proj2 metadata_update_target_by_target))
             Sample.world_aiart SampleFrames.fs_with_old "aiArt"
             [Sample.img_midj] "dalle2").
    vm_compute. reflexivity.
  - assert (∀ img, img ∈ [Sample.img_dalle; Sample.img_midj] →
        write_fails Sample.world_aiart
          (Local.metadata_path (Image.target_subr img)) = false
        ∧ Local.subr_dir (Image.target_subr img)
          ∈ ({[ Local.subr_dir "dalle2"; Local.subr_dir "midjourney" ]}
             : gset string)) as H.
    { intros img Hin. split; [reflexivity|].
      apply elem_of_cons in Hin as [->|Hin].
      - refine (bool_decide_unpack _ _). vm_compute. exact I.
      - apply list_elem_of_singleton in Hin as ->.
        refine (bool_decide_unpack _ _). vm_compute. exact I. }
    rewrite (proj2 (proj2 (proj2 (proj2 metadata_update_target_by_target))
                      Sample.world_aiart
                      {| Local.dirs :=
                           {[ Local.subr_dir "dalle2";
                              Local.subr_dir "midjourney" ]};
                         Local.files := Local.files SampleFrames.fs_with_old;
                         Local.writes := [] |}
                      "aiArt" [Sample.img_dalle; Sample.img_midj]
                      ltac:(done) H) "dalle2" ltac:(done)).
    vm_compute. reflexivity.
Defined.

(** ** A second pass over the same listing *)

Lemma collect_nothing_images {Store : Type}
    (flair_rejected : option string → gset string → bool)
    (save_image :
       World → Store → string → string → string → string → Store * Result unit)
    (flair_key : option string → option string)
    (w : World) (subr : string) (flair ids : gset string) (st : Store) :
  Stats.new_images
    (collect flair_rejected save_image flair_key w subr flair ids st).1 = 0 →
  Stats.images
    (collect flair_rejected save_image flair_key w subr flair ids st).1 = [].
Proof.
  intros H0.
  destruct (collect_counts flair_rejected save_image flair_key w subr flair
              ids st) as (_ & _ & Hn).
  rewrite H0 in Hn. destruct (Stats.images _); [done|]. simpl in Hn. lia.
Qed.

(** X11. The collection loop of either script, run a second time over the
    same listing with known ids that include the ids known to the first pass
    and the ids of what the first pass collected, collects nothing:
    [new_images] is 0, [stats['images']] is empty, the bucket is what it was,
    and on disk no file is changed or written.  (Whether the known ids of a
    second run do include them is up to what was recorded and how it is read
    back.) *)
Theorem second_pass_collects_nothing :
  (∀ w subr flair ids1 ids2 gcs1 gcs2,
     ids1 ⊆ ids2 →
     (∀ img,
        img ∈ Stats.images
                (collect Apache.flair_rejected Apache.save_image (λ _, None)
                   w subr flair ids1 gcs1).1 →
        Image.submission_id img ∈ ids2) →
     let r := collect Apache.flair_rejected Apache.save_image (λ _, None)
                w subr flair ids2 gcs2 in
     Stats.new_images r.1 = 0 ∧ Stats.images r.1 = [] ∧ r.2 = gcs2)
  ∧ (∀ w subr flair ids1 ids2 fs1 fs2,
       ids1 ⊆ ids2 →
       (∀ img,
          img ∈ Stats.images
                  (collect Local.flair_rejected Local.save_image (λ t, t)
                     w subr flair ids1 fs1).1 →
          Image.submission_id img ∈ ids2) →
       let r := collect Local.flair_rejected Local.save_image (λ t, t)
                  w subr flair ids2 fs2 in
       Stats.new_images r.1 = 0 ∧ Stats.images r.1 = []
       ∧ Local.files r.2 = Local.files fs2
       ∧ Local.writes r.2 = Local.writes fs2).
Proof.
  split.
  - intros w subr flair ids1 ids2 gcs1 gcs2 Hsub Himgs. cbv zeta.
    pose proof (collect_again Apache.flair_rejected Apache.save_image
                  (λ _, None) w subr flair (apache_download_outcome w subr)
                  ids1 ids2 gcs1 gcs2 Hsub Himgs) as H0.
    pose proof (collect_nothing_images _ _ _ _ _ _ _ _ H0) as Hi.
    split_and!; [done..|].
    pose proof (apache_collect_effect w subr flair ids2 gcs2) as G.
    cbv zeta in G. rewrite Hi in G.
    set (r := collect _ _ _ w subr flair ids2 gcs2) in *.
    cbn [map] in G. rewrite app_nil_r in G.
    destruct G as (Hu & Ho & _).
    destruct (r.2) as [o u], gcs2 as [o2 u2]. simpl in *. f_equal; [|done].
    apply map_eq. intros name. apply Ho. apply not_elem_of_nil.
  - intros w subr flair ids1 ids2 fs1 fs2 Hsub Himgs. cbv zeta.
    pose proof (collect_again Local.flair_rejected Local.save_image
                  (λ t, t) w subr flair (local_download_outcome w subr)
                  ids1 ids2 fs1 fs2 Hsub Himgs) as H0.
    pose proof (collect_nothing_images _ _ _ _ _ _ _ _ H0) as Hi.
    split_and!; [done..| |].
    + pose proof (local_collect_effect w subr flair ids2 fs2) as G.
      cbv zeta in G. rewrite Hi in G. cbn [map] in G.
      destruct G as (_ & Ho & _).
      apply map_eq. intros path. apply Ho. apply not_elem_of_nil.
    + pose proof (local_collect_effect w subr flair ids2 fs2) as G.
      cbv zeta in G. rewrite Hi in G. cbn [map] in G.
      rewrite app_nil_r in G. by destruct G as (Hu & _).
Qed.

Lemma second_pass_collects_nothing_witness :
  map Image.submission_id
    (Stats.images
       (collect Apache.flair_rejected Apache.save_image (λ _, None)
          Sample.world_five "dalle2" Sample.dalle_flair {[ "d4" ]}
          Sample.gcs_with_seen).1) = ["e5"]
  ∧ Stats.images
      (collect Apache.flair_rejected Apache.save_image (λ _, None)
         Sample.world_five "dalle2" Sample.dalle_flair {[ "d4"; "e5" ]}
         Sample.gcs_with_seen).1 = []
  ∧ Local.writes
      (collect Local.flair_rejected Local.save_image (λ t, t)
         Sample.world_five "dalle2" Sample.dalle_flair {[ "d4"; "e5" ]}
         Sample.fs_with_seen).2 = [].
Proof.
  assert (Hsub : ({[ "d4" ]} : gset string) ⊆ {[ "d4"; "e5" ]}).
  { apply union_subseteq_l. }
  split_and!.
  - vm_compute. reflexivity.
  - refine (proj1 (proj2 (proj1 second_pass_collects_nothing
                            Sample.world_five "dalle2" Sample.dalle_flair
                            {[ "d4" ]} {[ "d4"; "e5" ]} Sample.gcs_with_seen
                            Sample.gcs_with_seen Hsub _))).
    intros img Hin. vm_compute in Hin.
    apply list_elem_of_singleton in Hin as ->.
    apply elem_of_union_r, elem_of_singleton. reflexivity.
  - refine (proj2 (proj2 (proj2 (proj2 second_pass_collects_nothing
                                   Sample.world_five "dalle2"
                                   Sample.dalle_flair
                                   {[ "d4" ]} {[ "d4"; "e5" ]}
                                   Sample.fs_with_seen Sample.fs_with_seen
                                   Hsub _)))).
    intros img Hin. vm_compute in Hin.
    apply list_elem_of_singleton in Hin as ->.
    apply elem_of_union_r, elem_of_singleton. reflexivity.
Defined.

(** ** No id twice *)

Lemma NoDup_map_filter {A B} (f : A → B) (P : A → Prop)
    `{∀ x, Decision (P x)} (l : list A) :
  NoDup (map f l) → NoDup (map f (filter P l)).
Proof.
  induction l as [|x l IH]; [done|]. simpl.
  intros [Hx Hl]%NoDup_cons. rewrite filter_cons.
  destruct (decide (P x)); [|by apply IH]. simpl.
  apply NoDup_cons. split; [|by apply IH].
  intros (y & Hy & Hin)%list_elem_of_fmap.
  apply list_elem_of_filter in Hin as [_ Hin].
  apply Hx, list_elem_of_fmap. by exists y.
Qed.

Lemma collect_entries_distinct {Store : Type}
    (flair_rejected : option string → gset string → bool)
    (save_image :
       World → Store → string → string → string → string → Store * Result unit)
    (flair_key : option string → option string)
    (w : World) (subr : string) (flair ids : gset string) (st : Store) :
  (∀ st st' s,
     is_ok (download save_image flair_key w subr st s).2
     = is_ok (download save_image flair_key w subr st' s).2) →
  NoDup (map Submission.id (take 1000 (subreddit_new w subr))) →
  NoDup (map Image.submission_id
           (Stats.images
              (collect flair_rejected save_image flair_key w subr flair ids
                 st).1)).
Proof.
  intros Hout Hnd.
  destruct (collect_ids flair_rejected save_image flair_key w subr flair ids
              st st Hout) as [-> _].
  by apply NoDup_map_filter.
Qed.

Lemma collect_entries_unknown {Store : Type}
    (flair_rejected : option string → gset string → bool)
    (save_image :
       World → Store → string → string → string → string → Store * Result unit)
    (flair_key : option string → option string)
    (w : World) (subr : string) (flair ids : gset string) (st : Store)
    (img : Image.t) :
  img ∈ Stats.images
          (collect flair_rejected save_image flair_key w subr flair ids st).1 →
  Image.submission_id img ∉ ids.
Proof.
  intros Hin.
  apply collect_images in Hin as (s & r & _ & Hn & _ & _ & -> & _).
  unfold is_new in Hn. apply andb_true_iff in Hn as [_ Hb].
  by apply negb_true_iff, bool_decide_eq_false in Hb.
Qed.

(** X12. In either script no entry of [stats['images']] has an id that is
    among the known ids the loop was started with, and over a listing whose
    first 1000 submissions have pairwise different ids no two entries have
    the same id. *)
Theorem collected_ids_are_new_and_distinct :
  (∀ w subr flair ids gcs img,
     img ∈ Stats.images
             (collect Apache.flair_rejected Apache.save_image (λ _, None)
                w subr flair ids gcs).1 →
     Image.submission_id img ∉ ids)
  ∧ (∀ w subr flair ids gcs,
       NoDup (map Submission.id (take 1000 (subreddit_new w subr))) →
       NoDup (map Image.submission_id
                (Stats.images
                   (collect Apache.flair_rejected Apache.save_image
                      (λ _, None) w subr flair ids gcs).1)))
  ∧ (∀ w subr flair ids fs img,
       img ∈ Stats.images
               (collect Local.flair_rejected Local.save_image (λ t, t)
                  w subr flair ids fs).1 →
       Image.submission_id img ∉ ids)
  ∧ (∀ w subr flair ids fs,
       NoDup (map Submission.id (take 1000 (subreddit_new w subr))) →
       NoDup (map Image.submission_id
                (Stats.images
                   (collect Local.flair_rejected Local.save_image
                      (λ t, t) w subr flair ids fs).1))).
Proof.
  split_and!.
  - intros w subr flair ids gcs img. apply collect_entries_unknown.
  - intros w subr flair ids gcs.
    apply collect_entries_distinct, apache_download_outcome.
  - intros w subr flair ids fs img. apply collect_entries_unknown.
  - intros w subr flair ids fs.
    apply collect_entries_distinct, local_download_outcome.
Qed.

Lemma collected_ids_are_new_and_distinct_witness :
  NoDup (map Image.submission_id
           (Stats.images
              (collect Apache.flair_rejected Apache.save_image (λ _, None)
                 Sample.world_five "dalle2" Sample.dalle_flair ∅
                 Sample.empty_gcs).1))
  ∧ length (Stats.images
              (collect Apache.flair_rejected Apache.save_image (λ _, None)
                 Sample.world_five "dalle2" Sample.dalle_flair ∅
                 Sample.empty_gcs).1) = 2%nat
  ∧ NoDup (map Image.submission_id
             (Stats.images
                (collect Local.flair_rejected Local.save_image (λ t, t)
                   Sample.world_five "dalle2" Sample.dalle_flair ∅
                   Sample.empty_fs).1)).
Proof.
  assert (Hnd : NoDup (map Submission.id
                         (take 1000 (subreddit_new Sample.world_five "dalle2")))).
  { change (NoDup ["a1"; "b2"; "c3"; "d4"; "e5"]).
    apply (bool_decide_unpack _). vm_compute. exact I. }
  split_and!.
  - exact (proj1 (proj2 collected_ids_are_new_and_distinct)
             Sample.world_five "dalle2" Sample.dalle_flair ∅ Sample.empty_gcs
             Hnd).
  - vm_compute. reflexivity.
  - exact (proj2 (proj2 (proj2 collected_ids_are_new_and_distinct))
             Sample.world_five "dalle2" Sample.dalle_flair ∅ Sample.empty_fs
             Hnd).
Defined.

(** ** Grouping keeps every image *)

Lemma group_append_concat (t : string) (img : Image.t)
    (d : list (string * list Image.t)) :
  concat (group_append t img d).*2 ≡ₚ (concat d.*2 ++ [img])%list.
Proof.
  induction d as [|[k imgs] d IH]; [done|]. cbn [group_append].
  destruct (decide (k = t)) as [->|E].
  - rewrite (bool_decide_eq_true_2 (t = t)) by done.
    rewrite !fmap_cons. cbn [snd concat].
    rewrite <- !app_assoc. apply Permutation_app_head, Permutation_app_comm.
  - rewrite (bool_decide_eq_false_2 (k = t)) by done.
    rewrite !fmap_cons. cbn [snd concat]. rewrite IH. by rewrite app_assoc.
Qed.

Lemma images_by_target_concat (l : list Image.t) :
  concat (images_by_target l).*2 ≡ₚ l.
Proof.
  unfold images_by_target. induction l as [|img l IH] using rev_ind; [done|].
  rewrite foldl_app. cbn [foldl]. by rewrite group_append_concat, IH.
Qed.

(** X10. Grouping the new images by target loses and invents nothing: the
    keys of [images_by_target] are distinct, the group of a key is the list
    of the images with that target, in their order, and is never empty, and
    all groups together hold the images that were given. *)
Theorem images_by_target_partitions :
  ∀ new_images,
    NoDup (images_by_target new_images).*1
    ∧ (∀ c imgs,
         (c, imgs) ∈ images_by_target new_images ↔
         imgs = filter (λ img, Image.target_subr img = c) new_images
         ∧ imgs ≠ [])
    ∧ concat (images_by_target new_images).*2 ≡ₚ new_images.
Proof.
  intros l. split_and!.
  - apply images_by_target_NoDup.
  - apply images_by_target_elem.
  - apply images_by_target_concat.
Qed.

(** ** The task graph *)

Lemma collect_task_not_metadata_task (a b : string) :
  Dag.collect_task a ≠ Dag.metadata_task b.
Proof.
  unfold Dag.collect_task, Dag.metadata_task.
  rewrite !PyStrFacts.app_cons. discriminate.
Qed.

Lemma collect_task_not_create_log (a : string) :
  Dag.collect_task a ≠ Dag.create_log.
Proof.
  unfold Dag.collect_task, Dag.create_log.
  rewrite !PyStrFacts.app_cons. discriminate.
Qed.

Lemma metadata_task_not_create_log (a : string) :
  Dag.metadata_task a ≠ Dag.create_log.
Proof.
  unfold Dag.metadata_task, Dag.create_log.
  rewrite !PyStrFacts.app_cons. discriminate.
Qed.

Lemma metadata_task_inj (a b : string) :
  Dag.metadata_task a = Dag.metadata_task b → a = b.
Proof. apply PyStrFacts.app_inv_head. Qed.

Lemma dependencies_elem (subrs : list string) (a b : string) :
  (a, b) ∈ Dag.dependencies subrs ↔
  ∃ subr, subr ∈ subrs
          ∧ (a = Dag.collect_task subr ∧ b = Dag.metadata_task subr
             ∨ a = Dag.metadata_task subr ∧ b = Dag.create_log).
Proof.
  unfold Dag.dependencies. rewrite elem_of_app, !list_elem_of_fmap. split.
  - intros [(subr & [= -> ->] & Hin)|(subr & [= -> ->] & Hin)];
      exists subr; tauto.
  - intros (subr & Hin & [[-> ->]|[-> ->]]); [left|right]; by exists subr.
Qed.

(** X14. In the task graph of the DAG, one task runs before another exactly
    when the first is the collection task of a subreddit and the second is
    the metadata task of the same subreddit or [create_daily_log], or the
    first is a metadata task and the second is [create_daily_log].  So the
    log is created after every collection and every metadata update, the
    tasks of different subreddits do not wait for each other, and no task
    waits for itself. *)
Theorem dag_runs_collect_then_metadata_then_log :
  (∀ subrs a b,
     tc (λ a b, (a, b) ∈ Dag.dependencies subrs) a b ↔
     ∃ subr, subr ∈ subrs
             ∧ (a = Dag.collect_task subr
                ∧ (b = Dag.metadata_task subr ∨ b = Dag.create_log)
                ∨ a = Dag.metadata_task subr ∧ b = Dag.create_log))
  ∧ (∀ subrs a, ¬ tc (λ a b, (a, b) ∈ Dag.dependencies subrs) a a).
Proof.
  assert (∀ subrs a b,
            tc (λ a b, (a, b) ∈ Dag.dependencies subrs) a b →
            ∃ subr, subr ∈ subrs
                    ∧ (a = Dag.collect_task subr
                       ∧ (b = Dag.metadata_task subr ∨ b = Dag.create_log)
                       ∨ a = Dag.metadata_task subr ∧ b = Dag.create_log))
    as Hpath.
  { intros subrs a b. induction 1 as [a b H|a b c H _ IH].
    - apply dependencies_elem in H as (subr & Hin & [[-> ->]|[-> ->]]);
        exists subr; tauto.
    - apply dependencies_elem in H as (subr & Hin & [[-> ->]|[-> ->]]).
      + destruct IH as (subr' & Hin' & [[E _]|[E ->]]).
        * symmetry in E. by apply collect_task_not_metadata_task in E.
        * exists subr. tauto.
      + destruct IH as (subr' & Hin' & [[E _]|[E _]]).
        * symmetry in E. by apply collect_task_not_create_log in E.
        * symmetry in E. by apply metadata_task_not_create_log in E. }
  split.
  - intros subrs a b. split; [apply Hpath|].
    intros (subr & Hin & [[-> [->| ->]]|[-> ->]]).
    + apply tc_once, dependencies_elem. exists subr. tauto.
    + apply tc_l with (Dag.metadata_task subr).
      * apply dependencies_elem. exists subr. tauto.
      * apply tc_once, dependencies_elem. exists subr. tauto.
    + apply tc_once, dependencies_elem. exists subr. tauto.
  - intros subrs a H.
    apply Hpath in H as (subr & _ & [[-> [E|E]]|[-> E]]).
    + by apply collect_task_not_metadata_task in E.
    + by apply collect_task_not_create_log in E.
    + by apply metadata_task_not_create_log in E.
Qed.

(** ** The daily log *)

Lemma sum_of_app (f : Stats.t → Z) (l1 l2 : list Stats.t) :
  sum_of f (l1 ++ l2) = sum_of f l1 + sum_of f l2.
Proof.
  unfold sum_of. rewrite foldl_app. generalize (foldl (λ acc s, acc + f s) 0 l1).
  induction l2 as [|s l2 IH] using rev_ind; intros z; [simpl; lia|].
  rewrite !foldl_app. simpl. rewrite IH. lia.
Qed.

Lemma sum_of_cons (f : Stats.t → Z) (s : Stats.t) (l : list Stats.t) :
  sum_of f (s :: l) = f s + sum_of f l.
Proof. apply (sum_of_app f [s] l). Qed.

Lemma sum_of_new_images (all_stats : list Stats.t) :
  (∀ s, s ∈ all_stats →
        Stats.new_images s = Z.of_nat (length (Stats.images s))) →
  sum_of Stats.new_images all_stats
  = Z.of_nat (length (concat (map Stats.images all_stats))).
Proof.
  induction all_stats as [|s l IH]; intros H; [done|].
  rewrite sum_of_cons, IH, H by (try left; intros; apply H; by right).
  simpl. rewrite length_app. lia.
Qed.

Lemma sum_of_nonneg (f : Stats.t → Z) (all_stats : list Stats.t) :
  (∀ s, s ∈ all_stats → 0 ≤ f s) → 0 ≤ sum_of f all_stats.
Proof.
  induction all_stats as [|s l IH]; intros H; [done|].
  rewrite sum_of_cons.
  assert (0 ≤ f s) by (apply H; left).
  assert (0 ≤ sum_of f l) by (apply IH; intros; apply H; by right). lia.
Qed.

Lemma app_last_inj (p q : string) (a b : ascii) :
  p ++ String a "" = q ++ String b "" → a = b.
Proof.
  revert q. induction p as [|c p IH]; intros [|d q];
    rewrite ?PyStrFacts.app_cons, ?PyStrFacts.app_nil_l; intros H.
  - by inversion H.
  - inversion H as [[Hc Hq]]. destruct q;
      rewrite ?PyStrFacts.app_cons, ?PyStrFacts.app_nil_l in Hq; discriminate.
  - inversion H as [[Hc Hq]]. destruct p;
      rewrite ?PyStrFacts.app_cons, ?PyStrFacts.app_nil_l in Hq; discriminate.
  - inversion H. by apply (IH q).
Qed.

Lemma log_name_not_metadata (prefix stamp c : string) :
  prefix ++ stamp ++ ".json" ≠ c ++ "/metadata.csv".
Proof.
  intros H.
  change ".json" with (".jso" ++ "n") in H.
  change "/metadata.csv" with ("/metadata.cs" ++ "v") in H.
  rewrite <- !PyStrFacts.app_assoc in H.
  apply app_last_inj in H. discriminate.
Qed.

Lemma omap_sublist {A B} (f : A → option B) (g : B → A) (l : list A) :
  (∀ a b, f a = Some b → g b = a) →
  map g (omap f l) `sublist_of` l.
Proof.
  intros H. induction l as [|a l IH]; [done|]. simpl.
  destruct (f a) as [b|] eqn:E; simpl.
  - rewrite (H a b E). by apply sublist_skip.
  - by apply sublist_cons.
Qed.

Lemma upload_new_images_to_gcs_stats w gcs subr stats gcs' :
  Apache.upload_new_images_to_gcs w gcs subr = Ok (stats, gcs') →
  Stats.subreddit stats = subr
  ∧ Stats.new_images stats = Z.of_nat (length (Stats.images stats))
  ∧ 0 ≤ Stats.download_errors stats.
Proof.
  intros H. apply upload_new_images_to_gcs_ok in H as (flair & _ & H).
  pose proof (collect_counts Apache.flair_rejected Apache.save_image
                (λ _, None) w subr flair
                (Apache.get_gcs_submission_ids gcs subr).1 gcs) as F.
  pose proof (collect_funnel_ok Apache.flair_rejected Apache.save_image
                (λ _, None) w subr flair
                (Apache.get_gcs_submission_ids gcs subr).1 gcs) as G.
  cbv zeta in F. rewrite <- H in F, G. simpl in F, G.
  destruct F as (? & _ & ?). destruct G as (_ & ? & _). done.
Qed.

(** X15. [create_daily_log] uploads one object, [logs/daily_collection_
    {stamp}.json], and touches no [metadata.csv]; when that upload is refused
    the task raises and the bucket is as it was.  With each pulled [stats] the
    one returned by the collection task of its subreddit, the log lists the
    stats in the order of [SUBREDDITS], leaving out the subreddits that pushed
    none, [total_new_images] is the number of all entries of the listed
    [stats['images']], and [total_errors] is not negative. *)
Theorem daily_log_totals_and_upload :
  ∀ dumps w gcs pulled now stamp,
    let name := "logs/daily_collection_" ++ stamp ++ ".json" in
    let r := create_daily_log dumps w gcs pulled now stamp in
    (write_fails w name = true → r = (gcs, Raise StorageError))
    ∧ (write_fails w name = false →
       ∃ data,
         r.2 = Ok data
         ∧ Apache.uploads r.1 = (Apache.uploads gcs ++ [name])%list
         ∧ Apache.objects r.1 !! name
           = Some {| Apache.data := [Bytes (dumps data)];
                     Apache.content_type := "application/json" |}
         ∧ (∀ k, k ≠ name → Apache.objects r.1 !! k = Apache.objects gcs !! k)
         ∧ (∀ c, Apache.metadata_view r.1 c = Apache.metadata_view gcs c)
         ∧ LogData.subreddit_stats data = omap pulled SUBREDDITS
         ∧ ((∀ subr s,
               pulled subr = Some s →
               ∃ w0 gcs0 gcs1,
                 Apache.upload_new_images_to_gcs w0 gcs0 subr = Ok (s, gcs1)) →
            map Stats.subreddit (LogData.subreddit_stats data)
              `sublist_of` SUBREDDITS
            ∧ LogData.total_new_images data
              = Z.of_nat (length (concat (map Stats.images
                                            (LogData.subreddit_stats data))))
            ∧ 0 ≤ LogData.total_errors data)).
Proof.
  intros dumps w gcs pulled now stamp. cbv zeta.
  unfold create_daily_log, Apache.upload_from_string. split.
  - by intros ->.
  - intros ->. eexists. cbn [fst snd Apache.uploads Apache.objects].
    split; [reflexivity|]. split; [reflexivity|].
    split; [by rewrite lookup_insert_eq|].
    split; [intros k Hk; by rewrite lookup_insert_ne|].
    split.
    { intros c. unfold Apache.metadata_view, Apache.upload_count.
      cbn [Apache.uploads Apache.objects].
      pose proof (log_name_not_metadata "logs/daily_collection_" stamp c) as Hn.
      rewrite lookup_insert_ne by done.
      by rewrite filter_eq_snoc_ne. }
    split; [reflexivity|].
    cbn [LogData.subreddit_stats LogData.total_new_images
         LogData.total_errors log_data].
    intros Hp.
    { assert (∀ s, s ∈ omap pulled SUBREDDITS →
                ∃ subr w0 gcs0 gcs1,
                  Apache.upload_new_images_to_gcs w0 gcs0 subr = Ok (s, gcs1))
        as Hs.
      { intros s (subr & _ & E)%list_elem_of_omap.
        destruct (Hp subr s E) as (w0 & gcs0 & gcs1 & H). eauto. }
      split_and!.
      * apply omap_sublist. intros subr s E.
        destruct (Hp subr s E) as (w0 & gcs0 & gcs1 & H).
        by apply upload_new_images_to_gcs_stats in H as (? & _).
      * apply sum_of_new_images. intros s Hin.
        destruct (Hs s Hin) as (subr & w0 & gcs0 & gcs1 & H).
        by apply upload_new_images_to_gcs_stats in H as (_ & ? & _).
      * apply sum_of_nonneg. intros s Hin.
        destruct (Hs s Hin) as (subr & w0 & gcs0 & gcs1 & H).
        by apply upload_new_images_to_gcs_stats in H as (_ & _ & ?). }
Qed.

Lemma daily_log_totals_and_upload_witness :
  ∃ data,
    (create_daily_log (λ _, "{}") Sample.world_five Sample.gcs_with_seen
       (λ subr,
          match Apache.upload_new_images_to_gcs Sample.world_five
                  Sample.gcs_with_seen subr with
          | Ok (stats, _) => Some stats
          | Raise _ => None
          end)
       "2025-01-01T16:00:00" "20250101_160000").2 = Ok data
    ∧ map Stats.subreddit (LogData.subreddit_stats data)
      = ["dalle2"; "midjourney"; "aiArt"]
    ∧ LogData.total_new_images data = 1.
Proof.
  destruct (proj2 (daily_log_totals_and_upload (λ _, "{}") Sample.world_five
                     Sample.gcs_with_seen
                     (λ subr,
                        match Apache.upload_new_images_to_gcs Sample.world_five
                                Sample.gcs_with_seen subr with
                        | Ok (stats, _) => Some stats
                        | Raise _ => None
                        end)
                     "2025-01-01T16:00:00" "20250101_160000") eq_refl)
    as (data & Hr & _ & _ & _ & _ & Hs & Ht).
  exists data. split; [exact Hr|].
  destruct Ht as (_ & -> & _).
  - intros subr s.
    destruct (Apache.upload_new_images_to_gcs Sample.world_five
                Sample.gcs_with_seen subr) as [[s' gcs1]|] eqn:E; [|done].
    intros [= <-]. by exists Sample.world_five, Sample.gcs_with_seen, gcs1.
  - rewrite Hs. split; vm_compute; reflexivity.
Defined.

Lemma collect_subreddits_stats w fs subrs all_stats fs' :
  Local.collect_subreddits w fs subrs = Ok (all_stats, fs') →
  map Stats.subreddit all_stats = subrs
  ∧ ∀ s, s ∈ all_stats →
         Stats.new_images s = Z.of_nat (length (Stats.images s))
         ∧ 0 ≤ Stats.download_errors s.
Proof.
  revert fs all_stats fs'.
  induction subrs as [|subr rest IH]; intros fs all_stats fs'.
  { simpl. intros [= <- _]. split; [done|]. by intros s ?%elem_of_nil. }
  cbn [Local.collect_subreddits].
  destruct (Local.run_subreddit w fs subr) as [[s1 fs1]|] eqn:E; [|done].
  cbn [mbind Result_bind].
  destruct (Local.collect_subreddits w fs1 rest) as [[l fs2]|] eqn:E2; [|done].
  cbn [mbind Result_bind]. intros [= <- _].
  destruct (IH _ _ _ E2) as [Hm Hl].
  unfold Local.run_subreddit in E.
  destruct (FLAIR_DICT !! subr) as [flair|]; [|done].
  destruct (Local.collect_new_images_from_subreddit_local w fs subr flair)
    as [[s0 fc]|] eqn:E0; [|done].
  cbn [mbind Result_bind] in E. injection E as <- _.
  apply collect_new_images_from_subreddit_local_ok in E0 as (ids & log & _ & H).
  pose proof (collect_counts Local.flair_rejected Local.save_image
                (λ t, t) w subr flair ids fs) as F.
  pose proof (collect_funnel_ok Local.flair_rejected Local.save_image
                (λ t, t) w subr flair ids fs) as G.
  cbv zeta in F. rewrite <- H in F, G. simpl in F, G.
  destruct F as (Hsub & _ & Hn). destruct G as (_ & He & _).
  split.
  - simpl. by rewrite Hsub, Hm.
  - intros s [->|Hin]%elem_of_cons; [done|]. by apply Hl.
Qed.

(** X16. When the local script reaches its end, the log lists one [stats]
    per subreddit of [SUBREDDITS], in that order, [total_new_images] is the
    number of all entries of the listed [stats['images']], [total_errors] is
    not negative, and the log file is the last file written: it lies under
    [DATA_DIR/logs] and leaves every [metadata.csv] as the loop over the
    subreddits left it. *)
Theorem local_log_totals_and_file :
  ∀ dumps w fs now stamp data fs',
    collect_all_and_log_local dumps w fs now stamp = Ok (data, fs') →
    map Stats.subreddit (LogData.subreddit_stats data) = SUBREDDITS
    ∧ LogData.total_new_images data
      = Z.of_nat (length (concat (map Stats.images
                                    (LogData.subreddit_stats data))))
    ∧ 0 ≤ LogData.total_errors data
    ∧ ∃ fs1,
        let log_path :=
          DATA_DIR ++ "/logs" ++ "/daily_collection_" ++ stamp ++ ".json" in
        Local.collect_all_subreddit_images_local w fs
        = Ok (LogData.subreddit_stats data, fs1)
        ∧ Local.writes fs' = (Local.writes fs1 ++ [log_path])%list
        ∧ Local.files fs' !! log_path = Some [Bytes (dumps data)]
        ∧ (∀ path, path ≠ log_path →
                   Local.files fs' !! path = Local.files fs1 !! path)
        ∧ (∀ c, Local.metadata_view fs' c = Local.metadata_view fs1 c).
Proof.
  intros dumps w fs now stamp data fs'. unfold collect_all_and_log_local.
  destruct (Local.collect_all_subreddit_images_local w fs)
    as [[all_stats fs1]|] eqn:E; [|done].
  cbn [mbind Result_bind].
  destruct (write_fails w _) eqn:Ew; [done|]. intros [= <- <-].
  cbn [LogData.subreddit_stats LogData.total_new_images LogData.total_errors
       log_data].
  unfold Local.collect_all_subreddit_images_local in E.
  destruct (collect_subreddits_stats _ _ _ _ _ E) as [Hm Hl].
  split_and!.
  - done.
  - apply sum_of_new_images. intros s Hin. by apply Hl.
  - apply sum_of_nonneg. intros s Hin. by apply Hl.
  - exists fs1. cbv zeta. cbn [Local.writes Local.files].
    rewrite !PyStrFacts.app_assoc.
    split_and!.
    + done.
    + done.
    + by rewrite lookup_insert_eq.
    + intros path Hp. by rewrite lookup_insert_ne.
    + intros c. unfold Local.metadata_view, Local.write_count.
      cbn [Local.writes Local.files].
      assert ((DATA_DIR ++ "/logs") ++ "/daily_collection_" ++ stamp ++ ".json"
              ≠ Local.metadata_path c) as Hn.
      { unfold Local.metadata_path, Local.subr_dir.
        rewrite !PyStrFacts.app_assoc.
        rewrite <- (PyStrFacts.app_assoc DATA_DIR "/logs").
        rewrite <- (PyStrFacts.app_assoc (DATA_DIR ++ "/logs")).
        rewrite <- (PyStrFacts.app_assoc DATA_DIR "/" (c ++ _)).
        rewrite <- (PyStrFacts.app_assoc (DATA_DIR ++ "/") c).
        apply log_name_not_metadata. }
      rewrite !PyStrFacts.app_assoc in Hn.
      rewrite lookup_insert_ne by done. by rewrite filter_eq_snoc_ne.
Qed.

Lemma local_log_totals_and_file_witness :
  match collect_all_and_log_local (λ _, "{}") Sample.world_five
          Sample.fs_with_seen "2025-01-01T16:00:00" "20250101_160000" with
  | Ok (data, fs') =>
      map Stats.subreddit (LogData.subreddit_stats data)
      = ["dalle2"; "midjourney"; "aiArt"]
      ∧ LogData.total_new_images data = 1
  | Raise _ => False
  end.
Proof.
  generalize SampleRuns.log_five_local.
  destruct (collect_all_and_log_local _ _ _ _ _) as [[data fs']|] eqn:E;
    [|done].
  intros Hn.
  destruct (local_log_totals_and_file _ _ _ _ _ _ _ E) as (Hs & _).
  split; [exact Hs | exact Hn].
Defined.

(** ** Content types *)

Lemma content_type_of_ext (ext : string) :
  default "image/jpeg" (CONTENT_TYPE_MAP !! ext)
  = if String.eqb ext ".png" then "image/png" else "image/jpeg".
Proof.
  unfold CONTENT_TYPE_MAP.
  destruct (decide (ext = ".jpg")) as [->|H1].
  { by rewrite lookup_insert_eq. }
  rewrite lookup_insert_ne by done.
  destruct (decide (ext = ".jpeg")) as [->|H2].
  { by rewrite lookup_insert_eq. }
  rewrite lookup_insert_ne by done.
  destruct (decide (ext = ".png")) as [->|H3].
  { by rewrite lookup_insert_eq. }
  rewrite lookup_insert_ne, lookup_empty by done.
  apply String.eqb_neq in H3. by rewrite H3.
Qed.

Lemma apache_download_stores w subr gcs s gcs' img :
  download Apache.save_image (λ _, None) w subr gcs s = (gcs', Ok img) →
  ∃ response,
    requests_get w (Submission.url s) = Ok response
    ∧ Apache.objects gcs' !! image_blob img
      = Some {| Apache.data := [Bytes (Response.content response)];
                Apache.content_type :=
                  if String.eqb (get_file_extension (Submission.url s)) ".png"
                  then "image/png" else "image/jpeg" |}
    ∧ Apache.uploads gcs' = (Apache.uploads gcs ++ [image_blob img])%list
    ∧ ∀ name, name ≠ image_blob img →
              Apache.objects gcs' !! name = Apache.objects gcs !! name.
Proof.
  intros H.
  apply (download_ok Apache.save_image (λ _, None) w subr) in H
    as (r & t & Hr & _ & Hs & ->).
  exists r. split; [done|].
  unfold Apache.save_image, Apache.upload_from_string in Hs.
  destruct (write_fails w _); [by inversion Hs|].
  inversion Hs; subst. unfold image_blob. simpl.
  rewrite lookup_insert_eq, content_type_of_ext.
  split_and!; [done..|]. intros name Hn. by rewrite lookup_insert_ne.
Qed.

Lemma apache_entries_content_type w subr flair ids gcs :
  let r := collect Apache.flair_rejected Apache.save_image (λ _, None) w subr
             flair ids gcs in
  ∀ img, img ∈ Stats.images r.1 →
    ∃ blob,
      Apache.objects r.2 !! image_blob img = Some blob
      ∧ (Apache.content_type blob = "image/png"
         ∨ Apache.content_type blob = "image/jpeg").
Proof.
  cbv zeta. unfold collect. simpl.
  apply (collect_loop_stored Apache.flair_rejected Apache.save_image
           (λ _, None) w subr flair ids
           (λ st t f, ∃ blob,
              Apache.objects st !! (t ++ "/" ++ f) = Some blob
              ∧ (Apache.content_type blob = "image/png"
                 ∨ Apache.content_type blob = "image/jpeg"))).
  - intros st t f e c t0 f0 (blob & Hb & Hc).
    unfold Apache.save_image, Apache.upload_from_string.
    destruct (write_fails w _); simpl; [by exists blob|].
    destruct (decide (t ++ "/" ++ f = t0 ++ "/" ++ f0)) as [E|E].
    + rewrite E, lookup_insert_eq. eexists. split; [done|]. simpl.
      rewrite content_type_of_ext. destruct (String.eqb e ".png"); tauto.
    + rewrite lookup_insert_ne by done. by exists blob.
  - intros st st' t f e c.
    unfold Apache.save_image, Apache.upload_from_string.
    destruct (write_fails w _); [by inversion 1|].
    inversion 1; subst. simpl. rewrite lookup_insert_eq.
    eexists. split; [done|]. simpl.
    rewrite content_type_of_ext. destruct (String.eqb e ".png"); tauto.
  - simpl. by intros img ?%elem_of_nil.
Qed.

(** X17. A [try] of the Airflow script that goes through has stored the
    bytes of the response under [{target_subr}/{filename}], with content type
    [image/png] when the extension derived from the URL is [.png] and
    [image/jpeg] for every other extension, and has changed no other object.
    After [upload_new_images_to_gcs] the object of every entry has one of
    these two content types. *)
Theorem image_objects_have_image_content_type :
  (∀ w subr gcs s gcs' img,
     download Apache.save_image (λ _, None) w subr gcs s = (gcs', Ok img) →
     ∃ response,
       requests_get w (Submission.url s) = Ok response
       ∧ Apache.objects gcs' !! image_blob img
         = Some {| Apache.data := [Bytes (Response.content response)];
                   Apache.content_type :=
                     if String.eqb (get_file_extension (Submission.url s))
                          ".png"
                     then "image/png" else "image/jpeg" |}
       ∧ Apache.uploads gcs' = (Apache.uploads gcs ++ [image_blob img])%list
       ∧ ∀ name, name ≠ image_blob img →
                 Apache.objects gcs' !! name = Apache.objects gcs !! name)
  ∧ (∀ w gcs subr stats gcs' img,
       Apache.upload_new_images_to_gcs w gcs subr = Ok (stats, gcs') →
       img ∈ Stats.images stats →
       ∃ blob,
         Apache.objects gcs' !! image_blob img = Some blob
         ∧ (Apache.content_type blob = "image/png"
            ∨ Apache.content_type blob = "image/jpeg")).
Proof.
  split.
  - apply apache_download_stores.
  - intros w gcs subr stats gcs' img H Hin.
    apply upload_new_images_to_gcs_ok in H as (flair & _ & H).
    pose proof (apache_entries_content_type w subr flair
                  (Apache.get_gcs_submission_ids gcs subr).1 gcs) as F.
    cbv zeta in F. rewrite <- H in F. by apply F.
Qed.

Lemma image_objects_have_image_content_type_witness :
  match download Apache.save_image (λ _, None) Sample.world_aiart "aiArt"
          Sample.empty_gcs Sample.aiart_dalle with
  | (gcs', Ok img) =>
      Apache.content_type <$> (Apache.objects gcs' !! image_blob img)
      = Some "image/png"
  | (_, Raise _) => False
  end.
Proof.
  generalize SampleRuns.download_aiart_dalle.
  destruct (download _ _ _ _ _ _) as [gcs' [img|e]] eqn:E; [|done].
  intros _.
  destruct (proj1 image_objects_have_image_content_type _ _ _ _ _ _ E)
    as (r & _ & -> & _).
  vm_compute. reflexivity.
Defined.

(** ** The shape of an extension *)

Lemma rfind_found (c : ascii) (s : string) :
  0 ≤ PyStr.rfind c s →
  ∃ e, PyStr.drop (Z.to_nat (PyStr.rfind c s)) s = String c e
       ∧ PyStr.rfind c e = -1.
Proof.
  induction s as [|a s IH]; simpl; [lia|].
  pose proof (PyStrFacts.rfind_bounds c s) as Hb.
  destruct (0 <=? PyStr.rfind c s) eqn:E.
  - apply Z.leb_le in E. intros _. destruct (IH E) as (e & He & Hn).
    exists e. split; [|done].
    replace (Z.to_nat (PyStr.rfind c s + 1)) with (S (Z.to_nat (PyStr.rfind c s)))
      by lia.
    done.
  - apply Z.leb_gt in E. destruct (Ascii.eqb a c) eqn:Ea; [|lia].
    intros _. apply Ascii.eqb_eq in Ea as ->. exists s. split; [done|lia].
Qed.

Lemma rfind_drop_absent (c : ascii) (s : string) (n : nat) :
  PyStr.rfind c s < Z.of_nat n → PyStr.rfind c (PyStr.drop n s) = -1.
Proof.
  revert s. induction n as [|n IH]; intros s H.
  - pose proof (PyStrFacts.rfind_bounds c s). simpl. lia.
  - destruct s as [|a s]; [done|]. simpl in *.
    apply IH. destruct (0 <=? PyStr.rfind c s) eqn:E; [lia|].
    apply Z.leb_gt in E. lia.
Qed.

Lemma rfind_absent_forallb (c : ascii) (s : string) :
  PyStr.rfind c s = -1 →
  PyStr.forallb_str (λ a, negb (Ascii.eqb a c)) s = true.
Proof.
  induction s as [|a s IH]; simpl; [done|].
  pose proof (PyStrFacts.rfind_bounds c s) as Hb.
  destruct (0 <=? PyStr.rfind c s) eqn:E; [apply Z.leb_le in E; lia|].
  apply Z.leb_gt in E. destruct (Ascii.eqb a c); [lia|].
  intros _. simpl. apply IH. lia.
Qed.

Lemma lower_char_dot_slash (a : ascii) :
  Ascii.eqb (PyStr.lower_char a) "." = Ascii.eqb a "."
  ∧ Ascii.eqb (PyStr.lower_char a) "/" = Ascii.eqb a "/".
Proof.
  destruct a as [[] [] [] [] [] [] [] []]; vm_compute; split; reflexivity.
Qed.

Lemma lower_no_dot_slash (s : string) :
  PyStr.forallb_str (λ a, negb (Ascii.eqb a ".") && negb (Ascii.eqb a "/")) s
  = true →
  PyStr.forallb_str (λ a, negb (Ascii.eqb a ".") && negb (Ascii.eqb a "/"))
    (PyStr.lower s) = true.
Proof.
  induction s as [|a s IH]; simpl; [done|].
  destruct (lower_char_dot_slash a) as [-> ->].
  intros [-> H]%andb_true_iff. by rewrite IH.
Qed.

Lemma forallb_str_and (p q : ascii → bool) (s : string) :
  PyStr.forallb_str p s = true → PyStr.forallb_str q s = true →
  PyStr.forallb_str (λ a, p a && q a) s = true.
Proof.
  induction s as [|a s IH]; simpl; [done|].
  intros [-> Hp]%andb_true_iff [-> Hq]%andb_true_iff. by rewrite IH.
Qed.

(** The extension that [os.path.splitext] returns is empty, or a dot
    followed by characters other than the dot and the slash. *)
Lemma splitext_ext_shape (p : string) :
  (PosixPath.splitext p).2 = ""
  ∨ ∃ e, (PosixPath.splitext p).2 = String "." e
         ∧ PyStr.forallb_str
             (λ a, negb (Ascii.eqb a ".") && negb (Ascii.eqb a "/")) e = true.
Proof.
  unfold PosixPath.splitext.
  destruct (_ && _) eqn:E; [|by left]. right. simpl.
  apply andb_true_iff in E as [E _]. apply Z.ltb_lt in E.
  pose proof (PyStrFacts.rfind_bounds "/" p) as Hb.
  destruct (rfind_found "." p) as (e & He & Hn); [lia|].
  exists e. split; [done|].
  pose proof (rfind_drop_absent "/" p (Z.to_nat (PyStr.rfind "." p))) as Hs.
  rewrite He in Hs. specialize (Hs ltac:(lia)).
  apply forallb_str_and.
  - by apply rfind_absent_forallb.
  - apply rfind_absent_forallb in Hs. simpl in Hs. exact Hs.
Qed.

(** X18. The extension that [get_file_extension] returns is never empty: it
    is a dot followed by characters that are neither a dot, nor a slash, nor
    an upper-case letter.  So the name of an image file has its extension
    after its last dot, and the extension adds no directory to it. *)
Theorem get_file_extension_is_dot_and_plain_characters :
  ∀ url,
    ∃ e,
      get_file_extension url = String "." e
      ∧ PyStr.forallb_str
          (λ a, negb (Ascii.eqb a ".") && negb (Ascii.eqb a "/")
                && negb (PyStr.is_upper a)) e = true.
Proof.
  intros url. rewrite get_file_extension_eq. cbv zeta.
  destruct (splitext_ext_shape (Urllib.path (Urllib.urlparse url)))
    as [->|(e & -> & He)].
  - exists "jpg". split; reflexivity.
  - change (String.eqb (String "." e) "") with false. cbv iota.
    cbn [PyStr.lower].
    change (PyStr.lower_char ".") with "."%char.
    exists (PyStr.lower e). split; [done|].
    apply forallb_str_and; [by apply lower_no_dot_slash|].
    apply PyStrFacts.lower_no_upper.
Qed.

(** ** What an entry records *)

Section LoopFetched.
Context {Store : Type}.
Variable flair_rejected : option string → gset string → bool.
Variable save_image :
  World → Store → string → string → string → string → Store * Result unit.
Variable flair_key : option string → option string.
Variable w : World.
Variable subr : string.
Variable flair : gset string.
Variable ids : gset string.

Local Abbreviation body :=
  (process flair_rejected save_image flair_key w subr flair ids).
Local Abbreviation fetch := (download save_image flair_key w subr).
Local Abbreviation loop :=
  (collect_loop flair_rejected save_image flair_key w subr flair ids).
Local Abbreviation p_new := (is_new flair_rejected flair ids).

(** Every collected entry is what a [try] returned. *)
Lemma collect_loop_fetched (feed : list Submission.t) (L : Loop Store)
    (img : Image.t) :
  img ∈ new_images (loop L feed) →
  img ∈ new_images L
  ∨ ∃ s st st',
      s ∈ feed ∧ p_new s = true ∧ fetch st s = (st', Ok img).
Proof.
  revert L. induction feed as [|s feed IH]; intros L Hin; [by left|].
  rewrite collect_loop_cons in Hin.
  destruct (IH _ Hin) as [H|(s' & st & st' & Hs & Hn & Hf)].
  - destruct (p_new s) eqn:En.
    + rewrite (process_new _ _ _ _ _ _ _ L s En) in H. cbv zeta in H.
      destruct (fetch (store L) s) as [st' [img'|e]] eqn:Ef; simpl in H.
      * apply elem_of_app in H as [H|H%list_elem_of_singleton]; [by left|].
        subst img'. right. exists s, (store L), st'.
        split_and!; [left|done|done].
      * by left.
    + destruct (process_not_new _ save_image flair_key w subr _ _ L s En)
        as (Hi & _). rewrite Hi in H. by left.
  - right. exists s', st, st'. split_and!; [by right|done|done].
Qed.

End LoopFetched.

Lemma is_new_passes_flair
    (flair_rejected : option string → gset string → bool)
    (flair ids : gset string) (s : Submission.t) :
  is_new flair_rejected flair ids s = true →
  flair_rejected (Submission.link_flair_text s) flair = false.
Proof.
  unfold is_new, passes_nsfw, passes_image, passes_flair.
  rewrite !andb_true_iff, negb_true_iff. tauto.
Qed.

(** X20. The row that an entry puts into a [metadata.csv] holds the id of
    its submission, the file name of its image, the URL and the local
    creation date of the submission, and, as [subreddit], the subreddit that
    was collected, which for r/aiArt is not the subreddit of the
    [metadata.csv].  An entry of the local script also keeps the flair of its
    submission, one of the flairs asked for; an entry of the Airflow script
    keeps none. *)
Theorem entry_records_its_submission :
  (∀ w gcs subr stats gcs' img,
     Apache.upload_new_images_to_gcs w gcs subr = Ok (stats, gcs') →
     img ∈ Stats.images stats →
     ∃ s,
       s ∈ take 1000 (subreddit_new w subr)
       ∧ Row.of_image img
         = {| Row.submission_id := Submission.id s;
              Row.filename :=
                image_filename (Image.target_subr img) (Submission.id s)
                  (get_file_extension (Submission.url s));
              Row.url := Submission.url s;
              Row.subreddit := subr;
              Row.date := isoformat w (Submission.created_utc s) |}
       ∧ Image.flair img = None)
  ∧ (∀ w fs subr flair stats fs' img,
       Local.collect_new_images_from_subreddit_local w fs subr flair
       = Ok (stats, fs') →
       img ∈ Stats.images stats →
       ∃ s tag,
         s ∈ take 1000 (subreddit_new w subr)
         ∧ Row.of_image img
           = {| Row.submission_id := Submission.id s;
                Row.filename :=
                  image_filename (Image.target_subr img) (Submission.id s)
                    (get_file_extension (Submission.url s));
                Row.url := Submission.url s;
                Row.subreddit := subr;
                Row.date := isoformat w (Submission.created_utc s) |}
         ∧ Submission.link_flair_text s = Some tag
         ∧ Image.flair img = Some tag
         ∧ tag ∈ flair).
Proof.
  split.
  - intros w gcs subr stats gcs' img H Hin.
    apply upload_new_images_to_gcs_ok in H as (flair & _ & H).
    apply (f_equal fst) in H. cbn [fst] in H. subst stats.
    unfold collect in Hin. simpl in Hin.
    apply collect_loop_fetched in Hin
      as [Hin|(s & st & st' & Hs & Hn & Hf)]; [by apply elem_of_nil in Hin|].
    apply (download_ok Apache.save_image (λ _, None) w subr) in Hf
      as (r & t & _ & _ & _ & ->).
    by exists s.
  - intros w fs subr flair stats fs' img H Hin.
    apply collect_new_images_from_subreddit_local_ok in H
      as (ids & log & _ & H).
    apply (f_equal fst) in H. cbn [fst] in H. subst stats.
    unfold collect in Hin. simpl in Hin.
    apply collect_loop_fetched in Hin
      as [Hin|(s & st & st' & Hs & Hn & Hf)]; [by apply elem_of_nil in Hin|].
    apply (download_ok Local.save_image (λ t, t) w subr) in Hf
      as (r & t & _ & _ & _ & ->).
    apply is_new_passes_flair in Hn. unfold Local.flair_rejected in Hn.
    destruct (Submission.link_flair_text s) as [tag|] eqn:Et; [|done].
    apply negb_false_iff, bool_decide_eq_true in Hn.
    exists s, tag. simpl. by rewrite Et.
Qed.

Lemma entry_records_its_submission_witness :
  match Apache.upload_new_images_to_gcs Sample.world_aiart Sample.empty_gcs
          "aiArt" with
  | Ok (stats, _) =>
      match Stats.images stats with
      | img :: _ =>
          Row.subreddit (Row.of_image img) = "aiArt"
          ∧ Image.target_subr img = "dalle2"
      | [] => False
      end
  | Raise _ => False
  end.
Proof.
  generalize SampleRuns.upload_aiart.
  destruct (Apache.upload_new_images_to_gcs _ _ _) as [[stats gcs']|] eqn:E;
    [|done].
  destruct (Stats.images stats) as [|img l] eqn:Ei; [done|].
  intros [= Ht _].
  assert (img ∈ Stats.images stats) as Hin by (rewrite Ei; left).
  destruct (proj1 entry_records_its_submission _ _ _ _ _ _ E Hin)
    as (s & _ & -> & _).
  split; [reflexivity | exact Ht].
Defined.

(** ** The two scripts side by side *)

(** Under the flair sets of [FLAIR_DICT] the two flair tests agree: no set
    holds the empty flair, which is all that the Airflow test rejects on top
    of the local one. *)
Lemma flair_tests_agree (subr : string) (flair : gset string)
    (tag : option string) :
  FLAIR_DICT !! subr = Some flair →
  Apache.flair_rejected tag flair = Local.flair_rejected tag flair.
Proof.
  intros Hf. destruct tag as [f|]; [|done]. simpl.
  destruct (String.eqb f "") eqn:E; [|done]. simpl.
  apply String.eqb_eq in E as ->. symmetry. apply negb_true_iff.
  apply bool_decide_eq_false.
  destruct (FLAIR_DICT_cases _ _ Hf) as [[_ ->]|[[_ ->]|[_ ->]]];
    rewrite ?elem_of_union, !elem_of_singleton;
    intros H; repeat (destruct H as [H|H]; try discriminate H);
    discriminate H.
Qed.

Lemma downloads_agree w subr gcs fs s :
  (∀ name, write_fails w name = false) →
  match (download Apache.save_image (λ _, None) w subr gcs s).2,
        (download Local.save_image (λ t, t) w subr fs s).2 with
  | Ok a, Ok l =>
      Row.of_image a = Row.of_image l
      ∧ Image.target_subr a = Image.target_subr l
  | Raise _, Raise _ => True
  | _, _ => False
  end.
Proof.
  intros Hw. unfold download.
  destruct (requests_get w _) as [r|]; [|done].
  destruct (resolve_target_subr _ _) as [t|]; [|done].
  unfold Apache.save_image, Apache.upload_from_string, Local.save_image.
  rewrite !Hw. done.
Qed.

Lemma loops_agree w subr (flair ids : gset string) (feed : list Submission.t)
    (La : Loop Apache.GCS) (Ll : Loop Local.FS) :
  (∀ tag, Apache.flair_rejected tag flair = Local.flair_rejected tag flair) →
  (∀ name, write_fails w name = false) →
  stats La = stats Ll →
  map Row.of_image (new_images La) = map Row.of_image (new_images Ll) →
  map Image.target_subr (new_images La)
  = map Image.target_subr (new_images Ll) →
  let La' := Apache.loop w subr flair ids La feed in
  let Ll' := Local.loop w subr flair ids Ll feed in
  stats La' = stats Ll'
  ∧ map Row.of_image (new_images La') = map Row.of_image (new_images Ll')
  ∧ map Image.target_subr (new_images La')
    = map Image.target_subr (new_images Ll').
Proof.
  intros Hfl Hw. cbv zeta. unfold Apache.loop, Local.loop.
  revert La Ll. induction feed as [|s feed IH]; intros La Ll Hs Hr Ht; [done|].
  rewrite !collect_loop_cons. apply IH; clear IH.
  all: unfold process, bump; cbn [stats new_images store];
    rewrite <- Hfl, Hs;
    destruct (Apache.flair_rejected _ flair); [done|];
    destruct (negb _); [done|];
    destruct (Submission.over_18 s); [done|];
    destruct (bool_decide _); [done|];
    pose proof (downloads_agree w subr (store La) (store Ll) s Hw) as Hd;
    destruct (download Apache.save_image _ w subr (store La) s)
      as [ga [a|ea]];
    destruct (download Local.save_image _ w subr (store Ll) s)
      as [fl [l|el]]; simpl in Hd; try done; cbn [stats new_images store].
  all: destruct Hd as [Hd1 Hd2]; rewrite !map_app; simpl; congruence.
Qed.

(** X19. The two scripts collect the same: for a subreddit of [FLAIR_DICT],
    over the same listing and with the same known ids, when no write is
    refused, the counters of the two returned [stats] are equal and their
    entries give the same rows for the same targets, in the same order. *)
Theorem scripts_collect_the_same :
  ∀ w gcs fs subr flair ids log stats_gcs gcs' stats_local fs',
    FLAIR_DICT !! subr = Some flair →
    (∀ name, write_fails w name = false) →
    (Apache.get_gcs_submission_ids gcs subr).1 = ids →
    Local.get_existing_image_ids_local fs subr = Ok (ids, log) →
    Apache.upload_new_images_to_gcs w gcs subr = Ok (stats_gcs, gcs') →
    Local.collect_new_images_from_subreddit_local w fs subr flair
    = Ok (stats_local, fs') →
    Stats.set_images [] stats_gcs = Stats.set_images [] stats_local
    ∧ map Row.of_image (Stats.images stats_gcs)
      = map Row.of_image (Stats.images stats_local)
    ∧ map Image.target_subr (Stats.images stats_gcs)
      = map Image.target_subr (Stats.images stats_local).
Proof.
  intros w gcs fs subr flair ids log sa gcs' sl fs' Hf Hw Hia Hil Ha Hl.
  apply upload_new_images_to_gcs_ok in Ha as (flair' & Hf' & Ha).
  assert (flair' = flair) as -> by congruence.
  apply collect_new_images_from_subreddit_local_ok in Hl
    as (ids' & log' & Hil' & Hl).
  assert (ids' = ids) as -> by congruence.
  rewrite Hia in Ha.
  apply (f_equal fst) in Ha, Hl. cbn [fst] in Ha, Hl. subst sa sl.
  unfold collect. cbn [fst Stats.images Stats.set_images].
  destruct (loops_agree w subr flair ids (take 1000 (subreddit_new w subr))
              {| stats := Stats.init subr; new_images := []; store := gcs |}
              {| stats := Stats.init subr; new_images := []; store := fs |}
              (λ tag, flair_tests_agree subr flair tag Hf) Hw
              eq_refl eq_refl eq_refl) as (H1 & H2 & H3).
  unfold Apache.loop, Local.loop in *.
  split_and!; [|done..].
  unfold Stats.set_images. cbn. by rewrite H1.
Qed.

Lemma scripts_collect_the_same_witness :
  match Apache.upload_new_images_to_gcs Sample.world_five Sample.gcs_with_seen
          "dalle2",
        Local.collect_new_images_from_subreddit_local Sample.world_five
          Sample.fs_with_seen "dalle2" Sample.dalle_flair with
  | Ok (stats_gcs, _), Ok (stats_local, _) =>
      Stats.new_images stats_gcs = 1
      ∧ map Row.of_image (Stats.images stats_gcs)
        = map Row.of_image (Stats.images stats_local)
  | _, _ => False
  end.
Proof.
  generalize SampleRuns.upload_five SampleRuns.collect_five_local.
  destruct (Apache.upload_new_images_to_gcs _ _ _) as [[sa gcs']|] eqn:Ea;
    [|done].
  destruct (Local.collect_new_images_from_subreddit_local _ _ _ _)
    as [[sl fs']|] eqn:El; [|by intros _ ?].
  intros [H1 _] _. split; [exact H1|].
  refine (proj1 (proj2 (scripts_collect_the_same Sample.world_five
                          Sample.gcs_with_seen Sample.fs_with_seen "dalle2"
                          Sample.dalle_flair {["d4"]}
                          [{| levelname := INFO; about := "dalle2" |}]
                          sa gcs' sl fs' _ _ _ _ Ea El))).
  - vm_compute. reflexivity.
  - reflexivity.
  - vm_compute. reflexivity.
  - vm_compute. reflexivity.
Defined.

(** ** Directories *)

Section LoopResolved.
Context {Store : Type}.
Variable flair_rejected : option string → gset string → bool.
Variable save_image :
  World → Store → string → string → string → string → Store * Result unit.
Variable flair_key : option string → option string.
Variable w : World.
Variable subr : string.
Variable flair : gset string.
Variable ids : gset string.

Local Abbreviation body :=
  (process flair_rejected save_image flair_key w subr flair ids).
Local Abbreviation fetch := (download save_image flair_key w subr).
Local Abbreviation loop :=
  (collect_loop flair_rejected save_image flair_key w subr flair ids).
Local Abbreviation p_new := (is_new flair_rejected flair ids).

(** As [collect_loop_preserves], for a property that writing keeps when the
    target is one that a submission resolves to. *)
Lemma collect_loop_preserves_resolved (P : Store → Prop)
    (feed : list Submission.t) (L : Loop Store) :
  (∀ st tag t f e c,
     resolve_target_subr subr tag = Ok t →
     P st → P (save_image w st t f e c).1) →
  P (store L) → P (store (loop L feed)).
Proof.
  intros Hsave. revert L. induction feed as [|s feed IH]; intros L H; [done|].
  rewrite collect_loop_cons. apply IH.
  destruct (p_new s) eqn:En.
  - rewrite (process_new _ _ _ _ _ _ _ L s En). cbv zeta.
    assert (P (fetch (store L) s).1) as Hf.
    { unfold download. destruct (requests_get w _); [|done].
      destruct (resolve_target_subr _ _) as [t|] eqn:Et; [|done].
      specialize (Hsave (store L) _ t
        (image_filename t (Submission.id s)
           (get_file_extension (Submission.url s)))
        (get_file_extension (Submission.url s)) (Response.content a) Et H).
      by destruct (save_image _ _ _ _ _ _) as [st' [[]|]]. }
    by destruct (fetch (store L) s) as [st' [img|e]].
  - by destruct (process_not_new _ save_image flair_key w subr _ _ L s En)
      as (_ & -> & _).
Qed.

End LoopResolved.

(** X21. The local collection of a subreddit of [SUBREDDITS] creates no
    directory other than [data_collection], [DATA_DIR] and the directories of
    r/dalle2 and r/midjourney, and the metadata update creates none; so the
    directory of r/aiArt is never created, and the known ids of r/aiArt stay
    empty with the warning that its directory does not exist. *)
Theorem local_run_creates_only_target_directories :
  ∀ w fs subr stats fs',
    Local.run_subreddit w fs subr = Ok (stats, fs') →
    Local.dirs fs ⊆ Local.dirs fs'
    ∧ Local.dirs fs'
      ⊆ {[ "data_collection"; DATA_DIR; Local.subr_dir DALLE_SUBR;
           Local.subr_dir MIDJ_SUBR ]} ∪ Local.dirs fs
    ∧ (Local.subr_dir AIART_SUBR ∉ Local.dirs fs →
       (Local.subr_dir AIART_SUBR ∉ Local.dirs fs')
       ∧ Local.get_existing_image_ids_local fs' AIART_SUBR
         = Ok (∅, [{| levelname := WARNING; about := AIART_SUBR |}])).
Proof.
  intros w fs subr stats fs'. unfold Local.run_subreddit.
  destruct (FLAIR_DICT !! subr) as [flair|] eqn:Hf; [|done].
  destruct (Local.collect_new_images_from_subreddit_local w fs subr flair)
    as [[s1 fc]|] eqn:E; [|done].
  cbn [mbind Result_bind]. intros [= <- <-].
  destruct (local_update_effect w fc subr (Stats.images s1))
    as (merged & _ & _ & _ & _ & Hdirs).
  rewrite Hdirs.
  apply collect_new_images_from_subreddit_local_ok in E as (ids & log & _ & H).
  apply (f_equal snd) in H. cbn [snd] in H. subst fc.
  unfold collect in *. cbn [snd store] in *.
  set (L0 := {| stats := Stats.init subr; new_images := []; store := fs |}).
  set (feed := take 1000 (subreddit_new w subr)).
  assert (Local.dirs fs
            ⊆ Local.dirs
                (store (collect_loop Local.flair_rejected Local.save_image
                          (λ t, t) w subr flair ids L0 feed))
          ∧ Local.dirs
              (store (collect_loop Local.flair_rejected Local.save_image
                        (λ t, t) w subr flair ids L0 feed))
            ⊆ {[ "data_collection"; DATA_DIR; Local.subr_dir DALLE_SUBR;
                 Local.subr_dir MIDJ_SUBR ]} ∪ Local.dirs fs) as [H1 H2].
  { apply (collect_loop_preserves_resolved Local.flair_rejected
             Local.save_image (λ t, t) w subr flair ids
             (λ st, Local.dirs fs ⊆ Local.dirs st
                    ∧ Local.dirs st
                      ⊆ {[ "data_collection"; DATA_DIR;
                           Local.subr_dir DALLE_SUBR;
                           Local.subr_dir MIDJ_SUBR ]} ∪ Local.dirs fs)
             feed L0).
    - intros st tag t f e c Ht [Ha Hb].
      assert (Local.dirs (Local.save_image w st t f e c).1
              = {[ "data_collection"; DATA_DIR; Local.subr_dir t ]}
                ∪ Local.dirs st) as ->.
      { unfold Local.save_image. by destruct (write_fails w _). }
      split; [etrans; [exact Ha | apply union_subseteq_r]|].
      apply union_least; [|done].
      intros d Hd. apply elem_of_union_l.
      rewrite !elem_of_union, !elem_of_singleton in Hd.
      rewrite !elem_of_union, !elem_of_singleton.
      destruct (resolved_target_cases subr tag t
                  (FLAIR_DICT_SUBREDDITS _ _ Hf) Ht) as [-> | ->]; tauto.
    - split; [done|]. simpl. apply union_subseteq_r. }
  split; [exact H1|]. split; [exact H2|]. intros Hn.
  assert (Local.subr_dir AIART_SUBR
          ∉ Local.dirs
              (store (collect_loop Local.flair_rejected Local.save_image
                        (λ t, t) w subr flair ids L0 feed))) as Hn'.
  { intros Hin. apply H2 in Hin.
    rewrite !elem_of_union, !elem_of_singleton in Hin.
    destruct Hin as [[[[Hin|Hin]|Hin]|Hin]|Hin];
      [vm_compute in Hin; discriminate Hin..|done]. }
  split; [done|].
  subst L0 feed. unfold Local.get_existing_image_ids_local.
  rewrite Hdirs. by rewrite bool_decide_eq_false_2.
Qed.

Lemma local_run_creates_only_target_directories_witness :
  match Local.run_subreddit Sample.world_aiart Sample.empty_fs "aiArt" with
  | Ok (stats, fs') =>
      Stats.new_images stats = 2
      ∧ Local.get_existing_image_ids_local fs' AIART_SUBR
        = Ok (∅, [{| levelname := WARNING; about := AIART_SUBR |}])
  | Raise _ => False
  end.
Proof.
  generalize SampleRuns.run_aiart_local.
  destruct (Local.run_subreddit _ _ _) as [[stats fs']|] eqn:E; [|done].
  intros Hn. split; [exact Hn|].
  destruct (local_run_creates_only_target_directories _ _ _ _ _ E)
    as (_ & _ & H).
  apply H. apply not_elem_of_empty.
Defined.
